(** * Account keys and accounts of the Flow CLI

    A shallow embedding of the account-key abstraction (package [flowkit]:
    the key factory, the four key variants Hex, File, Bip44 and KMS, their
    conversion back to configuration records, lazy materialisation of the
    private key) and of the accounts built from them (package [project]),
    with the properties the specification states about them.

    Go values are modelled as follows.
    - [error] is the text an error prints ([err.Error()]); [fmt.Errorf] is
      string concatenation, and [%w] keeps the text of the wrapped cause.
    - A Go function of type [(T, error)] returns a [result T]: every return
      statement of the sources is either [return v, nil] ([Ok v]) or
      [return nil, err] ([Err err]).
    - An interface value or pointer that may be [nil] is an [option].
    - A method with a pointer receiver that reads files, calls the
      derivation libraries or assigns to a field of its receiver is a
      function from the receiver and the [World] to a result, the updated
      receiver and the updated [World].
    - Functions of the libraries the sources import (crypto, bip39, slip10,
      go-ethereum accounts, cloudkms) are fields of the class [Libs]; every
      statement holds for all of them.

    - Functions of package [project] that its file calls and the sources
      at hand do not contain (the constructors [NewAccountKey] and
      [NewHexAccountKeyFromPrivateKey], the method [ToConfig] of its keys)
      are parameters of the functions that call them.

    Left out: the generation of random seeds and of the emulator service
    account. *)

From Stdlib Require Import ZArith String Ascii List Lia.
From stdpp Require Import base strings list gmap.

Set Default Proof Using "Type*".

(** ** Go values *)

Definition error : Type := string.

Inductive result (A : Type) : Type :=
| Ok (v : A)
| Err (err : error).
Arguments Ok {A} v.
Arguments Err {A} err.

(** The two components of a Go return pair [(v, err)]. *)
Definition value_of {A : Type} (r : result A) : option A :=
  match r with Ok v => Some v | Err _ => None end.

Definition error_of {A : Type} (r : result A) : option error :=
  match r with Ok _ => None | Err err => Some err end.

(** A call that cannot return an error value either returns or panics. *)
Inductive outcome (A : Type) : Type :=
| Returns (v : A)
| Panics (msg : string).
Arguments Returns {A} v.
Arguments Panics {A} msg.

(** The character [34], printed by the verb ["%s"] between quotes. *)
Definition dquote : string := String "034"%char EmptyString.

(** [strings.Contains text sub], as a proposition. *)
Definition Contains (text sub : string) : Prop :=
  exists before after : string, text = before +:+ sub +:+ after.

(** [strings.TrimPrefix]. *)
Definition TrimPrefix (s pre : string) : string :=
  if String.prefix pre s
  then String.substring (String.length pre) (String.length s - String.length pre) s
  else s.

(** ** Imported packages: types *)

Module crypto.

Inductive SignatureAlgorithm : Type :=
| UnknownSignatureAlgorithm
| BLS_BLS12_381
| ECDSA_P256
| ECDSA_secp256k1.

Inductive HashAlgorithm : Type :=
| UnknownHashAlgorithm
| SHA2_256
| SHA2_384
| SHA3_256
| SHA3_384
| KMAC128
| Keccak_256.

#[global] Instance SignatureAlgorithm_eq_dec : EqDecision SignatureAlgorithm.
Proof. solve_decision. Defined.

#[global] Instance HashAlgorithm_eq_dec : EqDecision HashAlgorithm.
Proof. solve_decision. Defined.

(** A private key: its algorithm and its encoded bytes. *)
Record PrivateKey : Type := mkPrivateKey {
  Algorithm : SignatureAlgorithm;
  Encode : list Byte.byte
}.

End crypto.

Module slip10.

Inductive Curve : Type :=
| CurveBitcoin
| CurveP256
| CurveEd25519.

End slip10.

(** [encoding/hex]: two digits of [hextable] for every byte, the high
    half first. *)
Module hex.

Definition hextable : string := "0123456789abcdef".

Definition digit (n : N) : ascii :=
  match String.get (N.to_nat n) hextable with
  | Some c => c
  | None => "0"%char
  end.

Fixpoint EncodeToString (src : list Byte.byte) : string :=
  match src with
  | [] => EmptyString
  | v :: rest =>
      String (digit (N.shiftr (Byte.to_N v) 4))
        (String (digit (N.land (Byte.to_N v) 15)) (EncodeToString rest))
  end.

End hex.

Module cloudkms.

(** The handle of a key held by the remote service. *)
Record Key : Type := mkKey {
  ProjectID : string;
  LocationID : string;
  KeyRingID : string;
  KeyID : string;
  KeyVersion : string
}.

End cloudkms.

Module flow.

(** An address is eight bytes. *)
Definition Address : Type := list Byte.byte.

End flow.

(** ** Package config: the configuration records

    The declarations of [config.AccountKey], [config.Account] and of the
    [KeyType] constants are not part of the sources at hand; the records
    have the fields the sources read and write, and the four constants are
    parameters, pairwise different as the cases of a Go switch are. *)

Module config.

Definition KeyType : Type := string.

Record AccountKey : Type := mkAccountKey {
  Type_ : KeyType;
  Index : Z;
  SigAlgo : crypto.SignatureAlgorithm;
  HashAlgo : crypto.HashAlgorithm;
  ResourceID : string;
  Mnemonic : string;
  DerivationPath : string;
  PrivateKey : option crypto.PrivateKey;
  Location : string
}.

Record Account : Type := mkAccount {
  Name : string;
  Address : flow.Address;
  Keys : list AccountKey
}.

Record Config : Type := mkConfig {
  Accounts : list Account
}.

Class KeyTypes : Type := {
  KeyTypeHex : KeyType;
  KeyTypeBip44 : KeyType;
  KeyTypeGoogleKMS : KeyType;
  KeyTypeFile : KeyType;
  KeyTypes_NoDup : NoDup [KeyTypeHex; KeyTypeBip44; KeyTypeGoogleKMS; KeyTypeFile]
}.

End config.

(** ** Imported packages: functions *)

Class Libs : Type := {
  (* crypto *)
  DecodePrivateKeyHex : crypto.SignatureAlgorithm -> string -> result crypto.PrivateKey;
  DecodePrivateKey : crypto.SignatureAlgorithm -> list Byte.byte -> result crypto.PrivateKey;
  Signer : Type;
  NewInMemorySigner : option crypto.PrivateKey -> crypto.HashAlgorithm -> result Signer;
  (* bip39 *)
  IsMnemonicValid : string -> bool;
  NewSeed : string -> string -> list Byte.byte;
  (* go-ethereum accounts *)
  ParseDerivationPath : string -> result (list N);
  (* slip10 *)
  slip10_Key : Type;
  Key : slip10_Key -> list Byte.byte;
  NewMasterKeyWithCurve : list Byte.byte -> slip10.Curve -> result slip10_Key;
  NewChildKey : slip10_Key -> N -> result slip10_Key;
  (* cloudkms *)
  KeyFromResourceID : string -> result cloudkms.Key;
  cloudkms_ResourceID : cloudkms.Key -> string;
  cloudkms_Client : Type;
  NewClient : result cloudkms_Client;
  SignerForKey : cloudkms_Client -> cloudkms.Key -> result Signer
}.

(** ** The world outside the process

    The files a key can be read from, and the log of the work done so far:
    file reads, derivations and remote calls, oldest first. *)

Inductive event : Type :=
| EvReadFile (name : string)
| EvNewMasterKey (seed : list Byte.byte) (curve : slip10.Curve)
| EvNewChildKey (n : N)
| EvNewClient
| EvSignerForKey (resourceID : string).

Record World : Type := mkWorld {
  files : gmap string string;
  trace : list event
}.

Definition emit (ev : event) (w : World) : World :=
  {| files := files w; trace := trace w ++ [ev] |}.

(** The reads of a key file and the derivations of a master key. *)
Definition is_read (ev : event) : bool :=
  match ev with EvReadFile _ => true | _ => false end.

Definition is_derivation (ev : event) : bool :=
  match ev with EvNewMasterKey _ _ => true | _ => false end.

Definition count (p : event -> bool) (w : World) : nat :=
  length (List.filter p (trace w)).

(** ** Methods: a state and error monad over the receiver and the world *)

Definition method (K A : Type) : Type := K -> World -> result A * K * World.

Definition ret {K A : Type} (v : A) : method K A :=
  fun k w => (Ok v, k, w).

Definition fail {K A : Type} (err : error) : method K A :=
  fun k w => (Err err, k, w).

Definition bind {K A B : Type} (m : method K A) (f : A -> method K B) : method K B :=
  fun k w =>
    match m k w with
    | (Ok v, k', w') => f v k' w'
    | (Err err, k', w') => (Err err, k', w')
    end.

Notation "'let*' x := m 'in' f" := (bind m (fun x => f))
  (at level 10, x name, m at level 100, f at level 200).
Notation "'do*' m 'in' f" := (bind m (fun _ => f))
  (at level 10, m at level 100, f at level 200).

(** The receiver, and an assignment to it. *)
Definition self {K : Type} : method K K :=
  fun k w => (Ok k, k, w).

Definition assign {K : Type} (f : K -> K) : method K unit :=
  fun k w => (Ok tt, f k, w).

(** A library call that touches nothing, and one that is logged. *)
Definition call {K A : Type} (r : result A) : method K A :=
  fun k w => (r, k, w).

Definition logged {K A : Type} (ev : event) (r : result A) : method K A :=
  fun k w => (r, k, emit ev w).

(** [if err != nil { return nil, fmt.Errorf(...) }]: the error replaced. *)
Definition or_else {K A : Type} (m : method K A) (f : error -> error) : method K A :=
  fun k w =>
    match m k w with
    | (Ok v, k', w') => (Ok v, k', w')
    | (Err err, k', w') => (Err (f err), k', w')
    end.

(** A method of one variant, seen as a method of the interface. *)
Definition via {K I A : Type} (inj : K -> I) (m : method K A) (k : K) : World -> result A * I * World :=
  fun w => match m k w with (r, k', w') => (r, inj k', w') end.

(** [os.ReadFile]. *)
Definition os_ReadFile {K : Type} (name : string) : method K string :=
  fun k w =>
    match files w !! name with
    | Some content => (Ok content, k, emit (EvReadFile name) w)
    | None => (Err ("open " +:+ name +:+ ": no such file or directory"), k,
               emit (EvReadFile name) w)
    end.

(** A method promoted from an embedded struct. *)
Definition promoted {K B A : Type} (get : K -> B) (set : B -> K -> K) (m : method B A) : method K A :=
  fun k w => match m (get k) w with (r, b', w') => (r, set b' k, w') end.

(** ** The process: its environment and the commands it runs

    [gcloudApplicationSignin] reads and sets an environment variable and
    runs the gcloud tool. The environment and the log of the commands run,
    oldest first, are the state of the process; what a command prints, how
    it is displayed and how [%q] quotes a text are parameters. *)

Record Process : Type := mkProcess {
  environ : gmap string string;
  commands : list (list string)
}.

Class Shell : Type := {
  (* os/exec: Cmd.CombinedOutput and Cmd.String, by the command line *)
  CombinedOutput : list string -> result string;
  Cmd_String : list string -> string;
  (* strconv: the verb %q *)
  Quote : string -> string
}.

(** [os.Getenv]: the empty string for a variable that is not set. *)
Definition os_Getenv (key : string) (p : Process) : string :=
  match environ p !! key with
  | Some value => value
  | None => EmptyString
  end.

Fixpoint has_NUL (s : string) : bool :=
  match s with
  | EmptyString => false
  | String c rest => if decide (c = "000"%char) then true else has_NUL rest
  end.

(** [os.Setenv] with a well-formed key: a value with a NUL byte is refused
    and the environment stays as it is (the sources drop the error). *)
Definition os_Setenv (key value : string) (p : Process) : Process :=
  if has_NUL value then p
  else {| environ := <[key := value]> (environ p); commands := commands p |}.

Definition ran (cmd : list string) (p : Process) : Process :=
  {| environ := environ p; commands := commands p ++ [cmd] |}.

(** The regular expression of [gcloudApplicationSignin]: an opening
    square bracket, any characters (line ends too) as a group, a closing
    square bracket. The leftmost match starts at the first opening bracket
    and, the group being greedy, ends at the last closing bracket after
    it. *)
Fixpoint after_first_open (s : string) : option string :=
  match s with
  | EmptyString => None
  | String c rest => if decide (c = "["%char) then Some rest else after_first_open rest
  end.

Fixpoint before_last_close (s : string) : option string :=
  match s with
  | EmptyString => None
  | String c rest =>
      match before_last_close rest with
      | Some inner => Some (String c inner)
      | None => if decide (c = "]"%char) then Some EmptyString else None
      end
  end.

(** [FindAllStringSubmatch(s, -1)]: the matches, each with the text of its
    group. After the first match no closing bracket is left, so there is at
    most one match. *)
Definition FindAllStringSubmatch (s : string) : list (string * string) :=
  match after_first_open s with
  | Some rest =>
      match before_last_close rest with
      | Some inner => [("[" +:+ inner +:+ "]", inner)]
      | None => []
      end
  | None => []
  end.

(** ** Package flowkit: account keys *)

Module flowkit.

Section flowkit.

Context {KT : config.KeyTypes} {L : Libs}.

Record baseAccountKey : Type := mkBase {
  keyType : config.KeyType;
  index : Z;
  sigAlgo : crypto.SignatureAlgorithm;
  hashAlgo : crypto.HashAlgorithm
}.

Definition baseKeyFromConfig (accountKeyConf : config.AccountKey) : baseAccountKey :=
  {| keyType := config.Type_ accountKeyConf;
     index := config.Index accountKeyConf;
     sigAlgo := config.SigAlgo accountKeyConf;
     hashAlgo := config.HashAlgo accountKeyConf |}.

Definition baseAccountKey_Type (a : baseAccountKey) : config.KeyType :=
  keyType a.

Definition baseAccountKey_SigAlgo (a : baseAccountKey) : crypto.SignatureAlgorithm :=
  if decide (sigAlgo a = crypto.UnknownSignatureAlgorithm)
  then crypto.ECDSA_P256
  else sigAlgo a.

Definition baseAccountKey_HashAlgo (a : baseAccountKey) : crypto.HashAlgorithm :=
  if decide (hashAlgo a = crypto.UnknownHashAlgorithm)
  then crypto.SHA3_256
  else hashAlgo a.

Definition baseAccountKey_Index (a : baseAccountKey) : Z :=
  index a.

Definition baseAccountKey_Validate : method baseAccountKey unit :=
  ret tt.

(** The four variants; each embeds a [baseAccountKey]. *)

Record KmsAccountKey : Type := mkKms {
  kms_base : baseAccountKey;
  kmsKey : cloudkms.Key
}.

Record HexAccountKey : Type := mkHex {
  hex_base : baseAccountKey;
  hex_privateKey : option crypto.PrivateKey
}.

Record FileAccountKey : Type := mkFile {
  file_base : baseAccountKey;
  file_privateKey : option crypto.PrivateKey;
  location : string
}.

Record Bip44AccountKey : Type := mkBip44 {
  bip44_base : baseAccountKey;
  bip44_privateKey : option crypto.PrivateKey;
  mnemonic : string;
  derivationPath : string
}.

(** The interface [AccountKey], implemented by the four variants. *)
Inductive AccountKey : Type :=
| Hex (a : HexAccountKey)
| Kms (a : KmsAccountKey)
| Bip44 (a : Bip44AccountKey)
| File (f : FileAccountKey).

(** *** KmsAccountKey *)

Definition KmsAccountKey_ToConfig (a : KmsAccountKey) : config.AccountKey :=
  {| config.Type_ := keyType (kms_base a);
     config.Index := index (kms_base a);
     config.SigAlgo := sigAlgo (kms_base a);
     config.HashAlgo := hashAlgo (kms_base a);
     config.ResourceID := cloudkms_ResourceID (kmsKey a);
     config.Mnemonic := EmptyString;
     config.DerivationPath := EmptyString;
     config.PrivateKey := None;
     config.Location := EmptyString |}.

Definition KmsAccountKey_Signer : method KmsAccountKey Signer :=
  let* a := self in
  let* kmsClient := logged EvNewClient NewClient in
  let* accountKMSSigner :=
    logged (EvSignerForKey (cloudkms_ResourceID (kmsKey a)))
           (SignerForKey kmsClient (kmsKey a)) in
  ret accountKMSSigner.

Definition KmsAccountKey_PrivateKey : method KmsAccountKey (option crypto.PrivateKey) :=
  fail "private key not accessible".

Definition kmsKeyFromConfig (key : config.AccountKey) : result AccountKey :=
  match KeyFromResourceID (config.ResourceID key) with
  | Err err => Err err
  | Ok accountKMSKey =>
      Ok (Kms {| kms_base := {| keyType := config.KeyTypeGoogleKMS;
                                index := config.Index key;
                                sigAlgo := config.SigAlgo key;
                                hashAlgo := config.HashAlgo key |};
                 kmsKey := accountKMSKey |})
  end.

(** *** HexAccountKey *)

Definition NewHexAccountKeyFromPrivateKey
  (index : Z) (hashAlgo : crypto.HashAlgorithm) (privateKey : crypto.PrivateKey) : HexAccountKey :=
  {| hex_base := {| keyType := config.KeyTypeHex;
                    index := index;
                    sigAlgo := crypto.Algorithm privateKey;
                    hashAlgo := hashAlgo |};
     hex_privateKey := Some privateKey |}.

Definition hexKeyFromConfig (accountKey : config.AccountKey) : result HexAccountKey :=
  Ok {| hex_base := baseKeyFromConfig accountKey;
        hex_privateKey := config.PrivateKey accountKey |}.

Definition HexAccountKey_Signer : method HexAccountKey Signer :=
  let* a := self in
  call (NewInMemorySigner (hex_privateKey a) (baseAccountKey_HashAlgo (hex_base a))).

Definition HexAccountKey_PrivateKey : method HexAccountKey (option crypto.PrivateKey) :=
  let* a := self in
  ret (hex_privateKey a).

Definition HexAccountKey_ToConfig (a : HexAccountKey) : config.AccountKey :=
  {| config.Type_ := keyType (hex_base a);
     config.Index := index (hex_base a);
     config.SigAlgo := sigAlgo (hex_base a);
     config.HashAlgo := hashAlgo (hex_base a);
     config.ResourceID := EmptyString;
     config.Mnemonic := EmptyString;
     config.DerivationPath := EmptyString;
     config.PrivateKey := hex_privateKey a;
     config.Location := EmptyString |}.

(** *** FileAccountKey *)

Definition fileKeyFromConfig (accountKey : config.AccountKey) : result FileAccountKey :=
  Ok {| file_base := baseKeyFromConfig accountKey;
        file_privateKey := None;
        location := config.Location accountKey |}.

Definition NewFileAccountKey
  (location : string) (index : Z)
  (sigAlgo : crypto.SignatureAlgorithm) (hashAlgo : crypto.HashAlgorithm) : FileAccountKey :=
  {| file_base := {| keyType := config.KeyTypeFile;
                     index := index;
                     sigAlgo := sigAlgo;
                     hashAlgo := hashAlgo |};
     file_privateKey := None;
     location := location |}.

Definition set_file_privateKey (pkey : option crypto.PrivateKey) (f : FileAccountKey) : FileAccountKey :=
  {| file_base := file_base f; file_privateKey := pkey; location := location f |}.

Definition set_file_base (b : baseAccountKey) (f : FileAccountKey) : FileAccountKey :=
  {| file_base := b; file_privateKey := file_privateKey f; location := location f |}.

Definition FileAccountKey_PrivateKey : method FileAccountKey (option crypto.PrivateKey) :=
  let* f := self in
  do* match file_privateKey f with
      | None => (* lazy load the key *)
          let* key :=
            or_else (os_ReadFile (location f))
              (fun err => "could not load the key for the account from provided location "
                          +:+ location f +:+ ": " +:+ err) in
          let* pkey :=
            or_else (call (DecodePrivateKeyHex (sigAlgo (file_base f)) (TrimPrefix key "0x")))
              (fun err => "could not decode the key from provided location "
                          +:+ location f +:+ ": " +:+ err) in
          assign (set_file_privateKey (Some pkey))
      | Some _ => ret tt
      end in
  let* f := self in
  ret (file_privateKey f).

Definition FileAccountKey_Signer : method FileAccountKey Signer :=
  let* key := FileAccountKey_PrivateKey in
  let* f := self in
  call (NewInMemorySigner key (baseAccountKey_HashAlgo (file_base f))).

Definition FileAccountKey_ToConfig (f : FileAccountKey) : config.AccountKey :=
  {| config.Type_ := config.KeyTypeFile;
     config.Index := 0%Z;
     config.SigAlgo := sigAlgo (file_base f);
     config.HashAlgo := hashAlgo (file_base f);
     config.ResourceID := EmptyString;
     config.Mnemonic := EmptyString;
     config.DerivationPath := EmptyString;
     config.PrivateKey := None;
     config.Location := location f |}.

(** [FileAccountKey] declares no [Validate]: the call reaches the method
    of the embedded [baseAccountKey]. *)
Definition FileAccountKey_Validate : method FileAccountKey unit :=
  promoted file_base set_file_base baseAccountKey_Validate.

(** *** Bip44AccountKey *)

Definition bip44KeyFromConfig (key : config.AccountKey) : result AccountKey :=
  Ok (Bip44 {| bip44_base := {| keyType := config.KeyTypeBip44;
                                index := config.Index key;
                                sigAlgo := config.SigAlgo key;
                                hashAlgo := config.HashAlgo key |};
               bip44_privateKey := None;
               mnemonic := config.Mnemonic key;
               derivationPath := config.DerivationPath key |}).

Definition set_bip44_privateKey (pkey : option crypto.PrivateKey) (a : Bip44AccountKey) : Bip44AccountKey :=
  {| bip44_base := bip44_base a;
     bip44_privateKey := pkey;
     mnemonic := mnemonic a;
     derivationPath := derivationPath a |}.

(** The loop [for _, n := range derivationPath] of [Validate]. *)
Fixpoint Validate_range (accountKey : slip10_Key) (derivationPath : list N)
  : method Bip44AccountKey slip10_Key :=
  match derivationPath with
  | [] => ret accountKey
  | n :: rest =>
      let* accountKey := logged (EvNewChildKey n) (NewChildKey accountKey n) in
      Validate_range accountKey rest
  end.

Definition Bip44AccountKey_Validate : method Bip44AccountKey unit :=
  let* a := self in
  if negb (IsMnemonicValid (mnemonic a))
  then fail "invalid mnemonic defined for account in flow.json"
  else
    let* derivationPath :=
      or_else (call (ParseDerivationPath (derivationPath a)))
        (fun _ => "invalid derivation path defined for account in flow.json") in
    let seed := NewSeed (mnemonic a) EmptyString in
    let curve :=
      if decide (sigAlgo (bip44_base a) = crypto.ECDSA_P256)
      then slip10.CurveP256
      else slip10.CurveBitcoin in
    let* accountKey := logged (EvNewMasterKey seed curve) (NewMasterKeyWithCurve seed curve) in
    let* accountKey := Validate_range accountKey derivationPath in
    match DecodePrivateKey (baseAccountKey_SigAlgo (bip44_base a)) (Key accountKey) with
    | Ok pkey => assign (set_bip44_privateKey (Some pkey))
    | Err err => do* assign (set_bip44_privateKey None) in fail err
    end.

Definition Bip44AccountKey_PrivateKey : method Bip44AccountKey (option crypto.PrivateKey) :=
  let* a := self in
  do* match bip44_privateKey a with
      | None => (* lazy load *) Bip44AccountKey_Validate
      | Some _ => ret tt
      end in
  let* a := self in
  ret (bip44_privateKey a).

Definition Bip44AccountKey_Signer : method Bip44AccountKey Signer :=
  let* pkey := Bip44AccountKey_PrivateKey in
  let* a := self in
  call (NewInMemorySigner pkey (baseAccountKey_HashAlgo (bip44_base a))).

Definition Bip44AccountKey_ToConfig (a : Bip44AccountKey) : config.AccountKey :=
  {| config.Type_ := keyType (bip44_base a);
     config.Index := index (bip44_base a);
     config.SigAlgo := sigAlgo (bip44_base a);
     config.HashAlgo := hashAlgo (bip44_base a);
     config.ResourceID := EmptyString;
     config.Mnemonic := mnemonic a;
     config.DerivationPath := derivationPath a;
     config.PrivateKey := bip44_privateKey a;
     config.Location := EmptyString |}.

(** *** The interface methods, by dynamic dispatch *)

Definition AccountKey_base (k : AccountKey) : baseAccountKey :=
  match k with
  | Hex a => hex_base a
  | Kms a => kms_base a
  | Bip44 a => bip44_base a
  | File f => file_base f
  end.

Definition AccountKey_Type (k : AccountKey) : config.KeyType :=
  baseAccountKey_Type (AccountKey_base k).

Definition AccountKey_Index (k : AccountKey) : Z :=
  baseAccountKey_Index (AccountKey_base k).

Definition AccountKey_SigAlgo (k : AccountKey) : crypto.SignatureAlgorithm :=
  baseAccountKey_SigAlgo (AccountKey_base k).

Definition AccountKey_HashAlgo (k : AccountKey) : crypto.HashAlgorithm :=
  baseAccountKey_HashAlgo (AccountKey_base k).

Definition AccountKey_ToConfig (k : AccountKey) : config.AccountKey :=
  match k with
  | Hex a => HexAccountKey_ToConfig a
  | Kms a => KmsAccountKey_ToConfig a
  | Bip44 a => Bip44AccountKey_ToConfig a
  | File f => FileAccountKey_ToConfig f
  end.

Definition AccountKey_PrivateKey : method AccountKey (option crypto.PrivateKey) :=
  fun k =>
    match k with
    | Hex a => via Hex HexAccountKey_PrivateKey a
    | Kms a => via Kms KmsAccountKey_PrivateKey a
    | Bip44 a => via Bip44 Bip44AccountKey_PrivateKey a
    | File f => via File FileAccountKey_PrivateKey f
    end.

Definition AccountKey_Signer : method AccountKey Signer :=
  fun k =>
    match k with
    | Hex a => via Hex HexAccountKey_Signer a
    | Kms a => via Kms KmsAccountKey_Signer a
    | Bip44 a => via Bip44 Bip44AccountKey_Signer a
    | File f => via File FileAccountKey_Signer f
    end.

(** *** The key factory *)

(** A [*HexAccountKey] or [*FileAccountKey] returned as an [AccountKey]. *)
Definition as_AccountKey {K : Type} (inj : K -> AccountKey) (r : result K) : result AccountKey :=
  match r with
  | Ok k => Ok (inj k)
  | Err err => Err err
  end.

Definition accountKeyFromConfig (accountKeyConf : config.AccountKey) : result AccountKey :=
  if decide (config.Type_ accountKeyConf = config.KeyTypeHex)
  then as_AccountKey Hex (hexKeyFromConfig accountKeyConf)
  else if decide (config.Type_ accountKeyConf = config.KeyTypeBip44)
  then bip44KeyFromConfig accountKeyConf
  else if decide (config.Type_ accountKeyConf = config.KeyTypeGoogleKMS)
  then kmsKeyFromConfig accountKeyConf
  else if decide (config.Type_ accountKeyConf = config.KeyTypeFile)
  then as_AccountKey File (fileKeyFromConfig accountKeyConf)
  else Err ("invalid key type: " +:+ dquote +:+ config.Type_ accountKeyConf +:+ dquote).

End flowkit.

Section hex_text.

Context {KT : config.KeyTypes} {L : Libs}.

(** A method called on a nil interface value. *)
Definition nil_dereference : string :=
  "runtime error: invalid memory address or nil pointer dereference".

Definition HexAccountKey_PrivateKeyHex (a : HexAccountKey) : outcome string :=
  match hex_privateKey a with
  | Some privateKey => Returns (hex.EncodeToString (crypto.Encode privateKey))
  | None => Panics nil_dereference
  end.

Definition HexAccountKey_Validate (a : HexAccountKey) : outcome (result unit) :=
  match HexAccountKey_PrivateKeyHex a with
  | Panics msg => Panics msg
  | Returns text =>
      match DecodePrivateKeyHex (sigAlgo (hex_base a)) text with
      | Err err => Returns (Err ("invalid private key: " +:+ err))
      | Ok _ => Returns (Ok tt)
      end
  end.

Definition Bip44AccountKey_PrivateKeyHex (a : Bip44AccountKey) : outcome string :=
  match bip44_privateKey a with
  | Some privateKey => Returns (hex.EncodeToString (crypto.Encode privateKey))
  | None => Panics nil_dereference
  end.

End hex_text.

Section gcloud.

Context {KT : config.KeyTypes} {L : Libs} {SH : Shell}.

Definition GOOGLE_APPLICATION_CREDENTIALS : string := "GOOGLE_APPLICATION_CREDENTIALS".

(** The command line of the login, for a project. *)
Definition loginCmd (proj : string) : list string :=
  ["gcloud"; "auth"; "application-default"; "login"; "--project=" +:+ proj].

Definition gcloudApplicationSignin (resourceID : string) (p : Process)
  : outcome (result unit) * Process :=
  let googleAppCreds := os_Getenv GOOGLE_APPLICATION_CREDENTIALS p in
  if (0 <? String.length googleAppCreds)%nat then (Returns (Ok tt), p)
  else
    match KeyFromResourceID resourceID with
    | Err err => (Returns (Err err), p)
    | Ok kms =>
        let proj := cloudkms.ProjectID kms in
        if (String.length proj =? 0)%nat
        then (Returns (Err "could not get GOOGLE_APPLICATION_CREDENTIALS, no google service account JSON provided but private key type is KMS"), p)
        else
          match CombinedOutput (loginCmd proj) with
          | Err err =>
              (Returns (Err ("Failed to run " +:+ Quote (Cmd_String (loginCmd proj))
                             +:+ ": " +:+ err +:+ String "010"%char EmptyString)),
               ran (loginCmd proj) p)
          | Ok output =>
              match FindAllStringSubmatch output with
              | [] => (Panics "runtime error: index out of range [0] with length 0",
                       ran (loginCmd proj) p)
              | (_, googleApplicationCreds) :: _ =>
                  (Returns (Ok tt),
                   os_Setenv GOOGLE_APPLICATION_CREDENTIALS googleApplicationCreds
                     (ran (loginCmd proj) p))
              end
          end
    end.

Definition KmsAccountKey_Validate (a : KmsAccountKey) (p : Process)
  : outcome (result unit) * Process :=
  gcloudApplicationSignin (cloudkms_ResourceID (kmsKey a)) p.

End gcloud.

End flowkit.

(** ** Package project: accounts *)

Module project.

Section project.

Context {KT : config.KeyTypes} {L : Libs}.

Record Account : Type := mkAccount {
  name : string;
  address : flow.Address;
  keys : list flowkit.AccountKey
}.

Definition Address (a : Account) : flow.Address := address a.

Definition Name (a : Account) : string := name a.

Definition Keys (a : Account) : list flowkit.AccountKey := keys a.

(** [a.keys[0]]: Go checks the bounds of every index expression and panics
    when the index is not below the length. *)
Definition DefaultKey (a : Account) : outcome flowkit.AccountKey :=
  match keys a !! 0%nat with
  | Some key => Returns key
  | None => Panics "runtime error: index out of range [0] with length 0"
  end.

Definition SetDefaultKey (key : flowkit.AccountKey) (a : Account) : outcome Account :=
  match keys a !! 0%nat with
  | Some _ => Returns {| name := name a; address := address a; keys := <[0%nat := key]> (keys a) |}
  | None => Panics "runtime error: index out of range [0] with length 0"
  end.

(** [NewAccountKey], the constructor of a key from its configuration
    record that [AccountFromConfig] calls, is not part of the sources at
    hand: it is a parameter of the two conversions below. The key factory
    [flowkit.accountKeyFromConfig] is one such constructor. *)
Variable NewAccountKey : config.AccountKey -> result flowkit.AccountKey.

(** The loop of [AccountFromConfig] over the key records left to convert,
    [accountKeys] being the keys appended so far. *)
Fixpoint AccountFromConfig_range
  (Keys : list config.AccountKey) (accountKeys : list flowkit.AccountKey)
  : result (list flowkit.AccountKey) :=
  match Keys with
  | [] => Ok accountKeys
  | key :: rest =>
      match NewAccountKey key with
      | Err err => Err err
      | Ok accountKey => AccountFromConfig_range rest (accountKeys ++ [accountKey])
      end
  end.

Definition AccountFromConfig (accountConf : config.Account) : result Account :=
  match AccountFromConfig_range (config.Keys accountConf) [] with
  | Err err => Err err
  | Ok accountKeys =>
      Ok {| name := config.Name accountConf;
            address := config.Address accountConf;
            keys := accountKeys |}
  end.

(** The loop of [accountsFromConfig]. *)
Fixpoint accountsFromConfig_range
  (Accounts : list config.Account) (accounts : list Account) : result (list Account) :=
  match Accounts with
  | [] => Ok accounts
  | accountConf :: rest =>
      match AccountFromConfig accountConf with
      | Err err => Err err
      | Ok account => accountsFromConfig_range rest (accounts ++ [account])
      end
  end.

Definition accountsFromConfig (conf : config.Config) : result (list Account) :=
  accountsFromConfig_range (config.Accounts conf) [].

(** [NewHexAccountKeyFromPrivateKey] and the method [ToConfig] of the keys
    are those of package [project] itself, and are not part of the sources
    at hand either: the constructor of a Hex key is a parameter of
    [AccountFromAddressAndKey], the method a parameter of the two
    conversions to records. *)
Variable NewHexAccountKeyFromPrivateKey :
  Z -> crypto.HashAlgorithm -> crypto.PrivateKey -> flowkit.AccountKey.

Variable ToConfig : flowkit.AccountKey -> config.AccountKey.

Definition AccountFromAddressAndKey (address : flow.Address) (privateKey : crypto.PrivateKey) : Account :=
  let key := NewHexAccountKeyFromPrivateKey 0%Z crypto.SHA3_256 privateKey in
  {| name := EmptyString; address := address; keys := [key] |}.

(** The loop of [accountToConfig] over the keys left to convert,
    [keyConfigs] being the records appended so far. *)
Fixpoint accountToConfig_range
  (keys : list flowkit.AccountKey) (keyConfigs : list config.AccountKey)
  : list config.AccountKey :=
  match keys with
  | [] => keyConfigs
  | key :: rest => accountToConfig_range rest (keyConfigs ++ [ToConfig key])
  end.

Definition accountToConfig (account : Account) : config.Account :=
  let keyConfigs := accountToConfig_range (keys account) [] in
  {| config.Name := name account;
     config.Address := address account;
     config.Keys := keyConfigs |}.

(** The loop of [accountsToConfig]. *)
Fixpoint accountsToConfig_range
  (accounts : list Account) (accountConfs : list config.Account) : list config.Account :=
  match accounts with
  | [] => accountConfs
  | account :: rest => accountsToConfig_range rest (accountConfs ++ [accountToConfig account])
  end.

Definition accountsToConfig (accounts : list Account) : list config.Account :=
  accountsToConfig_range accounts [].

End project.

End project.

(** ** Concrete parameters, to run the model

    The key-type tags as the configuration files write them, and small
    stand-ins for the imported libraries: they accept one mnemonic, one
    derivation path and one resource identifier, take the first bytes of
    the mnemonic as its seed and derive keys by concatenation. *)

Module sample.

#[local] Instance tags : config.KeyTypes.
Proof.
  refine {| config.KeyTypeHex := "hex";
            config.KeyTypeBip44 := "bip44";
            config.KeyTypeGoogleKMS := "google-kms";
            config.KeyTypeFile := "file" |}.
  apply (bool_decide_unpack _). vm_compute. reflexivity.
Defined.

Definition hex_digit (c : ascii) : option N :=
  let n := N_of_ascii c in
  if ((48 <=? n) && (n <=? 57))%N then Some (n - 48)%N
  else if ((97 <=? n) && (n <=? 102))%N then Some (n - 87)%N
  else None.

Fixpoint decode_hex (s : string) : option (list Byte.byte) :=
  match s with
  | EmptyString => Some []
  | String hi (String lo rest) =>
      match hex_digit hi, hex_digit lo, decode_hex rest with
      | Some h, Some l, Some bs =>
          match Byte.of_N (16 * h + l) with
          | Some b => Some (b :: bs)
          | None => None
          end
      | _, _, _ => None
      end
  | String _ EmptyString => None
  end.

Definition mnemonic12 : string :=
  "abandon abandon abandon abandon abandon abandon abandon abandon abandon abandon abandon about".

Definition path539 : string := "m/44'/539'/0'/0/0".

Definition resource1 : string :=
  "projects/flow/locations/global/keyRings/cli/cryptoKeys/signer/cryptoKeyVersions/1".

Definition curve_byte (curve : slip10.Curve) : Byte.byte :=
  match curve with
  | slip10.CurveBitcoin => Byte.x01
  | slip10.CurveP256 => Byte.x02
  | slip10.CurveEd25519 => Byte.x03
  end.

Definition index_byte (n : N) : Byte.byte :=
  match Byte.of_N (n mod 256) with
  | Some b => b
  | None => Byte.x00
  end.

#[local] Instance libs : Libs :=
  {| DecodePrivateKeyHex algo s :=
       match decode_hex s with
       | Some (b :: bs) => Ok (crypto.mkPrivateKey algo (b :: bs))
       | _ => Err "invalid private key"
       end;
     DecodePrivateKey algo bs :=
       match bs with
       | [] => Err "invalid private key"
       | _ => Ok (crypto.mkPrivateKey algo bs)
       end;
     Signer := (option crypto.PrivateKey * crypto.HashAlgorithm)%type;
     NewInMemorySigner key hashAlgo := Ok (key, hashAlgo);
     IsMnemonicValid m := bool_decide (m = mnemonic12);
     NewSeed m passphrase := take 4 (list_byte_of_string (m +:+ passphrase));
     ParseDerivationPath p :=
       if decide (p = path539)
       then Ok [2147483692; 2147484187; 2147483648; 0; 0]%N
       else Err "invalid derivation path";
     slip10_Key := list Byte.byte;
     Key k := k;
     NewMasterKeyWithCurve seed curve := Ok (curve_byte curve :: seed);
     NewChildKey k n := Ok (k ++ [index_byte n]);
     KeyFromResourceID resourceID :=
       if decide (resourceID = resource1)
       then Ok (cloudkms.mkKey "flow" "global" "cli" "signer" "1")
       else Err "cloudkms: key resource ID has invalid format";
     cloudkms_ResourceID k :=
       "projects/" +:+ cloudkms.ProjectID k
       +:+ "/locations/" +:+ cloudkms.LocationID k
       +:+ "/keyRings/" +:+ cloudkms.KeyRingID k
       +:+ "/cryptoKeys/" +:+ cloudkms.KeyID k
       +:+ "/cryptoKeyVersions/" +:+ cloudkms.KeyVersion k;
     cloudkms_Client := unit;
     NewClient := Ok tt;
     SignerForKey _ _ := Ok (None, crypto.SHA2_256) |}.

(** A world with one key file. *)
Definition world : World :=
  {| files := {[ "emulator.pkey" := "0x0a0b0c" ]}; trace := [] |}.

(** Four accounts; the key of the third has a tag outside the enumeration. *)
Definition key_record (tag : config.KeyType) (location : string) : config.AccountKey :=
  {| config.Type_ := tag;
     config.Index := 0;
     config.SigAlgo := crypto.ECDSA_P256;
     config.HashAlgo := crypto.SHA3_256;
     config.ResourceID := EmptyString;
     config.Mnemonic := EmptyString;
     config.DerivationPath := EmptyString;
     config.PrivateKey := None;
     config.Location := location |}.

Definition account_record (name : string) (key : config.AccountKey) : config.Account :=
  {| config.Name := name; config.Address := []; config.Keys := [key] |}.

Definition conf : config.Config :=
  {| config.Accounts :=
       [account_record "emulator-account" (key_record "file" "emulator.pkey");
        account_record "alice" (key_record "hex" EmptyString);
        account_record "bob" (key_record "unknown-type" EmptyString);
        account_record "carol" (key_record "file" "carol.pkey")] |}.

(** A Bip44 record with the accepted mnemonic and path and no signature
    algorithm, and the key the factory builds from it. *)
Definition derived_record : config.AccountKey :=
  {| config.Type_ := "bip44";
     config.Index := 0;
     config.SigAlgo := crypto.UnknownSignatureAlgorithm;
     config.HashAlgo := crypto.UnknownHashAlgorithm;
     config.ResourceID := EmptyString;
     config.Mnemonic := mnemonic12;
     config.DerivationPath := path539;
     config.PrivateKey := None;
     config.Location := EmptyString |}.

Definition derived : flowkit.Bip44AccountKey :=
  {| flowkit.bip44_base := {| flowkit.keyType := "bip44";
                              flowkit.index := 0;
                              flowkit.sigAlgo := crypto.UnknownSignatureAlgorithm;
                              flowkit.hashAlgo := crypto.UnknownHashAlgorithm |};
     flowkit.bip44_privateKey := None;
     flowkit.mnemonic := mnemonic12;
     flowkit.derivationPath := path539 |}.

(** What the stand-ins derive for [derived]: the key, and the world after
    the derivation. *)
Definition derived_key : crypto.PrivateKey :=
  crypto.mkPrivateKey crypto.ECDSA_P256
    [Byte.x01; Byte.x61; Byte.x62; Byte.x61; Byte.x6e;
     Byte.x2c; Byte.x1b; Byte.x00; Byte.x00; Byte.x00].

Definition derived_world : World :=
  {| files := files world;
     trace := [EvNewMasterKey [Byte.x61; Byte.x62; Byte.x61; Byte.x6e] slip10.CurveBitcoin;
               EvNewChildKey 2147483692; EvNewChildKey 2147484187;
               EvNewChildKey 2147483648; EvNewChildKey 0; EvNewChildKey 0] |}.

(** A KMS record the stand-ins accept. *)
Definition kms_record : config.AccountKey :=
  {| config.Type_ := "google-kms";
     config.Index := 0;
     config.SigAlgo := crypto.ECDSA_P256;
     config.HashAlgo := crypto.SHA2_256;
     config.ResourceID := resource1;
     config.Mnemonic := EmptyString;
     config.DerivationPath := EmptyString;
     config.PrivateKey := None;
     config.Location := EmptyString |}.

(** A stand-in for the shell: the login succeeds for the project [flow]
    and prints where it saved the credentials. *)
Definition credentials_file : string :=
  "/home/flow/.config/gcloud/application_default_credentials.json".

#[local] Instance shell : Shell :=
  {| CombinedOutput cmd :=
       if decide (cmd = ["gcloud"; "auth"; "application-default"; "login"; "--project=flow"])
       then Ok ("Credentials saved to file: [" +:+ credentials_file +:+ "]")
       else Err "exit status 1";
     Cmd_String cmd := String.concat " " cmd;
     Quote text := dquote +:+ text +:+ dquote |}.

Definition process : Process := {| environ := ∅; commands := [] |}.

(** Two accounts that convert, and an account record without keys. *)
Definition conf2 : config.Config :=
  {| config.Accounts :=
       [account_record "emulator-account" (key_record "file" "emulator.pkey");
        account_record "alice" (key_record "hex" EmptyString)] |}.

Definition keyless_record : config.Account :=
  {| config.Name := "nobody"; config.Address := []; config.Keys := [] |}.

(** The accounts [conf2] converts to. *)
Definition accounts2 : list project.Account :=
  [{| project.name := "emulator-account";
      project.address := [];
      project.keys :=
        [flowkit.File {| flowkit.file_base := {| flowkit.keyType := "file";
                                                 flowkit.index := 0;
                                                 flowkit.sigAlgo := crypto.ECDSA_P256;
                                                 flowkit.hashAlgo := crypto.SHA3_256 |};
                         flowkit.file_privateKey := None;
                         flowkit.location := "emulator.pkey" |}] |};
   {| project.name := "alice";
      project.address := [];
      project.keys :=
        [flowkit.Hex {| flowkit.hex_base := {| flowkit.keyType := "hex";
                                               flowkit.index := 0;
                                               flowkit.sigAlgo := crypto.ECDSA_P256;
                                               flowkit.hashAlgo := crypto.SHA3_256 |};
                        flowkit.hex_privateKey := None |}] |}].

(** The stand-ins again, with a library that refuses the child [0]. *)
#[local] Instance libs_refusing : Libs :=
  {| DecodePrivateKeyHex := @DecodePrivateKeyHex libs;
     DecodePrivateKey := @DecodePrivateKey libs;
     Signer := @Signer libs;
     NewInMemorySigner := @NewInMemorySigner libs;
     IsMnemonicValid := @IsMnemonicValid libs;
     NewSeed := @NewSeed libs;
     ParseDerivationPath := @ParseDerivationPath libs;
     slip10_Key := list Byte.byte;
     Key k := k;
     NewMasterKeyWithCurve seed curve := Ok (curve_byte curve :: seed);
     NewChildKey k n :=
       if decide (n = 0%N) then Err "slip10: invalid child index" else Ok (k ++ [index_byte n]);
     KeyFromResourceID := @KeyFromResourceID libs;
     cloudkms_ResourceID := @cloudkms_ResourceID libs;
     cloudkms_Client := unit;
     NewClient := Ok tt;
     SignerForKey _ _ := Ok (None, crypto.SHA2_256) |}.

(** A shell whose login prints no file name. *)
#[local] Instance shell_quiet : Shell :=
  {| CombinedOutput cmd := Ok "You are now logged in.";
     Cmd_String cmd := String.concat " " cmd;
     Quote text := dquote +:+ text +:+ dquote |}.

(** A world without files, and one whose key file has no [0x]. *)
Definition world_empty : World := {| files := ∅; trace := [] |}.

Definition world_plain : World :=
  {| files := {[ "emulator.pkey" := "0a0b0c" ]}; trace := [] |}.

(** An account without keys. *)
Definition nobody : project.Account :=
  {| project.name := "nobody"; project.address := []; project.keys := [] |}.

End sample.

(** * The vocabulary of the statements *)

(** The error kinds of the specification, as the texts the code prints. *)
Definition UnsupportedKeyType (tag : config.KeyType) : error :=
  "invalid key type: " +:+ dquote +:+ tag +:+ dquote.

Definition KeyFileUnreadable (location cause : string) : error :=
  "could not load the key for the account from provided location "
  +:+ location +:+ ": " +:+ cause.

Definition KeyDecodeError (location cause : string) : error :=
  "could not decode the key from provided location " +:+ location +:+ ": " +:+ cause.

Definition InvalidMnemonic : error :=
  "invalid mnemonic defined for account in flow.json".

Definition InvalidDerivationPath : error :=
  "invalid derivation path defined for account in flow.json".

Definition KeyNotAccessible : error := "private key not accessible".

(** The shape the two loops of package [project] share: convert the
    elements in order, append the results, stop at the first error. *)
Fixpoint collect {A B : Type} (f : A -> result B) (xs : list A) (acc : list B)
  : result (list B) :=
  match xs with
  | [] => Ok acc
  | x :: rest =>
      match f x with
      | Err err => Err err
      | Ok y => collect f rest (acc ++ [y])
      end
  end.

Section vocabulary.

Context {KT : config.KeyTypes} {L : Libs}.

(** The tags of the closed enumeration. *)
Definition enumeration : list config.KeyType :=
  [config.KeyTypeHex; config.KeyTypeBip44; config.KeyTypeGoogleKMS; config.KeyTypeFile].

(** The closed enumeration of the variants, and the variant of a key. *)
Inductive variant : Type :=
| Inline
| FileBacked
| Derived
| KMS.

Definition variant_of (k : flowkit.AccountKey) : variant :=
  match k with
  | flowkit.Hex _ => Inline
  | flowkit.Kms _ => KMS
  | flowkit.Bip44 _ => Derived
  | flowkit.File _ => FileBacked
  end.

(** The variants whose private key is materialised on first use. *)
Definition lazily_materialized (k : flowkit.AccountKey) : bool :=
  match k with
  | flowkit.File _ | flowkit.Bip44 _ => true
  | flowkit.Hex _ | flowkit.Kms _ => false
  end.

(** The variants that are to keep their private key out of the record. *)
Definition keeps_key_private (k : flowkit.AccountKey) : bool :=
  match k with
  | flowkit.File _ | flowkit.Bip44 _ | flowkit.Kms _ => true
  | flowkit.Hex _ => false
  end.

(** The curve [Validate] hands to [slip10.NewMasterKeyWithCurve]. *)
Definition curve_of (a : flowkit.Bip44AccountKey) : slip10.Curve :=
  if decide (flowkit.sigAlgo (flowkit.bip44_base a) = crypto.ECDSA_P256)
  then slip10.CurveP256
  else slip10.CurveBitcoin.

(** Calls made on a key, one after the other, whatever they return. *)
Inductive invocation : Type :=
| CallPrivateKey
| CallSigner.

Definition invoke (i : invocation) (k : flowkit.AccountKey) (w : World)
  : flowkit.AccountKey * World :=
  match i with
  | CallPrivateKey => (snd (fst (flowkit.AccountKey_PrivateKey k w)),
                       snd (flowkit.AccountKey_PrivateKey k w))
  | CallSigner => (snd (fst (flowkit.AccountKey_Signer k w)),
                   snd (flowkit.AccountKey_Signer k w))
  end.

Fixpoint after (calls : list invocation) (k : flowkit.AccountKey) (w : World)
  : flowkit.AccountKey * World :=
  match calls with
  | [] => (k, w)
  | i :: rest => after rest (fst (invoke i k w)) (snd (invoke i k w))
  end.

(** Statements of the specification that the code does not satisfy, in the
    specification's words. *)

(** No File, Derived or KMS key has private key material in its record
    after [PrivateKey] or [Signer] succeeded on it. *)
Definition record_never_holds_key : Prop :=
  forall (k k1 : flowkit.AccountKey) (w w1 : World),
    keeps_key_private k = true ->
    ((exists m, flowkit.AccountKey_PrivateKey k w = (Ok m, k1, w1))
     \/ (exists s, flowkit.AccountKey_Signer k w = (Ok s, k1, w1))) ->
    config.PrivateKey (flowkit.AccountKey_ToConfig k1) = None.

(** A Derived record without mnemonic or without path is refused by the
    factory. *)
Definition factory_requires_mnemonic_and_path : Prop :=
  forall c : config.AccountKey,
    config.Type_ c = config.KeyTypeBip44 ->
    config.Mnemonic c = EmptyString \/ config.DerivationPath c = EmptyString ->
    exists err, flowkit.accountKeyFromConfig c = Err err.

(** The record of a File key has the index of the key. *)
Definition file_record_has_index : Prop :=
  forall f : flowkit.FileAccountKey,
    config.Index (flowkit.AccountKey_ToConfig (flowkit.File f))
    = flowkit.AccountKey_Index (flowkit.File f).

(** The curve of a derivation is P-256 whenever [SigAlgo()] is P-256. *)
Definition curve_follows_resolved_algorithm : Prop :=
  forall a : flowkit.Bip44AccountKey,
    flowkit.AccountKey_SigAlgo (flowkit.Bip44 a) = crypto.ECDSA_P256 ->
    curve_of a = slip10.CurveP256.

(** Two calls of [PrivateKey] on a File or Derived key, one after the
    other, read the key file or derive the master key at most once, and
    return the same. *)
Definition materialized_at_most_once : Prop :=
  forall (k : flowkit.AccountKey) (w : World),
    lazily_materialized k = true ->
    let first := flowkit.AccountKey_PrivateKey k w in
    let second := flowkit.AccountKey_PrivateKey (snd (fst first)) (snd first) in
    (count is_read (snd second) + count is_derivation (snd second)
     <= count is_read w + count is_derivation w + 1)%nat
    /\ fst (fst second) = fst (fst first).

(** The run-time panic of an index expression out of range. *)
Definition index_out_of_range (msg : string) : bool :=
  String.prefix "runtime error: index out of range" msg.

(** On an empty key list [DefaultKey] fails with an error of its own
    rather than by indexing the list out of range. *)
Definition fails_with_NoKeysConfigured (a : project.Account) : Prop :=
  exists msg, project.DefaultKey a = Panics msg /\ index_out_of_range msg = false.

(** The child key at the end of a derivation path, by the library alone. *)
Fixpoint derive (key : slip10_Key) (path : list N) : result slip10_Key :=
  match path with
  | [] => Ok key
  | n :: rest =>
      match NewChildKey key n with
      | Ok child => derive child rest
      | Err err => Err err
      end
  end.

(** The path segments [Validate] asks a child key for: all of them, or
    those up to the first the library refuses. *)
Fixpoint attempted (key : slip10_Key) (path : list N) : list N :=
  match path with
  | [] => []
  | n :: rest =>
      n :: match NewChildKey key n with
           | Ok child => attempted child rest
           | Err _ => []
           end
  end.

(** The private key material a key holds. *)
Definition held (k : flowkit.AccountKey) : option crypto.PrivateKey :=
  match k with
  | flowkit.Hex a => flowkit.hex_privateKey a
  | flowkit.Kms _ => None
  | flowkit.Bip44 a => flowkit.bip44_privateKey a
  | flowkit.File f => flowkit.file_privateKey f
  end.

(** A key with other material in its cache; Hex and KMS keys have none. *)
Definition with_held (c : option crypto.PrivateKey) (k : flowkit.AccountKey)
  : flowkit.AccountKey :=
  match k with
  | flowkit.Bip44 a => flowkit.Bip44 (flowkit.set_bip44_privateKey c a)
  | flowkit.File f => flowkit.File (flowkit.set_file_privateKey c f)
  | flowkit.Hex _ | flowkit.Kms _ => k
  end.

(** A record without its private key. *)
Definition without_key (r : config.AccountKey) : config.AccountKey :=
  {| config.Type_ := config.Type_ r;
     config.Index := config.Index r;
     config.SigAlgo := config.SigAlgo r;
     config.HashAlgo := config.HashAlgo r;
     config.ResourceID := config.ResourceID r;
     config.Mnemonic := config.Mnemonic r;
     config.DerivationPath := config.DerivationPath r;
     config.PrivateKey := None;
     config.Location := config.Location r |}.

(** Whether a character occurs in a text. *)
Fixpoint mentions (c : ascii) (s : string) : bool :=
  match s with
  | EmptyString => false
  | String c' rest => if decide (c' = c) then true else mentions c rest
  end.

(** The world with more events logged. *)
Definition logging (evs : list event) (w : World) : World :=
  {| files := files w; trace := trace w ++ evs |}.

(** The keys that the factory builds again from their own record: the tag
    is the tag of the variant, nothing is held that the record leaves out
    (the material of a Bip44 or File key, the index of a File key), and the
    library reads back the resource identifier it prints for a KMS key. *)
Definition restorable (k : flowkit.AccountKey) : Prop :=
  match k with
  | flowkit.Hex a => flowkit.keyType (flowkit.hex_base a) = config.KeyTypeHex
  | flowkit.Bip44 a =>
      flowkit.keyType (flowkit.bip44_base a) = config.KeyTypeBip44
      /\ flowkit.bip44_privateKey a = None
  | flowkit.File f =>
      flowkit.keyType (flowkit.file_base f) = config.KeyTypeFile
      /\ flowkit.index (flowkit.file_base f) = 0%Z
      /\ flowkit.file_privateKey f = None
  | flowkit.Kms a =>
      flowkit.keyType (flowkit.kms_base a) = config.KeyTypeGoogleKMS
      /\ KeyFromResourceID (cloudkms_ResourceID (flowkit.kmsKey a)) = Ok (flowkit.kmsKey a)
  end.

(** The algorithm defaults. *)
Definition default_SigAlgo (algo : crypto.SignatureAlgorithm) : crypto.SignatureAlgorithm :=
  match algo with
  | crypto.UnknownSignatureAlgorithm => crypto.ECDSA_P256
  | _ => algo
  end.

Definition default_HashAlgo (algo : crypto.HashAlgorithm) : crypto.HashAlgorithm :=
  match algo with
  | crypto.UnknownHashAlgorithm => crypto.SHA3_256
  | _ => algo
  end.

(** The variant a tag of the enumeration stands for. *)
Definition variant_of_tag (tag : config.KeyType) : option variant :=
  if decide (tag = config.KeyTypeHex) then Some Inline
  else if decide (tag = config.KeyTypeBip44) then Some Derived
  else if decide (tag = config.KeyTypeGoogleKMS) then Some KMS
  else if decide (tag = config.KeyTypeFile) then Some FileBacked
  else None.

End vocabulary.

(** * Properties *)

Section factory.

Context {KT : config.KeyTypes} {L : Libs}.

Lemma tags_distinct :
  config.KeyTypeHex <> config.KeyTypeBip44 /\
  config.KeyTypeHex <> config.KeyTypeGoogleKMS /\
  config.KeyTypeHex <> config.KeyTypeFile /\
  config.KeyTypeBip44 <> config.KeyTypeGoogleKMS /\
  config.KeyTypeBip44 <> config.KeyTypeFile /\
  config.KeyTypeGoogleKMS <> config.KeyTypeFile.
Proof.
  pose proof config.KeyTypes_NoDup as Hnd.
  repeat match goal with
         | Hn : NoDup (_ :: _) |- _ => apply NoDup_cons in Hn; destruct Hn
         end.
  set_solver.
Qed.

Lemma factory_hex (c : config.AccountKey) :
  config.Type_ c = config.KeyTypeHex ->
  flowkit.accountKeyFromConfig c
  = Ok (flowkit.Hex {| flowkit.hex_base := flowkit.baseKeyFromConfig c;
                       flowkit.hex_privateKey := config.PrivateKey c |}).
Proof.
  intros Ht. unfold flowkit.accountKeyFromConfig.
  case_decide; [reflexivity | contradiction].
Qed.

Lemma factory_bip44 (c : config.AccountKey) :
  config.Type_ c = config.KeyTypeBip44 ->
  flowkit.accountKeyFromConfig c = flowkit.bip44KeyFromConfig c.
Proof.
  intros Ht. pose proof tags_distinct as Hd.
  unfold flowkit.accountKeyFromConfig.
  repeat case_decide; try reflexivity; intuition congruence.
Qed.

Lemma factory_kms (c : config.AccountKey) :
  config.Type_ c = config.KeyTypeGoogleKMS ->
  flowkit.accountKeyFromConfig c = flowkit.kmsKeyFromConfig c.
Proof.
  intros Ht. pose proof tags_distinct as Hd.
  unfold flowkit.accountKeyFromConfig.
  repeat case_decide; try reflexivity; intuition congruence.
Qed.

Lemma factory_file (c : config.AccountKey) :
  config.Type_ c = config.KeyTypeFile ->
  flowkit.accountKeyFromConfig c
  = Ok (flowkit.File {| flowkit.file_base := flowkit.baseKeyFromConfig c;
                        flowkit.file_privateKey := None;
                        flowkit.location := config.Location c |}).
Proof.
  intros Ht. pose proof tags_distinct as Hd.
  unfold flowkit.accountKeyFromConfig.
  repeat case_decide; try reflexivity; intuition congruence.
Qed.

Lemma factory_other (c : config.AccountKey) :
  config.Type_ c ∉ enumeration ->
  flowkit.accountKeyFromConfig c = Err (UnsupportedKeyType (config.Type_ c)).
Proof.
  intros Hout. unfold flowkit.accountKeyFromConfig, UnsupportedKeyType.
  repeat case_decide; try reflexivity;
    exfalso; apply Hout; unfold enumeration; set_solver.
Qed.

Lemma UnsupportedKeyType_Contains (tag : config.KeyType) :
  Contains (UnsupportedKeyType tag) tag.
Proof.
  exists ("invalid key type: " +:+ dquote), dquote. reflexivity.
Qed.

(** C4. A configuration record whose variant tag is none of the four tags
    of the enumeration is refused by [accountKeyFromConfig]: no key is
    returned, the error is the unsupported-key-type error, and its text
    contains the tag of the record. *)
Theorem C4_unsupported_key_type (c : config.AccountKey) :
  config.Type_ c ∉ enumeration ->
  flowkit.accountKeyFromConfig c = Err (UnsupportedKeyType (config.Type_ c))
  /\ value_of (flowkit.accountKeyFromConfig c) = None
  /\ Contains (UnsupportedKeyType (config.Type_ c)) (config.Type_ c).
Proof.
  intros Hout. rewrite (factory_other c Hout).
  split; [reflexivity | split; [reflexivity |]].
  apply UnsupportedKeyType_Contains.
Qed.

(** C7. A record of variant Hex converted to a key and back has the same
    private key material, signature algorithm, hash algorithm, index and
    tag as the record it came from. *)
Theorem C7_hex_round_trip (c : config.AccountKey) :
  config.Type_ c = config.KeyTypeHex ->
  exists a : flowkit.HexAccountKey,
    flowkit.accountKeyFromConfig c = Ok (flowkit.Hex a)
    /\ config.PrivateKey (flowkit.AccountKey_ToConfig (flowkit.Hex a)) = config.PrivateKey c
    /\ config.SigAlgo (flowkit.AccountKey_ToConfig (flowkit.Hex a)) = config.SigAlgo c
    /\ config.HashAlgo (flowkit.AccountKey_ToConfig (flowkit.Hex a)) = config.HashAlgo c
    /\ config.Index (flowkit.AccountKey_ToConfig (flowkit.Hex a)) = config.Index c
    /\ config.Type_ (flowkit.AccountKey_ToConfig (flowkit.Hex a)) = config.Type_ c.
Proof.
  intros Ht. eexists. split; [apply (factory_hex c Ht) |].
  cbn. repeat split.
Qed.

End factory.

(** ** Reasoning about methods *)

Ltac unfold_method :=
  unfold via, promoted, or_else, logged, call, assign, self, fail, ret, bind in *.

Lemma count_emit (p : event -> bool) (ev : event) (w : World) :
  count p (emit ev w) = (count p w + (if p ev then 1 else 0))%nat.
Proof.
  unfold count, emit. cbn. rewrite List.filter_app, length_app. cbn.
  destruct (p ev); reflexivity.
Qed.

Section keys.

Context {KT : config.KeyTypes} {L : Libs}.

(** *** File keys *)

Lemma set_file_base_id (f : flowkit.FileAccountKey) :
  flowkit.set_file_base (flowkit.file_base f) f = f.
Proof. destruct f; reflexivity. Qed.

(** The three ways a call of [PrivateKey] on a File key can go when the
    key holds no material yet, and the one when it does. *)
Lemma File_PrivateKey_cached (f : flowkit.FileAccountKey) (w : World) (pkey : crypto.PrivateKey) :
  flowkit.file_privateKey f = Some pkey ->
  flowkit.FileAccountKey_PrivateKey f w = (Ok (Some pkey), f, w).
Proof.
  intros Hc. unfold flowkit.FileAccountKey_PrivateKey. unfold_method.
  rewrite Hc. cbn. rewrite Hc. reflexivity.
Qed.

Lemma File_PrivateKey_unreadable (f : flowkit.FileAccountKey) (w : World) :
  flowkit.file_privateKey f = None ->
  files w !! flowkit.location f = None ->
  flowkit.FileAccountKey_PrivateKey f w
  = (Err (KeyFileUnreadable (flowkit.location f)
            ("open " +:+ flowkit.location f +:+ ": no such file or directory")),
     f, emit (EvReadFile (flowkit.location f)) w).
Proof.
  intros Hc Hf. unfold flowkit.FileAccountKey_PrivateKey, os_ReadFile. unfold_method.
  rewrite Hc. cbn. rewrite Hf. reflexivity.
Qed.

Lemma File_PrivateKey_undecodable
  (f : flowkit.FileAccountKey) (w : World) (content : string) (cause : error) :
  flowkit.file_privateKey f = None ->
  files w !! flowkit.location f = Some content ->
  DecodePrivateKeyHex (flowkit.sigAlgo (flowkit.file_base f)) (TrimPrefix content "0x") = Err cause ->
  flowkit.FileAccountKey_PrivateKey f w
  = (Err (KeyDecodeError (flowkit.location f) cause),
     f, emit (EvReadFile (flowkit.location f)) w).
Proof.
  intros Hc Hf Hd. unfold flowkit.FileAccountKey_PrivateKey, os_ReadFile. unfold_method.
  rewrite Hc. cbn. rewrite Hf. cbn. rewrite Hd. reflexivity.
Qed.

Lemma File_PrivateKey_loaded
  (f : flowkit.FileAccountKey) (w : World) (content : string) (pkey : crypto.PrivateKey) :
  flowkit.file_privateKey f = None ->
  files w !! flowkit.location f = Some content ->
  DecodePrivateKeyHex (flowkit.sigAlgo (flowkit.file_base f)) (TrimPrefix content "0x") = Ok pkey ->
  flowkit.FileAccountKey_PrivateKey f w
  = (Ok (Some pkey), flowkit.set_file_privateKey (Some pkey) f,
     emit (EvReadFile (flowkit.location f)) w).
Proof.
  intros Hc Hf Hd. unfold flowkit.FileAccountKey_PrivateKey, os_ReadFile. unfold_method.
  rewrite Hc. cbn. rewrite Hf. cbn. rewrite Hd. reflexivity.
Qed.

(** A successful call leaves the material in the key, and has read the
    file at most once. *)
Lemma File_PrivateKey_Ok
  (f f1 : flowkit.FileAccountKey) (w w1 : World) (m : option crypto.PrivateKey) :
  flowkit.FileAccountKey_PrivateKey f w = (Ok m, f1, w1) ->
  (exists pkey, m = Some pkey /\ flowkit.file_privateKey f1 = Some pkey)
  /\ (count is_read w1 <= count is_read w + 1)%nat
  /\ count is_derivation w1 = count is_derivation w.
Proof.
  intros Hcall.
  destruct (flowkit.file_privateKey f) as [pkey|] eqn:Hc.
  - rewrite (File_PrivateKey_cached f w pkey Hc) in Hcall.
    injection Hcall as <- <- <-. split; [eauto | split; [lia | reflexivity]].
  - destruct (files w !! flowkit.location f) as [content|] eqn:Hf.
    + destruct (DecodePrivateKeyHex (flowkit.sigAlgo (flowkit.file_base f))
                  (TrimPrefix content "0x")) as [pkey|cause] eqn:Hd.
      * rewrite (File_PrivateKey_loaded f w content pkey Hc Hf Hd) in Hcall.
        injection Hcall as <- <- <-. rewrite !count_emit. cbn.
        split; [eauto | split; lia].
      * rewrite (File_PrivateKey_undecodable f w content cause Hc Hf Hd) in Hcall.
        discriminate.
    + rewrite (File_PrivateKey_unreadable f w Hc Hf) in Hcall. discriminate.
Qed.

(** C2. The record of a File key carries the tag, the two algorithms and
    the location of the key and no key material; its index field is left
    at zero, whatever the index of the key: for the key at index [1] the
    record says index [0]. *)
Theorem C2_file_record_index_zero :
  let f := flowkit.NewFileAccountKey "emulator.pkey" 1 crypto.ECDSA_P256 crypto.SHA3_256 in
  flowkit.AccountKey_Index (flowkit.File f) = 1%Z
  /\ config.Index (flowkit.AccountKey_ToConfig (flowkit.File f)) = 0%Z
  /\ flowkit.AccountKey_ToConfig (flowkit.File f)
     = {| config.Type_ := config.KeyTypeFile;
          config.Index := 0;
          config.SigAlgo := crypto.ECDSA_P256;
          config.HashAlgo := crypto.SHA3_256;
          config.ResourceID := EmptyString;
          config.Mnemonic := EmptyString;
          config.DerivationPath := EmptyString;
          config.PrivateKey := None;
          config.Location := "emulator.pkey" |}.
Proof. cbn. repeat split. Qed.

(** The index of a File key never reaches its record. *)
Lemma file_record_index_dropped : ~ file_record_has_index.
Proof.
  intros Hclaim.
  specialize (Hclaim (flowkit.NewFileAccountKey "emulator.pkey" 1
                        crypto.ECDSA_P256 crypto.SHA3_256)).
  discriminate Hclaim.
Qed.

(** The fields of a File record, for every File key. *)
Lemma File_ToConfig_fields (f : flowkit.FileAccountKey) :
  config.Type_ (flowkit.FileAccountKey_ToConfig f) = config.KeyTypeFile
  /\ config.SigAlgo (flowkit.FileAccountKey_ToConfig f) = flowkit.sigAlgo (flowkit.file_base f)
  /\ config.HashAlgo (flowkit.FileAccountKey_ToConfig f) = flowkit.hashAlgo (flowkit.file_base f)
  /\ config.Location (flowkit.FileAccountKey_ToConfig f) = flowkit.location f
  /\ config.PrivateKey (flowkit.FileAccountKey_ToConfig f) = None
  /\ config.Index (flowkit.FileAccountKey_ToConfig f) = 0%Z.
Proof. cbn. repeat split. Qed.

(** C10. [Validate] on a File key returns no error and touches neither
    the key nor the world: no file is read, whether or not the location
    exists or holds a key. When the key holds no material yet, a missing
    file or undecodable content is reported by [PrivateKey], and by
    [Signer] with the same error. *)
Theorem C10_file_validate_is_noop (f : flowkit.FileAccountKey) (w : World) :
  flowkit.FileAccountKey_Validate f w = (Ok tt, f, w)
  /\ (flowkit.file_privateKey f = None ->
      files w !! flowkit.location f = None ->
      exists cause,
        fst (fst (flowkit.FileAccountKey_PrivateKey f w))
        = Err (KeyFileUnreadable (flowkit.location f) cause)
        /\ fst (fst (flowkit.FileAccountKey_Signer f w))
           = Err (KeyFileUnreadable (flowkit.location f) cause))
  /\ (forall content cause,
      flowkit.file_privateKey f = None ->
      files w !! flowkit.location f = Some content ->
      DecodePrivateKeyHex (flowkit.sigAlgo (flowkit.file_base f)) (TrimPrefix content "0x")
      = Err cause ->
      fst (fst (flowkit.FileAccountKey_PrivateKey f w))
      = Err (KeyDecodeError (flowkit.location f) cause)
      /\ fst (fst (flowkit.FileAccountKey_Signer f w))
         = Err (KeyDecodeError (flowkit.location f) cause)).
Proof.
  split; [| split].
  - unfold flowkit.FileAccountKey_Validate, flowkit.baseAccountKey_Validate.
    unfold_method. rewrite set_file_base_id. reflexivity.
  - intros Hc Hf. eexists.
    unfold flowkit.FileAccountKey_Signer, bind at 1.
    rewrite (File_PrivateKey_unreadable f w Hc Hf). split; reflexivity.
  - intros content cause Hc Hf Hd.
    unfold flowkit.FileAccountKey_Signer, bind at 1.
    rewrite (File_PrivateKey_undecodable f w content cause Hc Hf Hd).
    split; reflexivity.
Qed.

(** *** Bip44 keys *)

(** Walking the derivation path leaves the key alone and logs child
    derivations only. *)
Lemma Validate_range_frame (path : list N) :
  forall (key : slip10_Key) (a : flowkit.Bip44AccountKey) (w : World),
    snd (fst (flowkit.Validate_range key path a w)) = a
    /\ files (snd (flowkit.Validate_range key path a w)) = files w
    /\ count is_read (snd (flowkit.Validate_range key path a w)) = count is_read w
    /\ count is_derivation (snd (flowkit.Validate_range key path a w)) = count is_derivation w
    /\ exists evs, trace (snd (flowkit.Validate_range key path a w)) = trace w ++ evs.
Proof.
  induction path as [|n rest IH]; intros key a w.
  - cbn. repeat split. exists []. rewrite app_nil_r. reflexivity.
  - cbn [flowkit.Validate_range]. unfold bind, logged.
    destruct (NewChildKey key n) as [child|err]; cbn [fst snd].
    + destruct (IH child a (emit (EvNewChildKey n) w)) as (Ha & Hf & Hr & Hd & evs & Ht).
      rewrite Ha, Hf, Hr, Hd, Ht, !count_emit. cbn.
      repeat split; try lia.
      exists (EvNewChildKey n :: evs). rewrite <- app_assoc. reflexivity.
    + rewrite !count_emit. cbn. repeat split; try lia.
      exists [EvNewChildKey n]. reflexivity.
Qed.

Lemma Bip44_Validate_invalid_mnemonic (a : flowkit.Bip44AccountKey) (w : World) :
  IsMnemonicValid (flowkit.mnemonic a) = false ->
  flowkit.Bip44AccountKey_Validate a w = (Err InvalidMnemonic, a, w).
Proof.
  intros Hm. unfold flowkit.Bip44AccountKey_Validate. unfold_method.
  rewrite Hm. reflexivity.
Qed.

Lemma Bip44_Validate_invalid_path (a : flowkit.Bip44AccountKey) (w : World) (cause : error) :
  IsMnemonicValid (flowkit.mnemonic a) = true ->
  ParseDerivationPath (flowkit.derivationPath a) = Err cause ->
  flowkit.Bip44AccountKey_Validate a w = (Err InvalidDerivationPath, a, w).
Proof.
  intros Hm Hp. unfold flowkit.Bip44AccountKey_Validate. unfold_method.
  rewrite Hm. cbn. rewrite Hp. reflexivity.
Qed.

(** Once the mnemonic and the path are accepted, the first thing logged is
    the derivation of the master key, on the curve [curve_of]. *)
Lemma Bip44_Validate_derives (a : flowkit.Bip44AccountKey) (w : World) (path : list N) :
  IsMnemonicValid (flowkit.mnemonic a) = true ->
  ParseDerivationPath (flowkit.derivationPath a) = Ok path ->
  exists evs,
    trace (snd (flowkit.Bip44AccountKey_Validate a w))
    = trace w ++ EvNewMasterKey (NewSeed (flowkit.mnemonic a) EmptyString) (curve_of a) :: evs.
Proof.
  intros Hm Hp. unfold flowkit.Bip44AccountKey_Validate. unfold_method.
  rewrite Hm. cbn. rewrite Hp. fold (curve_of a).
  set (seed := NewSeed (flowkit.mnemonic a) EmptyString).
  set (w0 := emit (EvNewMasterKey seed (curve_of a)) w).
  destruct (NewMasterKeyWithCurve seed (curve_of a)) as [master|err].
  - destruct (Validate_range_frame path master a w0) as (_ & _ & _ & _ & evs & Ht).
    exists evs.
    destruct (flowkit.Validate_range master path a w0) as [[r a'] w'].
    cbn [fst snd] in Ht.
    assert (Hw' : trace w' = trace w ++ EvNewMasterKey seed (curve_of a) :: evs).
    { rewrite Ht. unfold w0, emit. cbn. rewrite <- app_assoc. reflexivity. }
    destruct r as [child|err]; [|exact Hw'].
    destruct (DecodePrivateKey _ _); exact Hw'.
  - exists []. reflexivity.
Qed.

(** A successful [Validate] stores the derived key and has derived one
    master key. *)
Lemma Bip44_Validate_Ok (a a1 : flowkit.Bip44AccountKey) (w w1 : World) :
  flowkit.Bip44AccountKey_Validate a w = (Ok tt, a1, w1) ->
  (exists pkey, a1 = flowkit.set_bip44_privateKey (Some pkey) a)
  /\ count is_derivation w1 = (count is_derivation w + 1)%nat
  /\ count is_read w1 = count is_read w.
Proof.
  unfold flowkit.Bip44AccountKey_Validate. unfold_method.
  destruct (IsMnemonicValid (flowkit.mnemonic a)); cbn; [|discriminate].
  destruct (ParseDerivationPath (flowkit.derivationPath a)) as [path|err]; [|discriminate].
  fold (curve_of a).
  set (seed := NewSeed (flowkit.mnemonic a) EmptyString).
  set (w0 := emit (EvNewMasterKey seed (curve_of a)) w).
  destruct (NewMasterKeyWithCurve seed (curve_of a)) as [master|err]; [|discriminate].
  destruct (Validate_range_frame path master a w0) as (Ha & _ & Hr & Hd & _).
  destruct (flowkit.Validate_range master path a w0) as [[r a'] w'].
  cbn [fst snd] in Ha, Hr, Hd. subst a'.
  destruct r as [child|err]; [|discriminate].
  destruct (DecodePrivateKey _ _) as [pkey|err]; [|discriminate].
  intros Heq. injection Heq as <- <-.
  unfold w0 in Hr, Hd. rewrite count_emit in Hr, Hd. cbn in Hr, Hd.
  split; [eauto | split; lia].
Qed.

Lemma Bip44_PrivateKey_cached (a : flowkit.Bip44AccountKey) (w : World) (pkey : crypto.PrivateKey) :
  flowkit.bip44_privateKey a = Some pkey ->
  flowkit.Bip44AccountKey_PrivateKey a w = (Ok (Some pkey), a, w).
Proof.
  intros Hc. unfold flowkit.Bip44AccountKey_PrivateKey. unfold_method.
  rewrite Hc. cbn. rewrite Hc. reflexivity.
Qed.

Lemma Bip44_PrivateKey_lazy (a : flowkit.Bip44AccountKey) (w : World) :
  flowkit.bip44_privateKey a = None ->
  flowkit.Bip44AccountKey_PrivateKey a w
  = match flowkit.Bip44AccountKey_Validate a w with
    | (Ok _, a1, w1) => (Ok (flowkit.bip44_privateKey a1), a1, w1)
    | (Err err, a1, w1) => (Err err, a1, w1)
    end.
Proof.
  intros Hc. unfold flowkit.Bip44AccountKey_PrivateKey, bind, self, ret.
  rewrite Hc. destruct (flowkit.Bip44AccountKey_Validate a w) as [[[[]|err] a1] w1]; reflexivity.
Qed.

Lemma Bip44_PrivateKey_Ok
  (a a1 : flowkit.Bip44AccountKey) (w w1 : World) (m : option crypto.PrivateKey) :
  flowkit.Bip44AccountKey_PrivateKey a w = (Ok m, a1, w1) ->
  (exists pkey, m = Some pkey /\ flowkit.bip44_privateKey a1 = Some pkey)
  /\ (count is_derivation w1 <= count is_derivation w + 1)%nat
  /\ count is_read w1 = count is_read w.
Proof.
  intros Hcall.
  destruct (flowkit.bip44_privateKey a) as [pkey|] eqn:Hc.
  - rewrite (Bip44_PrivateKey_cached a w pkey Hc) in Hcall.
    injection Hcall as <- <- <-. split; [eauto | split; [lia | reflexivity]].
  - rewrite (Bip44_PrivateKey_lazy a w Hc) in Hcall.
    destruct (flowkit.Bip44AccountKey_Validate a w) as [[[[]|err] a'] w'] eqn:Hv;
      [|discriminate].
    injection Hcall as <- <- <-.
    destruct (Bip44_Validate_Ok a a' w w' Hv) as ([pkey ->] & Hd & Hr).
    cbn. split; [eauto | split; [lia | exact Hr]].
Qed.

(** *** KMS keys *)

(** The private key of a KMS key is never handed out, and asking for it
    changes nothing. *)
Lemma Kms_PrivateKey_not_accessible (a : flowkit.KmsAccountKey) (w : World) :
  flowkit.KmsAccountKey_PrivateKey a w = (Err KeyNotAccessible, a, w).
Proof. reflexivity. Qed.

(** *** Materialisation happens once *)

(** When [PrivateKey] returns the material of a File or Bip44 key, a
    second call on the same key returns the same material and leaves the
    key and the world as they are: it reads no file and derives nothing.
    Over the two calls the key file was read, or the master key derived,
    at most once. *)
Lemma PrivateKey_memoized
  (k k1 : flowkit.AccountKey) (w w1 : World) (m : option crypto.PrivateKey) :
  lazily_materialized k = true ->
  flowkit.AccountKey_PrivateKey k w = (Ok m, k1, w1) ->
  flowkit.AccountKey_PrivateKey k1 w1 = (Ok m, k1, w1)
  /\ is_Some m
  /\ (count is_read w1 + count is_derivation w1
      <= count is_read w + count is_derivation w + 1)%nat.
Proof.
  intros Hlazy Hcall.
  destruct k as [a|a|a|f]; try discriminate Hlazy; cbn in Hcall; unfold via in Hcall.
  - destruct (flowkit.Bip44AccountKey_PrivateKey a w) as [[r a1] w'] eqn:Hpk.
    injection Hcall as -> <- ->.
    destruct (Bip44_PrivateKey_Ok a a1 w w1 m Hpk) as ((pkey & -> & Hc) & Hd & Hr).
    cbn. unfold via. rewrite (Bip44_PrivateKey_cached a1 w1 pkey Hc).
    split; [reflexivity | split; [eauto | lia]].
  - destruct (flowkit.FileAccountKey_PrivateKey f w) as [[r f1] w'] eqn:Hpk.
    injection Hcall as -> <- ->.
    destruct (File_PrivateKey_Ok f f1 w w1 m Hpk) as ((pkey & -> & Hc) & Hr & Hd).
    cbn. unfold via. rewrite (File_PrivateKey_cached f1 w1 pkey Hc).
    split; [reflexivity | split; [eauto | lia]].
Qed.

(** *** The curve of a derivation *)

(** C9. For a Bip44 key whose signature algorithm is not set, [SigAlgo()]
    resolves to ECDSA P-256, yet [Validate] derives the master key on the
    Bitcoin curve: the curve is chosen from the stored field, the key is
    decoded with the resolved algorithm. *)
Theorem C9_unset_algorithm_derives_on_bitcoin_curve
  (a : flowkit.Bip44AccountKey) (w : World) (path : list N) :
  flowkit.sigAlgo (flowkit.bip44_base a) = crypto.UnknownSignatureAlgorithm ->
  IsMnemonicValid (flowkit.mnemonic a) = true ->
  ParseDerivationPath (flowkit.derivationPath a) = Ok path ->
  flowkit.AccountKey_SigAlgo (flowkit.Bip44 a) = crypto.ECDSA_P256
  /\ curve_of a = slip10.CurveBitcoin
  /\ exists evs,
       trace (snd (flowkit.Bip44AccountKey_Validate a w))
       = trace w ++ EvNewMasterKey (NewSeed (flowkit.mnemonic a) EmptyString)
                      slip10.CurveBitcoin :: evs.
Proof.
  intros Hs Hm Hp.
  assert (Hcurve : curve_of a = slip10.CurveBitcoin).
  { unfold curve_of. rewrite Hs. reflexivity. }
  split; [| split; [exact Hcurve |]].
  - unfold flowkit.AccountKey_SigAlgo, flowkit.baseAccountKey_SigAlgo. cbn.
    rewrite Hs. reflexivity.
  - rewrite <- Hcurve. apply (Bip44_Validate_derives a w path Hm Hp).
Qed.

(** The curve follows the stored algorithm, not the resolved one. *)
Lemma curve_ignores_default : ~ curve_follows_resolved_algorithm.
Proof.
  intros Hclaim.
  specialize (Hclaim {| flowkit.bip44_base :=
                          {| flowkit.keyType := "bip44";
                             flowkit.index := 0;
                             flowkit.sigAlgo := crypto.UnknownSignatureAlgorithm;
                             flowkit.hashAlgo := crypto.UnknownHashAlgorithm |};
                        flowkit.bip44_privateKey := None;
                        flowkit.mnemonic := EmptyString;
                        flowkit.derivationPath := EmptyString |} eq_refl).
  discriminate Hclaim.
Qed.

(** For every stored algorithm but the unset one, the curve is P-256
    exactly when [SigAlgo()] is ECDSA P-256. *)
Lemma curve_of_set_algorithm (a : flowkit.Bip44AccountKey) :
  flowkit.sigAlgo (flowkit.bip44_base a) <> crypto.UnknownSignatureAlgorithm ->
  curve_of a
  = if decide (flowkit.AccountKey_SigAlgo (flowkit.Bip44 a) = crypto.ECDSA_P256)
    then slip10.CurveP256
    else slip10.CurveBitcoin.
Proof.
  intros Hset. unfold curve_of, flowkit.AccountKey_SigAlgo, flowkit.baseAccountKey_SigAlgo.
  cbn. destruct (flowkit.sigAlgo (flowkit.bip44_base a)); try contradiction; reflexivity.
Qed.

(** *** What the records carry *)

Lemma invoke_variant (i : invocation) (k : flowkit.AccountKey) (w : World) :
  variant_of (fst (invoke i k w)) = variant_of k.
Proof.
  destruct i, k as [a|a|a|f];
    cbn [invoke fst flowkit.AccountKey_PrivateKey flowkit.AccountKey_Signer];
    unfold via;
    match goal with
    | |- context [match ?call with _ => _ end] => destruct call as [[r x1] w1']
    end;
    reflexivity.
Qed.

(** The variant of a key never changes. *)
Lemma after_variant (calls : list invocation) :
  forall (k : flowkit.AccountKey) (w : World),
    variant_of (fst (after calls k w)) = variant_of k.
Proof.
  induction calls as [|i rest IH]; intros k w; cbn [after].
  - reflexivity.
  - rewrite IH. apply invoke_variant.
Qed.

Lemma Bip44_Signer_Ok (a a1 : flowkit.Bip44AccountKey) (w w1 : World) (s : Signer) :
  flowkit.Bip44AccountKey_Signer a w = (Ok s, a1, w1) ->
  exists pkey, flowkit.Bip44AccountKey_PrivateKey a w = (Ok (Some pkey), a1, w1)
               /\ flowkit.bip44_privateKey a1 = Some pkey.
Proof.
  unfold flowkit.Bip44AccountKey_Signer, bind at 1.
  destruct (flowkit.Bip44AccountKey_PrivateKey a w) as [[[m|err] a'] w'] eqn:Hpk;
    [|discriminate].
  unfold_method. intros Heq. injection Heq as _ <- <-.
  destruct (Bip44_PrivateKey_Ok a a' w w' m Hpk) as ((pkey & -> & Hc) & _).
  eauto.
Qed.

(** C1. The record of a File key and of a KMS key has no private key,
    whatever calls of [PrivateKey] and [Signer] were made on the key
    before. The record of a Bip44 key carries the tag, index, algorithms,
    mnemonic and derivation path of the key and, as its private key, the
    material the key holds: none for a key fresh from the factory, the
    derived key once [PrivateKey] or [Signer] has succeeded on it. *)
Theorem C1_private_key_in_records :
  (forall calls f w,
     config.PrivateKey (flowkit.AccountKey_ToConfig
                          (fst (after calls (flowkit.File f) w))) = None)
  /\ (forall calls a w,
        config.PrivateKey (flowkit.AccountKey_ToConfig
                             (fst (after calls (flowkit.Kms a) w))) = None)
  /\ (forall a : flowkit.Bip44AccountKey,
        flowkit.AccountKey_ToConfig (flowkit.Bip44 a)
        = {| config.Type_ := flowkit.keyType (flowkit.bip44_base a);
             config.Index := flowkit.index (flowkit.bip44_base a);
             config.SigAlgo := flowkit.sigAlgo (flowkit.bip44_base a);
             config.HashAlgo := flowkit.hashAlgo (flowkit.bip44_base a);
             config.ResourceID := EmptyString;
             config.Mnemonic := flowkit.mnemonic a;
             config.DerivationPath := flowkit.derivationPath a;
             config.PrivateKey := flowkit.bip44_privateKey a;
             config.Location := EmptyString |})
  /\ (forall c k,
        flowkit.bip44KeyFromConfig c = Ok k ->
        config.PrivateKey (flowkit.AccountKey_ToConfig k) = None)
  /\ (forall a w m k1 w1,
        flowkit.AccountKey_PrivateKey (flowkit.Bip44 a) w = (Ok m, k1, w1) ->
        is_Some m /\ config.PrivateKey (flowkit.AccountKey_ToConfig k1) = m)
  /\ (forall a w s k1 w1,
        flowkit.AccountKey_Signer (flowkit.Bip44 a) w = (Ok s, k1, w1) ->
        is_Some (config.PrivateKey (flowkit.AccountKey_ToConfig k1))).
Proof.
  repeat apply conj.
  - intros calls f w. pose proof (after_variant calls (flowkit.File f) w) as Hv.
    destruct (fst (after calls (flowkit.File f) w)); try discriminate Hv. reflexivity.
  - intros calls a w. pose proof (after_variant calls (flowkit.Kms a) w) as Hv.
    destruct (fst (after calls (flowkit.Kms a) w)); try discriminate Hv. reflexivity.
  - reflexivity.
  - intros c k Hk. injection Hk as <-. reflexivity.
  - intros a w m k1 w1 Hcall. cbn in Hcall. unfold via in Hcall.
    destruct (flowkit.Bip44AccountKey_PrivateKey a w) as [[r a1] w'] eqn:Hpk.
    injection Hcall as -> <- ->.
    destruct (Bip44_PrivateKey_Ok a a1 w w1 m Hpk) as ((pkey & -> & Hc) & _).
    cbn. rewrite Hc. eauto.
  - intros a w s k1 w1 Hcall. cbn in Hcall. unfold via in Hcall.
    destruct (flowkit.Bip44AccountKey_Signer a w) as [[r a1] w'] eqn:Hsg.
    injection Hcall as -> <- ->.
    destruct (Bip44_Signer_Ok a a1 w w1 s Hsg) as (pkey & _ & Hc).
    cbn. rewrite Hc. eauto.
Qed.

(** *** What the factory checks *)

(** C3. A record with the Bip44 tag always yields a key, holding the
    mnemonic and the derivation path of the record as they are, empty or
    not; [Validate] on that key reports a mnemonic the library rejects and,
    next, a path the library cannot parse. Records with the Hex and the File
    tag always yield a key too; a record with the KMS tag yields one exactly
    when the library parses its resource identifier. *)
Theorem C3_factory_defers_validation (c : config.AccountKey) :
  (config.Type_ c = config.KeyTypeBip44 ->
   flowkit.accountKeyFromConfig c
   = Ok (flowkit.Bip44
           {| flowkit.bip44_base := {| flowkit.keyType := config.KeyTypeBip44;
                                       flowkit.index := config.Index c;
                                       flowkit.sigAlgo := config.SigAlgo c;
                                       flowkit.hashAlgo := config.HashAlgo c |};
              flowkit.bip44_privateKey := None;
              flowkit.mnemonic := config.Mnemonic c;
              flowkit.derivationPath := config.DerivationPath c |}))
  /\ (forall (a : flowkit.Bip44AccountKey) (w : World),
        flowkit.mnemonic a = config.Mnemonic c ->
        flowkit.derivationPath a = config.DerivationPath c ->
        (IsMnemonicValid (config.Mnemonic c) = false ->
         flowkit.Bip44AccountKey_Validate a w = (Err InvalidMnemonic, a, w))
        /\ (IsMnemonicValid (config.Mnemonic c) = true ->
            is_Some (error_of (ParseDerivationPath (config.DerivationPath c))) ->
            flowkit.Bip44AccountKey_Validate a w = (Err InvalidDerivationPath, a, w)))
  /\ (config.Type_ c = config.KeyTypeHex ->
      is_Some (value_of (flowkit.accountKeyFromConfig c)))
  /\ (config.Type_ c = config.KeyTypeFile ->
      is_Some (value_of (flowkit.accountKeyFromConfig c)))
  /\ (config.Type_ c = config.KeyTypeGoogleKMS ->
      error_of (flowkit.accountKeyFromConfig c)
      = error_of (KeyFromResourceID (config.ResourceID c))).
Proof.
  repeat apply conj.
  - intros Ht. rewrite (factory_bip44 c Ht). reflexivity.
  - intros a w Ha Hp. rewrite <- Ha, <- Hp. split.
    + apply Bip44_Validate_invalid_mnemonic.
    + intros Hm [cause Hc].
      destruct (ParseDerivationPath (flowkit.derivationPath a)) as [p|e] eqn:Hparse;
        [discriminate|].
      apply (Bip44_Validate_invalid_path a w e Hm Hparse).
  - intros Ht. rewrite (factory_hex c Ht). cbn. eauto.
  - intros Ht. rewrite (factory_file c Ht). cbn. eauto.
  - intros Ht. rewrite (factory_kms c Ht). unfold flowkit.kmsKeyFromConfig.
    destruct (KeyFromResourceID (config.ResourceID c)); reflexivity.
Qed.

End keys.

(** ** Accounts *)

Section loops.

Context {A B : Type} (f : A -> result B).

Lemma collect_succeeds (xs : list A) :
  forall (ys acc : list B),
    Forall2 (fun x y => f x = Ok y) xs ys ->
    collect f xs acc = Ok (acc ++ ys).
Proof.
  induction xs as [|x rest IH]; intros ys acc Hall; inversion Hall; subst; cbn.
  - rewrite app_nil_r. reflexivity.
  - match goal with Hx : f x = Ok _ |- _ => rewrite Hx end.
    rewrite (IH _ _ ltac:(eassumption)), <- app_assoc. reflexivity.
Qed.

(** The error of the first element that fails is the error of the loop. *)
Lemma collect_fails (pre : list A) :
  forall (bad : A) (post : list A) (acc : list B) (err : error),
    Forall (fun x => is_Some (value_of (f x))) pre ->
    f bad = Err err ->
    collect f (pre ++ bad :: post) acc = Err err.
Proof.
  induction pre as [|x rest IH]; intros bad post acc err Hpre Hbad; cbn.
  - rewrite Hbad. reflexivity.
  - inversion Hpre as [|? ? [y Hy] Hrest]; subst.
    destruct (f x) as [y'|e]; [|discriminate].
    apply IH; assumption.
Qed.

(** An error of the loop always is the error of a first failing element. *)
Lemma collect_Err (xs : list A) :
  forall (acc : list B) (err : error),
    collect f xs acc = Err err ->
    exists pre bad post,
      xs = pre ++ bad :: post
      /\ Forall (fun x => is_Some (value_of (f x))) pre
      /\ f bad = Err err.
Proof.
  induction xs as [|x rest IH]; intros acc err Hloop; cbn in Hloop; [discriminate|].
  destruct (f x) as [y|e] eqn:Hx.
  - destruct (IH _ _ Hloop) as (pre & bad & post & -> & Hpre & Hbad).
    exists (x :: pre), bad, post. repeat split; [|assumption].
    constructor; [rewrite Hx; cbn; eauto | assumption].
  - injection Hloop as ->. exists [], x, rest. repeat split; [constructor | assumption].
Qed.

End loops.

Section default_key.

Context {KT : config.KeyTypes} {L : Libs}.

(** C5. On an account without keys [DefaultKey] returns no key and no
    error of its own: the index expression [keys[0]] stops the call with
    the run-time panic of an index out of range. *)
Theorem C5_default_key_of_no_keys (a : project.Account) :
  project.keys a = [] ->
  project.DefaultKey a = Panics "runtime error: index out of range [0] with length 0"
  /\ ~ fails_with_NoKeysConfigured a.
Proof.
  intros Hk.
  assert (Hd : project.DefaultKey a
               = Panics "runtime error: index out of range [0] with length 0").
  { unfold project.DefaultKey. rewrite Hk. reflexivity. }
  split; [exact Hd|].
  intros (msg & Hmsg & Hrange). rewrite Hd in Hmsg. injection Hmsg as <-.
  vm_compute in Hrange. discriminate.
Qed.

Lemma DefaultKey_first (a : project.Account) (key : flowkit.AccountKey) (rest : list flowkit.AccountKey) :
  project.keys a = key :: rest ->
  project.DefaultKey a = Returns key.
Proof. intros Hk. unfold project.DefaultKey. rewrite Hk. reflexivity. Qed.

End default_key.

Section accounts.

Context {KT : config.KeyTypes} {L : Libs}.

Variable NewAccountKey : config.AccountKey -> result flowkit.AccountKey.

Lemma AccountFromConfig_range_collect (Keys : list config.AccountKey) :
  forall accountKeys,
    project.AccountFromConfig_range NewAccountKey Keys accountKeys
    = collect NewAccountKey Keys accountKeys.
Proof.
  induction Keys as [|key rest IH]; intros accountKeys; cbn; [reflexivity|].
  destruct (NewAccountKey key); [apply IH | reflexivity].
Qed.

Lemma accountsFromConfig_range_collect (Accounts : list config.Account) :
  forall accounts,
    project.accountsFromConfig_range NewAccountKey Accounts accounts
    = collect (project.AccountFromConfig NewAccountKey) Accounts accounts.
Proof.
  induction Accounts as [|accountConf rest IH]; intros accounts; cbn; [reflexivity|].
  destruct (project.AccountFromConfig NewAccountKey accountConf); [apply IH | reflexivity].
Qed.

(** An account fails to convert with the error of its first failing key. *)
Lemma AccountFromConfig_fails
  (accountConf : config.Account) (kpre kpost : list config.AccountKey)
  (k : config.AccountKey) (err : error) :
  config.Keys accountConf = kpre ++ k :: kpost ->
  Forall (fun c => is_Some (value_of (NewAccountKey c))) kpre ->
  NewAccountKey k = Err err ->
  project.AccountFromConfig NewAccountKey accountConf = Err err.
Proof.
  intros Hkeys Hpre Hk. unfold project.AccountFromConfig.
  rewrite AccountFromConfig_range_collect, Hkeys.
  rewrite (collect_fails NewAccountKey kpre k kpost [] err Hpre Hk).
  reflexivity.
Qed.

(** C6. When the accounts before some account of the configuration all
    convert and that account fails to convert, [accountsFromConfig] returns
    the error of that account and no list of accounts. The error is the one
    the key constructor gave for the first key of that account it refused,
    as it is: for the key factory and a tag outside the enumeration, the
    unsupported-key-type error. *)
Theorem C6_accounts_fail_fast
  (conf : config.Config) (pre post : list config.Account) (bad : config.Account) (err : error) :
  config.Accounts conf = pre ++ bad :: post ->
  Forall (fun c => is_Some (value_of (project.AccountFromConfig NewAccountKey c))) pre ->
  project.AccountFromConfig NewAccountKey bad = Err err ->
  project.accountsFromConfig NewAccountKey conf = Err err
  /\ value_of (project.accountsFromConfig NewAccountKey conf) = None
  /\ (forall kpre k kpost cause,
        config.Keys bad = kpre ++ k :: kpost ->
        Forall (fun c => is_Some (value_of (NewAccountKey c))) kpre ->
        NewAccountKey k = Err cause ->
        err = cause).
Proof.
  intros Haccounts Hpre Hbad.
  assert (Hres : project.accountsFromConfig NewAccountKey conf = Err err).
  { unfold project.accountsFromConfig.
    rewrite accountsFromConfig_range_collect, Haccounts.
    apply collect_fails; assumption. }
  split; [exact Hres | split; [rewrite Hres; reflexivity |]].
  intros kpre k kpost cause Hkeys Hkpre Hk.
  pose proof (AccountFromConfig_fails bad kpre kpost k cause Hkeys Hkpre Hk) as Hfail.
  congruence.
Qed.

(** Conversely, an error of [accountsFromConfig] always is the error of
    the first account that fails to convert. *)
Lemma accountsFromConfig_Err (conf : config.Config) (err : error) :
  project.accountsFromConfig NewAccountKey conf = Err err ->
  exists pre bad post,
    config.Accounts conf = pre ++ bad :: post
    /\ Forall (fun c => is_Some (value_of (project.AccountFromConfig NewAccountKey c))) pre
    /\ project.AccountFromConfig NewAccountKey bad = Err err.
Proof.
  unfold project.accountsFromConfig. rewrite accountsFromConfig_range_collect.
  apply collect_Err.
Qed.

(** When every account converts, the accounts come in the declared order. *)
Lemma accountsFromConfig_Ok (conf : config.Config) (accounts : list project.Account) :
  Forall2 (fun c a => project.AccountFromConfig NewAccountKey c = Ok a) (config.Accounts conf) accounts ->
  project.accountsFromConfig NewAccountKey conf = Ok accounts.
Proof.
  intros Hall. unfold project.accountsFromConfig.
  rewrite accountsFromConfig_range_collect.
  apply (collect_succeeds (project.AccountFromConfig NewAccountKey) _ accounts [] Hall).
Qed.

End accounts.

Section accounts_of_the_factory.

Context {KT : config.KeyTypes} {L : Libs}.

(** With the key factory as the key constructor, a key whose tag is
    outside the enumeration makes the whole conversion fail with the
    unsupported-key-type error of that tag. *)
Lemma accountsFromConfig_unsupported
  (conf : config.Config) (pre post : list config.Account) (bad : config.Account)
  (kpre kpost : list config.AccountKey) (k : config.AccountKey) :
  config.Accounts conf = pre ++ bad :: post ->
  Forall (fun c => is_Some (value_of
                     (project.AccountFromConfig flowkit.accountKeyFromConfig c))) pre ->
  config.Keys bad = kpre ++ k :: kpost ->
  Forall (fun c => is_Some (value_of (flowkit.accountKeyFromConfig c))) kpre ->
  config.Type_ k ∉ enumeration ->
  project.accountsFromConfig flowkit.accountKeyFromConfig conf
  = Err (UnsupportedKeyType (config.Type_ k)).
Proof.
  intros Haccounts Hpre Hkeys Hkpre Hout.
  unfold project.accountsFromConfig.
  rewrite accountsFromConfig_range_collect, Haccounts.
  apply collect_fails; [assumption|].
  apply (AccountFromConfig_fails _ bad kpre kpost k _ Hkeys Hkpre).
  apply factory_other. exact Hout.
Qed.

End accounts_of_the_factory.

(** * The statements on concrete inputs *)

Section concrete.

#[local] Existing Instance sample.tags.
#[local] Existing Instance sample.libs.

Lemma C4_witness_unknown_type :
  flowkit.accountKeyFromConfig (sample.key_record "unknown-type" EmptyString)
  = Err ("invalid key type: " +:+ dquote +:+ "unknown-type" +:+ dquote)
  /\ value_of (flowkit.accountKeyFromConfig (sample.key_record "unknown-type" EmptyString)) = None
  /\ Contains ("invalid key type: " +:+ dquote +:+ "unknown-type" +:+ dquote) "unknown-type".
Proof.
  apply (C4_unsupported_key_type (sample.key_record "unknown-type" EmptyString)).
  apply (bool_decide_unpack _). vm_compute. reflexivity.
Defined.

Lemma C7_witness_hex_record :
  let pkey := crypto.mkPrivateKey crypto.ECDSA_P256 [Byte.x0a; Byte.x0b; Byte.x0c] in
  let c := {| config.Type_ := "hex";
              config.Index := 2;
              config.SigAlgo := crypto.UnknownSignatureAlgorithm;
              config.HashAlgo := crypto.SHA2_256;
              config.ResourceID := EmptyString;
              config.Mnemonic := EmptyString;
              config.DerivationPath := EmptyString;
              config.PrivateKey := Some pkey;
              config.Location := EmptyString |} in
  exists a : flowkit.HexAccountKey,
    flowkit.accountKeyFromConfig c = Ok (flowkit.Hex a)
    /\ config.PrivateKey (flowkit.AccountKey_ToConfig (flowkit.Hex a)) = Some pkey
    /\ config.SigAlgo (flowkit.AccountKey_ToConfig (flowkit.Hex a))
       = crypto.UnknownSignatureAlgorithm
    /\ config.HashAlgo (flowkit.AccountKey_ToConfig (flowkit.Hex a)) = crypto.SHA2_256
    /\ config.Index (flowkit.AccountKey_ToConfig (flowkit.Hex a)) = 2%Z
    /\ config.Type_ (flowkit.AccountKey_ToConfig (flowkit.Hex a)) = "hex".
Proof.
  intros pkey c. apply (C7_hex_round_trip c). reflexivity.
Defined.

Lemma C9_witness_unset_algorithm :
  flowkit.AccountKey_SigAlgo (flowkit.Bip44 sample.derived) = crypto.ECDSA_P256
  /\ curve_of sample.derived = slip10.CurveBitcoin
  /\ exists evs,
       trace (snd (flowkit.Bip44AccountKey_Validate sample.derived sample.world))
       = trace sample.world
         ++ EvNewMasterKey (NewSeed sample.mnemonic12 EmptyString) slip10.CurveBitcoin :: evs.
Proof.
  apply (C9_unset_algorithm_derives_on_bitcoin_curve sample.derived sample.world
           [2147483692; 2147484187; 2147483648; 0; 0]%N).
  - reflexivity.
  - vm_compute. reflexivity.
  - vm_compute. reflexivity.
Defined.

(** The run of [Validate] on the sample key, in full. *)
Lemma Validate_sample_derived :
  flowkit.Bip44AccountKey_Validate sample.derived sample.world
  = (Ok tt, flowkit.set_bip44_privateKey (Some sample.derived_key) sample.derived,
     sample.derived_world).
Proof. vm_compute. reflexivity. Qed.

Lemma C10_witness_missing_file :
  let f := flowkit.NewFileAccountKey "missing.pkey" 0 crypto.ECDSA_P256 crypto.SHA3_256 in
  flowkit.FileAccountKey_Validate f sample.world = (Ok tt, f, sample.world)
  /\ exists cause,
       fst (fst (flowkit.FileAccountKey_PrivateKey f sample.world))
       = Err (KeyFileUnreadable "missing.pkey" cause)
       /\ fst (fst (flowkit.FileAccountKey_Signer f sample.world))
          = Err (KeyFileUnreadable "missing.pkey" cause).
Proof.
  intros f.
  destruct (C10_file_validate_is_noop f sample.world) as (Hvalidate & Hmissing & _).
  split; [exact Hvalidate|].
  apply Hmissing.
  - reflexivity.
  - vm_compute. reflexivity.
Defined.

Lemma C1_witness_records :
  let file := flowkit.File (flowkit.NewFileAccountKey "emulator.pkey" 0
                              crypto.ECDSA_P256 crypto.SHA3_256) in
  let kms := flowkit.Kms {| flowkit.kms_base := flowkit.baseKeyFromConfig sample.kms_record;
                            flowkit.kmsKey := cloudkms.mkKey "flow" "global" "cli" "signer" "1" |} in
  let derived1 := flowkit.Bip44 (flowkit.set_bip44_privateKey (Some sample.derived_key)
                                   sample.derived) in
  config.PrivateKey
    (flowkit.AccountKey_ToConfig
       (fst (after [CallPrivateKey; CallSigner] file sample.world))) = None
  /\ config.PrivateKey
       (flowkit.AccountKey_ToConfig
          (fst (after [CallSigner; CallPrivateKey] kms sample.world))) = None
  /\ flowkit.AccountKey_PrivateKey (flowkit.Bip44 sample.derived) sample.world
     = (Ok (Some sample.derived_key), derived1, sample.derived_world)
  /\ config.PrivateKey (flowkit.AccountKey_ToConfig derived1) = Some sample.derived_key.
Proof.
  intros file kms derived1.
  destruct C1_private_key_in_records as (Hfile & Hkms & _ & _ & Hderived & _).
  assert (Hcall : flowkit.AccountKey_PrivateKey (flowkit.Bip44 sample.derived) sample.world
                  = (Ok (Some sample.derived_key), derived1, sample.derived_world))
    by (vm_compute; reflexivity).
  split; [apply Hfile | split; [apply Hkms | split; [exact Hcall |]]].
  apply (Hderived _ _ _ _ _ Hcall).
Defined.

(** C1, refuted as the specification words it: once [PrivateKey] has
    succeeded on the sample Bip44 key, its record holds the derived key. *)
Lemma C1_derived_record_holds_key :
  let derived1 := flowkit.Bip44 (flowkit.set_bip44_privateKey (Some sample.derived_key)
                                   sample.derived) in
  keeps_key_private (flowkit.Bip44 sample.derived) = true
  /\ flowkit.AccountKey_PrivateKey (flowkit.Bip44 sample.derived) sample.world
     = (Ok (Some sample.derived_key), derived1, sample.derived_world)
  /\ config.PrivateKey (flowkit.AccountKey_ToConfig derived1) = Some sample.derived_key
  /\ ~ record_never_holds_key.
Proof.
  intros derived1.
  assert (Hcall : flowkit.AccountKey_PrivateKey (flowkit.Bip44 sample.derived) sample.world
                  = (Ok (Some sample.derived_key), derived1, sample.derived_world))
    by (vm_compute; reflexivity).
  split; [reflexivity | split; [exact Hcall | split; [reflexivity |]]].
  intros Hclaim.
  specialize (Hclaim (flowkit.Bip44 sample.derived) derived1 sample.world
                sample.derived_world eq_refl (or_introl (ex_intro _ _ Hcall))).
  discriminate Hclaim.
Qed.

Lemma C3_witness_empty_mnemonic :
  let c := sample.key_record "bip44" EmptyString in
  let a := {| flowkit.bip44_base := {| flowkit.keyType := "bip44";
                                       flowkit.index := 0;
                                       flowkit.sigAlgo := crypto.ECDSA_P256;
                                       flowkit.hashAlgo := crypto.SHA3_256 |};
              flowkit.bip44_privateKey := None;
              flowkit.mnemonic := EmptyString;
              flowkit.derivationPath := EmptyString |} in
  flowkit.accountKeyFromConfig c = Ok (flowkit.Bip44 a)
  /\ flowkit.Bip44AccountKey_Validate a sample.world = (Err InvalidMnemonic, a, sample.world).
Proof.
  intros c a.
  destruct (C3_factory_defers_validation c) as (Hfactory & Hvalidate & _).
  split.
  - apply Hfactory. reflexivity.
  - apply (Hvalidate a sample.world); reflexivity.
Defined.

(** C3, refuted as the specification words it: the factory returns a key
    for a Bip44 record without mnemonic and without path. *)
Lemma C3_factory_accepts_empty_mnemonic :
  error_of (flowkit.accountKeyFromConfig (sample.key_record "bip44" EmptyString)) = None
  /\ is_Some (value_of (flowkit.accountKeyFromConfig (sample.key_record "bip44" EmptyString)))
  /\ ~ factory_requires_mnemonic_and_path.
Proof.
  split; [reflexivity | split; [vm_compute; eauto |]].
  intros Hclaim.
  destruct (Hclaim (sample.key_record "bip44" EmptyString)) as [err Herr].
  - reflexivity.
  - left. reflexivity.
  - vm_compute in Herr. discriminate.
Qed.

Lemma C5_witness_nobody :
  project.DefaultKey sample.nobody
  = Panics "runtime error: index out of range [0] with length 0"
  /\ ~ fails_with_NoKeysConfigured sample.nobody.
Proof.
  apply (C5_default_key_of_no_keys sample.nobody). reflexivity.
Defined.

(** C5, refuted as the specification words it: on the account without
    keys the failure of [DefaultKey] is the run-time panic of the index
    expression. *)
Lemma C5_default_key_panics_on_index :
  project.keys sample.nobody = []
  /\ (exists msg, project.DefaultKey sample.nobody = Panics msg
                  /\ index_out_of_range msg = true)
  /\ ~ (forall a : project.Account, project.keys a = [] -> fails_with_NoKeysConfigured a).
Proof.
  split; [reflexivity | split].
  - eexists. split; reflexivity.
  - intros Hclaim. destruct (Hclaim sample.nobody eq_refl) as (msg & Hmsg & Hrange).
    vm_compute in Hmsg. injection Hmsg as <-. vm_compute in Hrange. discriminate.
Qed.

Lemma C6_witness_third_account :
  project.accountsFromConfig flowkit.accountKeyFromConfig sample.conf
  = Err (UnsupportedKeyType "unknown-type")
  /\ value_of (project.accountsFromConfig flowkit.accountKeyFromConfig sample.conf) = None.
Proof.
  destruct (C6_accounts_fail_fast flowkit.accountKeyFromConfig sample.conf
              [sample.account_record "emulator-account" (sample.key_record "file" "emulator.pkey");
               sample.account_record "alice" (sample.key_record "hex" EmptyString)]
              [sample.account_record "carol" (sample.key_record "file" "carol.pkey")]
              (sample.account_record "bob" (sample.key_record "unknown-type" EmptyString))
              (UnsupportedKeyType "unknown-type"))
    as (Herr & Hnone & _).
  - reflexivity.
  - repeat constructor; vm_compute; eauto.
  - vm_compute. reflexivity.
  - split; assumption.
Defined.

End concrete.

(** * Further properties of the code *)

(** ** Accounts and their default key *)

Section default_key_update.

Context {KT : config.KeyTypes} {L : Libs}.

(** X1. [SetDefaultKey] replaces the first key and nothing else: the name,
    the address and the other keys stay, and [DefaultKey] then returns the
    new key. On an account without keys it panics like [DefaultKey]. *)
Theorem X1_SetDefaultKey_then_DefaultKey (a : project.Account) (key : flowkit.AccountKey) :
  match project.keys a with
  | [] =>
      project.SetDefaultKey key a
      = Panics "runtime error: index out of range [0] with length 0"
  | _ :: rest =>
      exists a1,
        project.SetDefaultKey key a = Returns a1
        /\ project.DefaultKey a1 = Returns key
        /\ project.keys a1 = key :: rest
        /\ project.name a1 = project.name a
        /\ project.address a1 = project.address a
  end.
Proof.
  unfold project.SetDefaultKey, project.DefaultKey.
  destruct (project.keys a) as [|old rest]; cbn; [reflexivity|].
  eexists. repeat split.
Qed.

End default_key_update.

(** ** The conversions between configurations and accounts *)

Section more_loops.

Context {A B : Type} (f : A -> result B).

Lemma collect_Ok (xs : list A) :
  forall (acc ys : list B),
    collect f xs acc = Ok ys ->
    exists ys', ys = acc ++ ys' /\ Forall2 (fun x y => f x = Ok y) xs ys'.
Proof.
  induction xs as [|x rest IH]; intros acc ys Hloop; cbn in Hloop.
  - injection Hloop as <-. exists []. rewrite app_nil_r. split; constructor.
  - destruct (f x) as [y|e] eqn:Hx; [|discriminate].
    destruct (IH _ _ Hloop) as (ys' & -> & Hall).
    exists (y :: ys'). rewrite <- app_assoc. split; [reflexivity|].
    constructor; assumption.
Qed.

End more_loops.

Section conversions.

Context {KT : config.KeyTypes} {L : Libs}.

Variable NewAccountKey : config.AccountKey -> result flowkit.AccountKey.

(** What an account that converts looks like. *)
Lemma AccountFromConfig_Ok (accountConf : config.Account) (a : project.Account) :
  project.AccountFromConfig NewAccountKey accountConf = Ok a ->
  project.name a = config.Name accountConf
  /\ project.address a = config.Address accountConf
  /\ Forall2 (fun c k => NewAccountKey c = Ok k) (config.Keys accountConf) (project.keys a).
Proof.
  unfold project.AccountFromConfig. rewrite AccountFromConfig_range_collect.
  destruct (collect NewAccountKey (config.Keys accountConf) []) as [ks|e] eqn:Hloop;
    [|discriminate].
  intros Heq. injection Heq as <-. cbn.
  destruct (collect_Ok NewAccountKey _ _ _ Hloop) as (ks' & -> & Hall).
  repeat split. exact Hall.
Qed.

Lemma AccountFromConfig_Err (accountConf : config.Account) (err : error) :
  project.AccountFromConfig NewAccountKey accountConf = Err err ->
  exists kpre k kpost,
    config.Keys accountConf = kpre ++ k :: kpost
    /\ Forall (fun c => is_Some (value_of (NewAccountKey c))) kpre
    /\ NewAccountKey k = Err err.
Proof.
  unfold project.AccountFromConfig. rewrite AccountFromConfig_range_collect.
  destruct (collect NewAccountKey (config.Keys accountConf) []) as [ks|e] eqn:Hloop;
    [discriminate|].
  intros Heq. injection Heq as <-. apply (collect_Err NewAccountKey _ _ _ Hloop).
Qed.

(** X2. An account record without keys converts, whatever the key
    constructor, to an account without keys, on which [DefaultKey]
    panics. *)
Theorem X2_keyless_account_converts (accountConf : config.Account) :
  config.Keys accountConf = [] ->
  exists a,
    project.AccountFromConfig NewAccountKey accountConf = Ok a
    /\ project.keys a = []
    /\ project.DefaultKey a = Panics "runtime error: index out of range [0] with length 0".
Proof.
  intros Hkeys. unfold project.AccountFromConfig. rewrite Hkeys. cbn.
  eexists. repeat split.
Qed.

(** X3. When [accountsFromConfig] succeeds, there is one account for each
    account record, in the order of the configuration, with the name and
    the address of its record and one key for each key record, in order,
    each the key the constructor returned. *)
Theorem X3_accounts_in_declared_order (conf : config.Config) (accounts : list project.Account) :
  project.accountsFromConfig NewAccountKey conf = Ok accounts ->
  Forall2 (fun c a =>
             project.name a = config.Name c
             /\ project.address a = config.Address c
             /\ Forall2 (fun kc k => NewAccountKey kc = Ok k) (config.Keys c) (project.keys a))
          (config.Accounts conf) accounts.
Proof.
  unfold project.accountsFromConfig. rewrite accountsFromConfig_range_collect.
  intros Hloop.
  destruct (collect_Ok (project.AccountFromConfig NewAccountKey) _ _ _ Hloop)
    as (accounts' & -> & Hall).
  cbn. clear Hloop. induction Hall as [|c a cs accs Hc _ IH]; constructor.
  - apply AccountFromConfig_Ok. exact Hc.
  - exact IH.
Qed.

(** X4. An error of [accountsFromConfig] is never made up: it is the error
    the key constructor returned for one key record, the first that fails
    in the first account that fails, every key and account before it
    having converted. *)
Theorem X4_error_comes_from_a_key (conf : config.Config) (err : error) :
  project.accountsFromConfig NewAccountKey conf = Err err ->
  exists pre bad post kpre k kpost,
    config.Accounts conf = pre ++ bad :: post
    /\ Forall (fun c => is_Some (value_of (project.AccountFromConfig NewAccountKey c))) pre
    /\ config.Keys bad = kpre ++ k :: kpost
    /\ Forall (fun c => is_Some (value_of (NewAccountKey c))) kpre
    /\ NewAccountKey k = Err err.
Proof.
  intros Herr.
  destruct (accountsFromConfig_Err NewAccountKey conf err Herr)
    as (pre & bad & post & Haccounts & Hpre & Hbad).
  destruct (AccountFromConfig_Err bad err Hbad) as (kpre & k & kpost & Hkeys & Hkpre & Hk).
  exists pre, bad, post, kpre, k, kpost. repeat split; assumption.
Qed.

End conversions.

(** ** The factory and the records of the keys it builds *)

Section records.

Context {KT : config.KeyTypes} {L : Libs}.

(** The four ways the factory returns a key. *)
Lemma factory_Ok_inv (c : config.AccountKey) (k : flowkit.AccountKey) :
  flowkit.accountKeyFromConfig c = Ok k ->
  (config.Type_ c = config.KeyTypeHex
   /\ k = flowkit.Hex {| flowkit.hex_base := flowkit.baseKeyFromConfig c;
                         flowkit.hex_privateKey := config.PrivateKey c |})
  \/ (config.Type_ c = config.KeyTypeBip44
      /\ k = flowkit.Bip44
               {| flowkit.bip44_base := {| flowkit.keyType := config.KeyTypeBip44;
                                           flowkit.index := config.Index c;
                                           flowkit.sigAlgo := config.SigAlgo c;
                                           flowkit.hashAlgo := config.HashAlgo c |};
                  flowkit.bip44_privateKey := None;
                  flowkit.mnemonic := config.Mnemonic c;
                  flowkit.derivationPath := config.DerivationPath c |})
  \/ (config.Type_ c = config.KeyTypeGoogleKMS
      /\ exists key,
           KeyFromResourceID (config.ResourceID c) = Ok key
           /\ k = flowkit.Kms
                    {| flowkit.kms_base := {| flowkit.keyType := config.KeyTypeGoogleKMS;
                                              flowkit.index := config.Index c;
                                              flowkit.sigAlgo := config.SigAlgo c;
                                              flowkit.hashAlgo := config.HashAlgo c |};
                       flowkit.kmsKey := key |})
  \/ (config.Type_ c = config.KeyTypeFile
      /\ k = flowkit.File {| flowkit.file_base := flowkit.baseKeyFromConfig c;
                             flowkit.file_privateKey := None;
                             flowkit.location := config.Location c |}).
Proof.
  intros Hk.
  destruct (decide (config.Type_ c = config.KeyTypeHex)) as [Ht|Hhex].
  { rewrite (factory_hex c Ht) in Hk. injection Hk as <-. left. split; [exact Ht | reflexivity]. }
  destruct (decide (config.Type_ c = config.KeyTypeBip44)) as [Ht|Hbip].
  { rewrite (factory_bip44 c Ht) in Hk. injection Hk as <-.
    right; left. split; [exact Ht | reflexivity]. }
  destruct (decide (config.Type_ c = config.KeyTypeGoogleKMS)) as [Ht|Hkms].
  { rewrite (factory_kms c Ht) in Hk. unfold flowkit.kmsKeyFromConfig in Hk.
    destruct (KeyFromResourceID (config.ResourceID c)) as [key|e] eqn:Hparse; [|discriminate].
    injection Hk as <-. right; right; left. split; [exact Ht | eauto]. }
  destruct (decide (config.Type_ c = config.KeyTypeFile)) as [Ht|Hfile].
  { rewrite (factory_file c Ht) in Hk. injection Hk as <-.
    right; right; right. split; [exact Ht | reflexivity]. }
  rewrite factory_other in Hk; [discriminate|].
  unfold enumeration. rewrite !not_elem_of_cons. repeat split; try assumption.
  apply not_elem_of_nil.
Qed.

Lemma variant_of_tag_values :
  variant_of_tag config.KeyTypeHex = Some Inline
  /\ variant_of_tag config.KeyTypeBip44 = Some Derived
  /\ variant_of_tag config.KeyTypeGoogleKMS = Some KMS
  /\ variant_of_tag config.KeyTypeFile = Some FileBacked.
Proof.
  pose proof tags_distinct as (H1 & H2 & H3 & H4 & H5 & H6). unfold variant_of_tag.
  repeat split.
  - rewrite decide_True by reflexivity. reflexivity.
  - rewrite decide_False by congruence. rewrite decide_True by reflexivity. reflexivity.
  - rewrite !decide_False by congruence. rewrite decide_True by reflexivity. reflexivity.
  - rewrite !decide_False by congruence. rewrite decide_True by reflexivity. reflexivity.
Qed.

Lemma default_SigAlgo_spec (b : flowkit.baseAccountKey) :
  flowkit.baseAccountKey_SigAlgo b = default_SigAlgo (flowkit.sigAlgo b)
  /\ flowkit.baseAccountKey_SigAlgo b <> crypto.UnknownSignatureAlgorithm.
Proof.
  unfold flowkit.baseAccountKey_SigAlgo.
  destruct (flowkit.sigAlgo b); cbv; split; congruence.
Qed.

Lemma default_HashAlgo_spec (b : flowkit.baseAccountKey) :
  flowkit.baseAccountKey_HashAlgo b = default_HashAlgo (flowkit.hashAlgo b)
  /\ flowkit.baseAccountKey_HashAlgo b <> crypto.UnknownHashAlgorithm.
Proof.
  unfold flowkit.baseAccountKey_HashAlgo.
  destruct (flowkit.hashAlgo b); cbv; split; congruence.
Qed.

(** X5. A key the factory returns has the variant its tag stands for, the
    tag and the index of its record, and the algorithms of the record with
    the defaults filled in: its accessors never report an unset
    algorithm. *)
Theorem X5_factory_keeps_the_header (c : config.AccountKey) (k : flowkit.AccountKey) :
  flowkit.accountKeyFromConfig c = Ok k ->
  variant_of_tag (config.Type_ c) = Some (variant_of k)
  /\ flowkit.AccountKey_Type k = config.Type_ c
  /\ flowkit.AccountKey_Index k = config.Index c
  /\ flowkit.AccountKey_SigAlgo k = default_SigAlgo (config.SigAlgo c)
  /\ flowkit.AccountKey_HashAlgo k = default_HashAlgo (config.HashAlgo c)
  /\ flowkit.AccountKey_SigAlgo k <> crypto.UnknownSignatureAlgorithm
  /\ flowkit.AccountKey_HashAlgo k <> crypto.UnknownHashAlgorithm.
Proof.
  intros Hk.
  destruct variant_of_tag_values as (Vhex & Vbip & Vkms & Vfile).
  assert (Hhead : variant_of_tag (config.Type_ c) = Some (variant_of k)
                  /\ flowkit.keyType (flowkit.AccountKey_base k) = config.Type_ c
                  /\ flowkit.index (flowkit.AccountKey_base k) = config.Index c
                  /\ flowkit.sigAlgo (flowkit.AccountKey_base k) = config.SigAlgo c
                  /\ flowkit.hashAlgo (flowkit.AccountKey_base k) = config.HashAlgo c).
  { destruct (factory_Ok_inv c k Hk)
      as [[Ht ->]|[[Ht ->]|[[Ht (key & _ & ->)]|[Ht ->]]]];
      rewrite Ht; cbn; repeat split; congruence. }
  destruct Hhead as (Hv & Ht & Hi & Hs & Hh).
  unfold flowkit.AccountKey_Type, flowkit.AccountKey_Index, flowkit.AccountKey_SigAlgo,
    flowkit.AccountKey_HashAlgo, flowkit.baseAccountKey_Type, flowkit.baseAccountKey_Index.
  destruct (default_SigAlgo_spec (flowkit.AccountKey_base k)) as [Hsd Hsn].
  destruct (default_HashAlgo_spec (flowkit.AccountKey_base k)) as [Hhd Hhn].
  rewrite Hs in Hsd. rewrite Hh in Hhd.
  repeat split; assumption.
Qed.

(** X6. The record of a key fresh from the factory has the tag and the
    algorithms of the record the key was built from, the fields of its own
    variant (the private key of a Hex record, the mnemonic and path of a
    Bip44 record, the location of a File record, the resource identifier as
    the library prints it for a KMS record) and none of another variant.
    The index is kept except for a File record, where it becomes zero. *)
Theorem X6_record_of_a_fresh_key (c : config.AccountKey) (k : flowkit.AccountKey) :
  flowkit.accountKeyFromConfig c = Ok k ->
  flowkit.AccountKey_ToConfig k
  = match variant_of k with
    | Inline =>
        {| config.Type_ := config.Type_ c;
           config.Index := config.Index c;
           config.SigAlgo := config.SigAlgo c;
           config.HashAlgo := config.HashAlgo c;
           config.ResourceID := EmptyString;
           config.Mnemonic := EmptyString;
           config.DerivationPath := EmptyString;
           config.PrivateKey := config.PrivateKey c;
           config.Location := EmptyString |}
    | Derived =>
        {| config.Type_ := config.Type_ c;
           config.Index := config.Index c;
           config.SigAlgo := config.SigAlgo c;
           config.HashAlgo := config.HashAlgo c;
           config.ResourceID := EmptyString;
           config.Mnemonic := config.Mnemonic c;
           config.DerivationPath := config.DerivationPath c;
           config.PrivateKey := None;
           config.Location := EmptyString |}
    | FileBacked =>
        {| config.Type_ := config.Type_ c;
           config.Index := 0;
           config.SigAlgo := config.SigAlgo c;
           config.HashAlgo := config.HashAlgo c;
           config.ResourceID := EmptyString;
           config.Mnemonic := EmptyString;
           config.DerivationPath := EmptyString;
           config.PrivateKey := None;
           config.Location := config.Location c |}
    | KMS =>
        {| config.Type_ := config.Type_ c;
           config.Index := config.Index c;
           config.SigAlgo := config.SigAlgo c;
           config.HashAlgo := config.HashAlgo c;
           config.ResourceID :=
             match KeyFromResourceID (config.ResourceID c) with
             | Ok key => cloudkms_ResourceID key
             | Err _ => EmptyString
             end;
           config.Mnemonic := EmptyString;
           config.DerivationPath := EmptyString;
           config.PrivateKey := None;
           config.Location := EmptyString |}
    end.
Proof.
  intros Hk.
  destruct (factory_Ok_inv c k Hk)
    as [[Ht ->]|[[Ht ->]|[[Ht (key & Hparse & ->)]|[Ht ->]]]]; cbn.
  - reflexivity.
  - rewrite Ht. reflexivity.
  - rewrite Ht, Hparse. reflexivity.
  - rewrite Ht. reflexivity.
Qed.

Lemma rebuilt_restorable (k : flowkit.AccountKey) :
  flowkit.accountKeyFromConfig (flowkit.AccountKey_ToConfig k) = Ok k -> restorable k.
Proof.
  intros Hk.
  destruct (factory_Ok_inv _ k Hk)
    as [[Ht Heq]|[[Ht Heq]|[[Ht (key & Hparse & Heq)]|[Ht Heq]]]];
    destruct k as [a|a|a|f]; try discriminate Heq; cbn in *.
  - exact Ht.
  - injection Heq as Heq. rewrite Heq. cbn. split; reflexivity.
  - injection Heq as Heq. split; [exact Ht|].
    rewrite Hparse. f_equal. rewrite Heq. reflexivity.
  - injection Heq as Heq. rewrite Heq. cbn. repeat split.
Qed.

Lemma restorable_rebuilt (k : flowkit.AccountKey) :
  restorable k -> flowkit.accountKeyFromConfig (flowkit.AccountKey_ToConfig k) = Ok k.
Proof.
  destruct k as [[[kt i s h] pk]|[[kt i s h] key]|[[kt i s h] pk m d]|[[kt i s h] pk loc]];
    cbn.
  - intros ->. rewrite factory_hex by reflexivity. reflexivity.
  - intros [-> Hparse]. rewrite factory_kms by reflexivity.
    unfold flowkit.kmsKeyFromConfig. cbn. rewrite Hparse. reflexivity.
  - intros [-> ->]. rewrite factory_bip44 by reflexivity. reflexivity.
  - intros (-> & -> & ->). rewrite factory_file by reflexivity. reflexivity.
Qed.

(** X7. The factory builds a key again from the record of that key, and
    builds the same key, exactly when the key is [restorable]: a Hex key
    with the Hex tag; a Bip44 key with the Bip44 tag that holds no derived
    material; a File key with the File tag and index zero that holds no
    material; a KMS key with the KMS tag whose printed resource identifier
    the library reads back. *)
Theorem X7_key_record_key (k : flowkit.AccountKey) :
  flowkit.accountKeyFromConfig (flowkit.AccountKey_ToConfig k) = Ok k <-> restorable k.
Proof.
  split; [apply rebuilt_restorable | apply restorable_rebuilt].
Qed.

End records.

(** ** The way of accounts to the configuration and back *)

Section records_of_accounts.

Context {KT : config.KeyTypes} {L : Libs}.

Variable NewAccountKey : config.AccountKey -> result flowkit.AccountKey.
Variable ToConfig : flowkit.AccountKey -> config.AccountKey.

(** The loops of the two conversions to records append what [map] lists. *)
Lemma accountToConfig_range_map (keys : list flowkit.AccountKey) :
  forall keyConfigs,
    project.accountToConfig_range ToConfig keys keyConfigs
    = keyConfigs ++ map ToConfig keys.
Proof.
  induction keys as [|key rest IH]; intros keyConfigs; cbn.
  - rewrite app_nil_r. reflexivity.
  - rewrite IH, <- app_assoc. reflexivity.
Qed.

Lemma accountToConfig_map (a : project.Account) :
  project.accountToConfig ToConfig a
  = {| config.Name := project.name a;
       config.Address := project.address a;
       config.Keys := map ToConfig (project.keys a) |}.
Proof.
  unfold project.accountToConfig. rewrite accountToConfig_range_map. reflexivity.
Qed.

Lemma accountsToConfig_range_map (accounts : list project.Account) :
  forall accountConfs,
    project.accountsToConfig_range ToConfig accounts accountConfs
    = accountConfs ++ map (project.accountToConfig ToConfig) accounts.
Proof.
  induction accounts as [|account rest IH]; intros accountConfs; cbn.
  - rewrite app_nil_r. reflexivity.
  - rewrite IH, <- app_assoc. reflexivity.
Qed.

Lemma accountsToConfig_map (accounts : list project.Account) :
  project.accountsToConfig ToConfig accounts
  = map (project.accountToConfig ToConfig) accounts.
Proof.
  unfold project.accountsToConfig. apply accountsToConfig_range_map.
Qed.

(** The keys of an account that come back from their own records. *)
Lemma keys_come_back (keys : list flowkit.AccountKey) :
  Forall2 (fun c k => NewAccountKey c = Ok k) (map ToConfig keys) keys
  <-> Forall (fun k => NewAccountKey (ToConfig k) = Ok k) keys.
Proof.
  induction keys as [|k rest IH]; cbn.
  - split; constructor.
  - split; intros H; inversion H; subst; constructor; try assumption; apply IH; assumption.
Qed.

Lemma AccountFromConfig_accountToConfig (a : project.Account) :
  project.AccountFromConfig NewAccountKey (project.accountToConfig ToConfig a) = Ok a
  <-> Forall (fun k => NewAccountKey (ToConfig k) = Ok k) (project.keys a).
Proof.
  rewrite accountToConfig_map. split.
  - intros Ha. destruct (AccountFromConfig_Ok NewAccountKey _ _ Ha) as (_ & _ & Hkeys).
    apply keys_come_back. exact Hkeys.
  - intros Hkeys. unfold project.AccountFromConfig.
    rewrite AccountFromConfig_range_collect. cbn.
    rewrite (collect_succeeds NewAccountKey _ (project.keys a) []).
    + destruct a; reflexivity.
    + apply keys_come_back. exact Hkeys.
Qed.

Lemma accounts_come_back (accounts : list project.Account) :
  Forall2 (fun c a => project.AccountFromConfig NewAccountKey c = Ok a)
          (map (project.accountToConfig ToConfig) accounts) accounts
  <-> Forall (fun a => Forall (fun k => NewAccountKey (ToConfig k) = Ok k) (project.keys a))
             accounts.
Proof.
  induction accounts as [|a rest IH]; cbn.
  - split; constructor.
  - split; intros H; inversion H; subst; constructor;
      try (apply AccountFromConfig_accountToConfig; assumption);
      apply IH; assumption.
Qed.

(** X8. Whatever the constructor [NewAccountKey] and the method [ToConfig]
    of the keys are: [accountsToConfig] writes one record for each account,
    in order, with the name, the address and one record for each key, in
    order; and converting the records it writes gives the same accounts
    back exactly when [NewAccountKey] builds every key of every account
    again from the record [ToConfig] writes for it. *)
Theorem X8_accounts_round_trip (accounts : list project.Account) :
  project.accountsToConfig ToConfig accounts
  = map (fun a => {| config.Name := project.name a;
                     config.Address := project.address a;
                     config.Keys := map ToConfig (project.keys a) |}) accounts
  /\ (project.accountsFromConfig NewAccountKey
        {| config.Accounts := project.accountsToConfig ToConfig accounts |} = Ok accounts
      <-> Forall (fun a => Forall (fun k => NewAccountKey (ToConfig k) = Ok k) (project.keys a))
                 accounts).
Proof.
  split.
  - rewrite accountsToConfig_map. apply map_ext. intros a. apply accountToConfig_map.
  - rewrite accountsToConfig_map, <- accounts_come_back. split.
    + intros Hback. unfold project.accountsFromConfig in Hback.
      rewrite accountsFromConfig_range_collect in Hback. cbn in Hback.
      destruct (collect_Ok (project.AccountFromConfig NewAccountKey) _ _ _ Hback)
        as (accounts' & Heq & Hall).
      cbn in Heq. subst accounts'. exact Hall.
    + intros Hall. apply accountsFromConfig_Ok. exact Hall.
Qed.

End records_of_accounts.

(** ** What calls do to a key and to the world *)

Section calls.

Context {KT : config.KeyTypes} {L : Libs}.

Lemma logging_nil (w : World) : logging [] w = w.
Proof. destruct w. unfold logging. cbn. rewrite app_nil_r. reflexivity. Qed.

Lemma logging_emit (ev : event) (evs : list event) (w : World) :
  logging evs (emit ev w) = logging (ev :: evs) w.
Proof. unfold logging, emit. cbn. rewrite <- app_assoc. reflexivity. Qed.

Lemma emit_logging (ev : event) (w : World) : emit ev w = logging [ev] w.
Proof. reflexivity. Qed.

(** A key that holds its material answers from it, in every world. *)
Lemma invoke_held (i : invocation) (k : flowkit.AccountKey) (w : World) (pkey : crypto.PrivateKey) :
  variant_of k <> KMS ->
  held k = Some pkey ->
  invoke i k w = (k, w)
  /\ flowkit.AccountKey_PrivateKey k w = (Ok (Some pkey), k, w)
  /\ flowkit.AccountKey_Signer k w
     = (NewInMemorySigner (Some pkey) (flowkit.AccountKey_HashAlgo k), k, w).
Proof.
  intros Hv Hheld.
  assert (Hcalls : flowkit.AccountKey_PrivateKey k w = (Ok (Some pkey), k, w)
                   /\ flowkit.AccountKey_Signer k w
                      = (NewInMemorySigner (Some pkey) (flowkit.AccountKey_HashAlgo k), k, w)).
  { destruct k as [a|a|a|f]; cbn in Hheld; [| contradiction | |].
    - cbn. unfold via, flowkit.HexAccountKey_PrivateKey, flowkit.HexAccountKey_Signer.
      unfold_method. rewrite Hheld. split; reflexivity.
    - cbn. unfold via, flowkit.Bip44AccountKey_Signer, bind at 1.
      rewrite (Bip44_PrivateKey_cached a w pkey Hheld). split; reflexivity.
    - cbn. unfold via, flowkit.FileAccountKey_Signer, bind at 1.
      rewrite (File_PrivateKey_cached f w pkey Hheld). split; reflexivity. }
  destruct Hcalls as [Hpk Hsg].
  split; [| split; assumption].
  destruct i; cbn; [rewrite Hpk | rewrite Hsg]; reflexivity.
Qed.

Lemma after_held (calls : list invocation) :
  forall (k : flowkit.AccountKey) (w : World) (pkey : crypto.PrivateKey),
    variant_of k <> KMS ->
    held k = Some pkey ->
    after calls k w = (k, w).
Proof.
  induction calls as [|i rest IH]; intros k w pkey Hv Hheld; cbn [after].
  - reflexivity.
  - destruct (invoke_held i k w pkey Hv Hheld) as (-> & _). cbn. eapply IH; eassumption.
Qed.

Lemma invoke_Hex (i : invocation) (a : flowkit.HexAccountKey) (w : World) :
  invoke i (flowkit.Hex a) w = (flowkit.Hex a, w).
Proof.
  destruct i; cbn; unfold via, flowkit.HexAccountKey_PrivateKey,
    flowkit.HexAccountKey_Signer; unfold_method; reflexivity.
Qed.

Lemma files_emit (ev : event) (w : World) : files (emit ev w) = files w.
Proof. reflexivity. Qed.

Lemma invoke_Kms (i : invocation) (a : flowkit.KmsAccountKey) (w : World) :
  fst (invoke i (flowkit.Kms a) w) = flowkit.Kms a
  /\ files (snd (invoke i (flowkit.Kms a) w)) = files w
  /\ count is_read (snd (invoke i (flowkit.Kms a) w)) = count is_read w
  /\ count is_derivation (snd (invoke i (flowkit.Kms a) w)) = count is_derivation w.
Proof.
  destruct i; cbn [invoke flowkit.AccountKey_PrivateKey flowkit.AccountKey_Signer];
    unfold via, flowkit.KmsAccountKey_PrivateKey, flowkit.KmsAccountKey_Signer;
    unfold_method.
  - repeat split.
  - destruct NewClient as [client|err]; cbn [fst snd].
    + destruct (SignerForKey client (flowkit.kmsKey a)); cbn [fst snd];
        rewrite !count_emit, !files_emit; cbn; repeat split; lia.
    + rewrite !count_emit, !files_emit; cbn; repeat split; lia.
Qed.

Lemma after_Kms (calls : list invocation) :
  forall (a : flowkit.KmsAccountKey) (w : World),
    fst (after calls (flowkit.Kms a) w) = flowkit.Kms a
    /\ files (snd (after calls (flowkit.Kms a) w)) = files w
    /\ count is_read (snd (after calls (flowkit.Kms a) w)) = count is_read w
    /\ count is_derivation (snd (after calls (flowkit.Kms a) w)) = count is_derivation w.
Proof.
  induction calls as [|i rest IH]; intros a w; cbn [after].
  - repeat split.
  - destruct (invoke_Kms i a w) as (Hk & Hf & Hr & Hd). rewrite Hk.
    destruct (IH a (snd (invoke i (flowkit.Kms a) w))) as (Hk' & Hf' & Hr' & Hd').
    repeat split; congruence.
Qed.

(** X9. No call changes a Hex key, and a call on a Hex key leaves the
    world as it is; no call changes a KMS key, reads a file or derives a
    key, and the private key of a KMS key is refused every time. *)
Theorem X9_hex_and_kms_keys_never_change (calls : list invocation) (w : World) :
  (forall a : flowkit.HexAccountKey, after calls (flowkit.Hex a) w = (flowkit.Hex a, w))
  /\ (forall a : flowkit.KmsAccountKey,
        fst (after calls (flowkit.Kms a) w) = flowkit.Kms a
        /\ files (snd (after calls (flowkit.Kms a) w)) = files w
        /\ count is_read (snd (after calls (flowkit.Kms a) w)) = count is_read w
        /\ count is_derivation (snd (after calls (flowkit.Kms a) w)) = count is_derivation w
        /\ flowkit.AccountKey_PrivateKey (flowkit.Kms a) w
           = (Err KeyNotAccessible, flowkit.Kms a, w)).
Proof.
  split.
  - intros a. revert w. induction calls as [|i rest IH]; intros w; cbn [after].
    + reflexivity.
    + rewrite invoke_Hex. cbn. apply IH.
  - intros a. destruct (after_Kms calls a w) as (Hk & Hf & Hr & Hd).
    repeat split; assumption.
Qed.

(** *** The derivation of a Bip44 key, step by step *)

Lemma Validate_range_run (path : list N) :
  forall (key : slip10_Key) (a : flowkit.Bip44AccountKey) (w : World),
    flowkit.Validate_range key path a w
    = (derive key path, a, logging (map EvNewChildKey (attempted key path)) w).
Proof.
  induction path as [|n rest IH]; intros key a w; cbn [flowkit.Validate_range derive attempted].
  - unfold ret. rewrite logging_nil. reflexivity.
  - unfold bind, logged. destruct (NewChildKey key n) as [child|err].
    + rewrite IH, logging_emit. reflexivity.
    + reflexivity.
Qed.

Lemma derive_attempted (path : list N) :
  forall (key child : slip10_Key),
    derive key path = Ok child -> attempted key path = path.
Proof.
  induction path as [|n rest IH]; intros key child Hd; cbn in *; [reflexivity|].
  destruct (NewChildKey key n) as [next|err]; [|discriminate].
  f_equal. eapply IH. eassumption.
Qed.

Lemma derive_stops (pre : list N) :
  forall (key k : slip10_Key) (n : N) (post : list N) (err : error),
    derive key pre = Ok k ->
    NewChildKey k n = Err err ->
    derive key (pre ++ n :: post) = Err err
    /\ attempted key (pre ++ n :: post) = pre ++ [n].
Proof.
  induction pre as [|m rest IH]; intros key k n post err Hd Hn; cbn in *.
  - injection Hd as ->. rewrite Hn. split; reflexivity.
  - destruct (NewChildKey key m) as [next|e]; [|discriminate].
    destruct (IH next k n post err Hd Hn) as [-> ->]. split; reflexivity.
Qed.

(** [Validate], outcome by outcome. *)
Lemma Validate_run (a : flowkit.Bip44AccountKey) (w : World) :
  flowkit.Bip44AccountKey_Validate a w
  = if IsMnemonicValid (flowkit.mnemonic a)
    then
      match ParseDerivationPath (flowkit.derivationPath a) with
      | Err _ => (Err InvalidDerivationPath, a, w)
      | Ok path =>
          let seed := NewSeed (flowkit.mnemonic a) EmptyString in
          match NewMasterKeyWithCurve seed (curve_of a) with
          | Err err => (Err err, a, logging [EvNewMasterKey seed (curve_of a)] w)
          | Ok master =>
              let w1 := logging (EvNewMasterKey seed (curve_of a)
                                 :: map EvNewChildKey (attempted master path)) w in
              match derive master path with
              | Err err => (Err err, a, w1)
              | Ok child =>
                  match DecodePrivateKey
                          (flowkit.baseAccountKey_SigAlgo (flowkit.bip44_base a)) (Key child) with
                  | Ok pkey => (Ok tt, flowkit.set_bip44_privateKey (Some pkey) a, w1)
                  | Err err => (Err err, flowkit.set_bip44_privateKey None a, w1)
                  end
              end
          end
      end
    else (Err InvalidMnemonic, a, w).
Proof.
  unfold flowkit.Bip44AccountKey_Validate. unfold_method.
  destruct (IsMnemonicValid (flowkit.mnemonic a)); cbn [negb]; [|reflexivity].
  destruct (ParseDerivationPath (flowkit.derivationPath a)) as [path|e]; [|reflexivity].
  fold (curve_of a). cbn zeta.
  destruct (NewMasterKeyWithCurve (NewSeed (flowkit.mnemonic a) EmptyString) (curve_of a))
    as [master|e]; [|reflexivity].
  rewrite Validate_range_run, logging_emit.
  destruct (derive master path) as [child|e]; [|reflexivity].
  destruct (DecodePrivateKey _ _); reflexivity.
Qed.

(** X10. [Validate] on a Bip44 key succeeds exactly when the library
    accepts the mnemonic, parses the path, derives the master key on the
    curve chosen from the stored algorithm, derives a child for every
    segment of the path and decodes the last child under the resolved
    algorithm. It then stores that key and has logged the master key and
    one child per segment, in the order of the path. *)
Theorem X10_validate_succeeds_exactly_when
  (a a1 : flowkit.Bip44AccountKey) (w w1 : World) :
  flowkit.Bip44AccountKey_Validate a w = (Ok tt, a1, w1)
  <-> exists path master child pkey,
        IsMnemonicValid (flowkit.mnemonic a) = true
        /\ ParseDerivationPath (flowkit.derivationPath a) = Ok path
        /\ NewMasterKeyWithCurve (NewSeed (flowkit.mnemonic a) EmptyString) (curve_of a)
           = Ok master
        /\ derive master path = Ok child
        /\ DecodePrivateKey (flowkit.AccountKey_SigAlgo (flowkit.Bip44 a)) (Key child) = Ok pkey
        /\ a1 = flowkit.set_bip44_privateKey (Some pkey) a
        /\ w1 = logging (EvNewMasterKey (NewSeed (flowkit.mnemonic a) EmptyString) (curve_of a)
                         :: map EvNewChildKey path) w.
Proof.
  rewrite Validate_run. unfold flowkit.AccountKey_SigAlgo. cbn [flowkit.AccountKey_base].
  split.
  - destruct (IsMnemonicValid (flowkit.mnemonic a)); [|discriminate].
    destruct (ParseDerivationPath (flowkit.derivationPath a)) as [path|e]; [|discriminate].
    cbn zeta.
    destruct (NewMasterKeyWithCurve _ _) as [master|e]; [|discriminate].
    destruct (derive master path) as [child|e] eqn:Hd; [|discriminate].
    destruct (DecodePrivateKey _ _) as [pkey|e] eqn:Hdec; [|discriminate].
    intros Heq. injection Heq as <- <-.
    rewrite (derive_attempted path master child Hd).
    exists path, master, child, pkey. repeat split; assumption.
  - intros (path & master & child & pkey & -> & -> & Hm & Hd & Hdec & -> & ->).
    cbn zeta. rewrite Hm, Hd, Hdec, (derive_attempted path master child Hd). reflexivity.
Qed.

(** X11. When the library refuses a segment of the path, [Validate] stops
    there: it returns the error of the library as it is, has asked for no
    child beyond that segment, and leaves the key as it was. *)
Theorem X11_validate_stops_at_the_refused_segment
  (a : flowkit.Bip44AccountKey) (w : World)
  (pre post : list N) (n : N) (master k : slip10_Key) (err : error) :
  IsMnemonicValid (flowkit.mnemonic a) = true ->
  ParseDerivationPath (flowkit.derivationPath a) = Ok (pre ++ n :: post) ->
  NewMasterKeyWithCurve (NewSeed (flowkit.mnemonic a) EmptyString) (curve_of a) = Ok master ->
  derive master pre = Ok k ->
  NewChildKey k n = Err err ->
  flowkit.Bip44AccountKey_Validate a w
  = (Err err, a,
     logging (EvNewMasterKey (NewSeed (flowkit.mnemonic a) EmptyString) (curve_of a)
              :: map EvNewChildKey (pre ++ [n])) w).
Proof.
  intros Hv Hp Hm Hd Hn. rewrite Validate_run, Hv, Hp. cbn zeta. rewrite Hm.
  destruct (derive_stops pre master k n post err Hd Hn) as [-> ->]. reflexivity.
Qed.

(** X12. [Validate] does not look at the material a key holds: on a key
    it has validated it succeeds again, keeps the key as it is and derives
    the master key and every child once more. *)
Theorem X12_validate_repeats_the_derivation
  (a a1 : flowkit.Bip44AccountKey) (w w1 : World) :
  flowkit.Bip44AccountKey_Validate a w = (Ok tt, a1, w1) ->
  forall w',
    fst (flowkit.Bip44AccountKey_Validate a1 w') = (Ok tt, a1)
    /\ count is_derivation (snd (flowkit.Bip44AccountKey_Validate a1 w'))
       = (count is_derivation w' + 1)%nat
    /\ exists evs, w1 = logging evs w
                   /\ snd (flowkit.Bip44AccountKey_Validate a1 w') = logging evs w'.
Proof.
  rewrite Validate_run.
  destruct (IsMnemonicValid (flowkit.mnemonic a)) eqn:Hv; [|discriminate].
  destruct (ParseDerivationPath (flowkit.derivationPath a)) as [path|e] eqn:Hp; [|discriminate].
  cbn zeta.
  destruct (NewMasterKeyWithCurve _ _) as [master|e] eqn:Hm; [|discriminate].
  destruct (derive master path) as [child|e] eqn:Hd; [|discriminate].
  destruct (DecodePrivateKey _ _) as [pkey|e] eqn:Hdec; [|discriminate].
  intros Heq. injection Heq as <- <-. intros w'.
  rewrite Validate_run. unfold curve_of in *. cbn [flowkit.set_bip44_privateKey
    flowkit.mnemonic flowkit.derivationPath flowkit.bip44_base] in *.
  rewrite Hv, Hp. cbn zeta. rewrite Hm, Hd, Hdec. cbn [fst snd].
  split; [reflexivity | split; [| eauto]].
  unfold count, logging. cbn [trace]. rewrite List.filter_app, length_app.
  cbn [List.filter is_derivation].
  assert (Hnone : forall ns, List.filter is_derivation (map EvNewChildKey ns) = []).
  { induction ns as [|m ms IHns]; [reflexivity | exact IHns]. }
  rewrite Hnone. reflexivity.
Qed.

(** *** Only the cache of a key ever changes *)

Lemma with_held_held (k : flowkit.AccountKey) : with_held (held k) k = k.
Proof. destruct k as [a|a|a|f]; try reflexivity; [destruct a | destruct f]; reflexivity. Qed.

Lemma with_held_twice (c c' : option crypto.PrivateKey) (k : flowkit.AccountKey) :
  with_held c (with_held c' k) = with_held c k.
Proof. destruct k; reflexivity. Qed.

Lemma with_held_fixed (c : option crypto.PrivateKey) (k : flowkit.AccountKey) :
  flowkit.AccountKey_base (with_held c k) = flowkit.AccountKey_base k
  /\ variant_of (with_held c k) = variant_of k
  /\ without_key (flowkit.AccountKey_ToConfig (with_held c k))
     = without_key (flowkit.AccountKey_ToConfig k).
Proof. destruct k; repeat split. Qed.

Lemma with_held_base (c : option crypto.PrivateKey) (k : flowkit.AccountKey) :
  flowkit.AccountKey_base (with_held c k) = flowkit.AccountKey_base k.
Proof. destruct k; reflexivity. Qed.

Lemma File_PrivateKey_state (f : flowkit.FileAccountKey) (w : World) :
  exists c,
    snd (fst (flowkit.FileAccountKey_PrivateKey f w)) = flowkit.set_file_privateKey c f
    /\ files (snd (flowkit.FileAccountKey_PrivateKey f w)) = files w.
Proof.
  destruct (flowkit.file_privateKey f) as [pkey|] eqn:Hc.
  - rewrite (File_PrivateKey_cached f w pkey Hc). exists (Some pkey).
    split; [|reflexivity]. destruct f; cbn in *; subst; reflexivity.
  - destruct (files w !! flowkit.location f) as [content|] eqn:Hf.
    + destruct (DecodePrivateKeyHex (flowkit.sigAlgo (flowkit.file_base f))
                  (TrimPrefix content "0x")) as [pkey|cause] eqn:Hd.
      * rewrite (File_PrivateKey_loaded f w content pkey Hc Hf Hd). eauto.
      * rewrite (File_PrivateKey_undecodable f w content cause Hc Hf Hd).
        exists None. split; [|reflexivity]. destruct f; cbn in *; subst; reflexivity.
    + rewrite (File_PrivateKey_unreadable f w Hc Hf).
      exists None. split; [|reflexivity]. destruct f; cbn in *; subst; reflexivity.
Qed.

Lemma Bip44_Validate_state (a : flowkit.Bip44AccountKey) (w : World) :
  (snd (fst (flowkit.Bip44AccountKey_Validate a w)) = a
   \/ exists c, snd (fst (flowkit.Bip44AccountKey_Validate a w))
                = flowkit.set_bip44_privateKey c a)
  /\ files (snd (flowkit.Bip44AccountKey_Validate a w)) = files w.
Proof.
  rewrite Validate_run.
  destruct (IsMnemonicValid (flowkit.mnemonic a)); [|split; [left|]; reflexivity].
  destruct (ParseDerivationPath (flowkit.derivationPath a)) as [path|e];
    [|split; [left|]; reflexivity].
  cbn zeta.
  destruct (NewMasterKeyWithCurve _ _) as [master|e]; [|split; [left|]; reflexivity].
  destruct (derive master path) as [child|e]; [|split; [left|]; reflexivity].
  destruct (DecodePrivateKey _ _) as [pkey|e]; (split; [right; eauto | reflexivity]).
Qed.

Lemma Bip44_PrivateKey_state (a : flowkit.Bip44AccountKey) (w : World) :
  exists c,
    snd (fst (flowkit.Bip44AccountKey_PrivateKey a w)) = flowkit.set_bip44_privateKey c a
    /\ files (snd (flowkit.Bip44AccountKey_PrivateKey a w)) = files w.
Proof.
  destruct (flowkit.bip44_privateKey a) as [pkey|] eqn:Hc.
  - rewrite (Bip44_PrivateKey_cached a w pkey Hc). exists (Some pkey).
    split; [|reflexivity]. destruct a; cbn in *; subst; reflexivity.
  - rewrite (Bip44_PrivateKey_lazy a w Hc).
    destruct (Bip44_Validate_state a w) as [Hkey Hfiles].
    destruct (flowkit.Bip44AccountKey_Validate a w) as [[[[]|err] a1] w1];
      cbn [fst snd] in *;
      (split with (x := flowkit.bip44_privateKey a1) || idtac).
    all: destruct Hkey as [->|[c ->]]; (split; [|exact Hfiles]).
    all: try (rewrite Hc; destruct a; cbn in *; subst; reflexivity).
    all: reflexivity.
Qed.

Lemma PrivateKey_state (k : flowkit.AccountKey) (w : World) :
  exists c,
    snd (fst (flowkit.AccountKey_PrivateKey k w)) = with_held c k
    /\ files (snd (flowkit.AccountKey_PrivateKey k w)) = files w.
Proof.
  destruct k as [a|a|a|f]; cbn [flowkit.AccountKey_PrivateKey with_held]; unfold via.
  - exists None. split; reflexivity.
  - exists None. split; reflexivity.
  - destruct (Bip44_PrivateKey_state a w) as (c & Hk & Hf). exists c.
    destruct (flowkit.Bip44AccountKey_PrivateKey a w) as [[r a1] w1]. cbn in *.
    subst. split; [reflexivity | exact Hf].
  - destruct (File_PrivateKey_state f w) as (c & Hk & Hf). exists c.
    destruct (flowkit.FileAccountKey_PrivateKey f w) as [[r f1] w1]. cbn in *.
    subst. split; [reflexivity | exact Hf].
Qed.

(** [Signer] on a Hex, File or Bip44 key is [PrivateKey] followed by the
    in-memory signer of the library. *)
Lemma Signer_run (k : flowkit.AccountKey) (w : World) :
  variant_of k <> KMS ->
  flowkit.AccountKey_Signer k w
  = match flowkit.AccountKey_PrivateKey k w with
    | (Ok m, k1, w1) => (NewInMemorySigner m (flowkit.AccountKey_HashAlgo k1), k1, w1)
    | (Err err, k1, w1) => (Err err, k1, w1)
    end.
Proof.
  intros Hv. destruct k as [a|a|a|f]; [| contradiction | |];
    cbn [flowkit.AccountKey_Signer flowkit.AccountKey_PrivateKey]; unfold via.
  - reflexivity.
  - unfold flowkit.Bip44AccountKey_Signer, bind at 1.
    destruct (flowkit.Bip44AccountKey_PrivateKey a w) as [[[m|err] a1] w1]; reflexivity.
  - unfold flowkit.FileAccountKey_Signer, bind at 1.
    destruct (flowkit.FileAccountKey_PrivateKey f w) as [[[m|err] f1] w1]; reflexivity.
Qed.

Lemma invoke_state (i : invocation) (k : flowkit.AccountKey) (w : World) :
  exists c, fst (invoke i k w) = with_held c k /\ files (snd (invoke i k w)) = files w.
Proof.
  assert (Hcases : (exists a, k = flowkit.Kms a) \/ variant_of k <> KMS)
    by (destruct k; eauto; right; discriminate).
  destruct Hcases as [[a ->]|Hv].
  - destruct (invoke_Kms i a w) as (Hk & Hf & _). exists None. split; assumption.
  - destruct (PrivateKey_state k w) as (c & Hk & Hf). exists c.
    destruct i; cbn [invoke fst snd]; [split; assumption|].
    rewrite (Signer_run k w Hv).
    destruct (flowkit.AccountKey_PrivateKey k w) as [[[m|err] k1] w1];
      cbn [fst snd] in *; split; assumption.
Qed.

Lemma after_state (calls : list invocation) :
  forall (k : flowkit.AccountKey) (w : World),
    exists c, fst (after calls k w) = with_held c k /\ files (snd (after calls k w)) = files w.
Proof.
  induction calls as [|i rest IH]; intros k w; cbn [after].
  - exists (held k). rewrite with_held_held. split; reflexivity.
  - destruct (invoke_state i k w) as (c & Hk & Hf).
    destruct (IH (fst (invoke i k w)) (snd (invoke i k w))) as (c' & Hk' & Hf').
    exists c'. rewrite Hk', Hf', Hk, with_held_twice. split; [reflexivity | exact Hf].
Qed.

(** X13. Whatever calls of [PrivateKey] and [Signer] are made on a key,
    and whatever they return, the key keeps its variant, tag, index and
    algorithms, and its record changes at most in the private key; the
    files stay as they are. *)
Theorem X13_calls_change_only_the_cache
  (calls : list invocation) (k : flowkit.AccountKey) (w : World) :
  variant_of (fst (after calls k w)) = variant_of k
  /\ flowkit.AccountKey_base (fst (after calls k w)) = flowkit.AccountKey_base k
  /\ without_key (flowkit.AccountKey_ToConfig (fst (after calls k w)))
     = without_key (flowkit.AccountKey_ToConfig k)
  /\ files (snd (after calls k w)) = files w.
Proof.
  destruct (after_state calls k w) as (c & -> & Hf).
  destruct (with_held_fixed c k) as (Hb & Hv & Hr).
  repeat split; assumption.
Qed.

(** X14. Once [PrivateKey] has returned the material of a File or Bip44
    key, the key answers from what it holds in every world, whatever became
    of the key file: further calls of [PrivateKey] and [Signer] return the
    same material and the signer the library makes of it, and leave the
    key and the world as they are. *)
Theorem X14_material_is_never_reloaded
  (k k1 : flowkit.AccountKey) (w w1 : World) (m : option crypto.PrivateKey) :
  lazily_materialized k = true ->
  flowkit.AccountKey_PrivateKey k w = (Ok m, k1, w1) ->
  forall (calls : list invocation) (w' : World),
    after calls k1 w' = (k1, w')
    /\ flowkit.AccountKey_PrivateKey k1 w' = (Ok m, k1, w')
    /\ flowkit.AccountKey_Signer k1 w'
       = (NewInMemorySigner m (flowkit.AccountKey_HashAlgo k), k1, w').
Proof.
  intros Hlazy Hcall calls w'.
  assert (Hheld : exists pkey, m = Some pkey /\ held k1 = Some pkey /\ variant_of k1 <> KMS
                               /\ flowkit.AccountKey_base k1 = flowkit.AccountKey_base k).
  { destruct (PrivateKey_state k w) as (c & Hk & _). rewrite Hcall in Hk. cbn in Hk.
    pose proof (with_held_base c k) as Hb. rewrite <- Hk in Hb.
    destruct k as [a|a|a|f]; try discriminate Hlazy; cbn in Hcall; unfold via in Hcall.
    - destruct (flowkit.Bip44AccountKey_PrivateKey a w) as [[r a1] w0] eqn:Hpk.
      injection Hcall as -> <- ->.
      destruct (Bip44_PrivateKey_Ok a a1 w w1 m Hpk) as ((pkey & -> & Hc) & _).
      exists pkey. repeat split; [exact Hc | discriminate | exact Hb].
    - destruct (flowkit.FileAccountKey_PrivateKey f w) as [[r f1] w0] eqn:Hpk.
      injection Hcall as -> <- ->.
      destruct (File_PrivateKey_Ok f f1 w w1 m Hpk) as ((pkey & -> & Hc) & _).
      exists pkey. repeat split; [exact Hc | discriminate | exact Hb]. }
  destruct Hheld as (pkey & -> & Hheld & Hv & Hb).
  destruct (invoke_held CallPrivateKey k1 w' pkey Hv Hheld) as (_ & Hpk & Hsg).
  split; [apply (after_held calls k1 w' pkey Hv Hheld) | split; [exact Hpk|]].
  rewrite Hsg. unfold flowkit.AccountKey_HashAlgo. rewrite Hb. reflexivity.
Qed.

(** X15. A call of [PrivateKey] that fails on a File or Bip44 key caches
    nothing: the key is left exactly as it was, holding no material, and the
    files are untouched, so every later call does the work again. [Signer]
    fails with the same error. *)
Theorem X15_failure_is_not_cached
  (k k1 : flowkit.AccountKey) (w w1 : World) (err : error) :
  lazily_materialized k = true ->
  flowkit.AccountKey_PrivateKey k w = (Err err, k1, w1) ->
  k1 = k
  /\ held k = None
  /\ files w1 = files w
  /\ flowkit.AccountKey_Signer k w = (Err err, k1, w1).
Proof.
  intros Hlazy Hcall.
  assert (Hv : variant_of k <> KMS) by (destruct k; try discriminate Hlazy; discriminate).
  assert (Hnone : held k = None).
  { destruct (held k) as [pkey|] eqn:Hheld; [|reflexivity].
    destruct (invoke_held CallPrivateKey k w pkey Hv Hheld) as (_ & Hpk & _).
    rewrite Hpk in Hcall. discriminate. }
  destruct (PrivateKey_state k w) as (c & Hk & Hf). rewrite Hcall in Hk, Hf. cbn in Hk, Hf.
  assert (Hsame : k1 = k).
  { destruct k as [a|a|a|f]; try discriminate Hlazy; cbn in Hnone, Hcall; unfold via in Hcall.
    - rewrite (Bip44_PrivateKey_lazy a w Hnone) in Hcall.
      destruct (Bip44_Validate_state a w) as [Hstate _].
      revert Hcall Hstate. rewrite Validate_run.
      destruct (IsMnemonicValid (flowkit.mnemonic a));
        [|intros Heq _; injection Heq as _ <- _; reflexivity].
      destruct (ParseDerivationPath (flowkit.derivationPath a)) as [path|e];
        [|intros Heq _; injection Heq as _ <- _; reflexivity].
      cbn zeta.
      destruct (NewMasterKeyWithCurve _ _) as [master|e];
        [|intros Heq _; injection Heq as _ <- _; reflexivity].
      destruct (derive master path) as [child|e];
        [|intros Heq _; injection Heq as _ <- _; reflexivity].
      destruct (DecodePrivateKey _ _) as [pkey|e]; intros Heq _; [discriminate|].
      injection Heq as _ <- _. destruct a; cbn in *; subst; reflexivity.
    - destruct (files w !! flowkit.location f) as [content|] eqn:Hfile.
      + destruct (DecodePrivateKeyHex (flowkit.sigAlgo (flowkit.file_base f))
                    (TrimPrefix content "0x")) as [pkey|cause] eqn:Hd.
        * rewrite (File_PrivateKey_loaded f w content pkey Hnone Hfile Hd) in Hcall.
          discriminate.
        * rewrite (File_PrivateKey_undecodable f w content cause Hnone Hfile Hd) in Hcall.
          injection Hcall as _ <- _. reflexivity.
      + rewrite (File_PrivateKey_unreadable f w Hnone Hfile) in Hcall.
        injection Hcall as _ <- _. reflexivity. }
  repeat split; try assumption.
  rewrite (Signer_run k w Hv), Hcall. reflexivity.
Qed.

(** *** A call of [PrivateKey], outcome by outcome *)

Lemma count_logging (p : event -> bool) (evs : list event) (w : World) :
  count p (logging evs w) = (count p w + length (List.filter p evs))%nat.
Proof.
  unfold count, logging. cbn [trace]. rewrite List.filter_app, length_app. reflexivity.
Qed.

Lemma no_derivation_in_children (ns : list N) :
  List.filter is_derivation (map EvNewChildKey ns) = [].
Proof. induction ns as [|n rest IH]; [reflexivity | exact IH]. Qed.

Lemma set_bip44_privateKey_held (a : flowkit.Bip44AccountKey) :
  flowkit.set_bip44_privateKey (flowkit.bip44_privateKey a) a = a.
Proof. destruct a; reflexivity. Qed.

Lemma File_PrivateKey_run (f : flowkit.FileAccountKey) (w : World) :
  flowkit.FileAccountKey_PrivateKey f w
  = match flowkit.file_privateKey f with
    | Some pkey => (Ok (Some pkey), f, w)
    | None =>
        let w1 := logging [EvReadFile (flowkit.location f)] w in
        match files w !! flowkit.location f with
        | None =>
            (Err (KeyFileUnreadable (flowkit.location f)
                    ("open " +:+ flowkit.location f +:+ ": no such file or directory")),
             f, w1)
        | Some content =>
            match DecodePrivateKeyHex (flowkit.sigAlgo (flowkit.file_base f))
                    (TrimPrefix content "0x") with
            | Ok pkey => (Ok (Some pkey), flowkit.set_file_privateKey (Some pkey) f, w1)
            | Err cause => (Err (KeyDecodeError (flowkit.location f) cause), f, w1)
            end
        end
    end.
Proof.
  cbn zeta. rewrite <- emit_logging.
  destruct (flowkit.file_privateKey f) as [pkey|] eqn:Hc.
  - apply File_PrivateKey_cached. exact Hc.
  - destruct (files w !! flowkit.location f) as [content|] eqn:Hf.
    + destruct (DecodePrivateKeyHex (flowkit.sigAlgo (flowkit.file_base f))
                  (TrimPrefix content "0x")) as [pkey|cause] eqn:Hd.
      * apply (File_PrivateKey_loaded f w content pkey Hc Hf Hd).
      * apply (File_PrivateKey_undecodable f w content cause Hc Hf Hd).
    + apply (File_PrivateKey_unreadable f w Hc Hf).
Qed.

Lemma Bip44_PrivateKey_run (a : flowkit.Bip44AccountKey) (w : World) :
  flowkit.Bip44AccountKey_PrivateKey a w
  = match flowkit.bip44_privateKey a with
    | Some pkey => (Ok (Some pkey), a, w)
    | None =>
        if IsMnemonicValid (flowkit.mnemonic a)
        then
          match ParseDerivationPath (flowkit.derivationPath a) with
          | Err _ => (Err InvalidDerivationPath, a, w)
          | Ok path =>
              let seed := NewSeed (flowkit.mnemonic a) EmptyString in
              match NewMasterKeyWithCurve seed (curve_of a) with
              | Err err => (Err err, a, logging [EvNewMasterKey seed (curve_of a)] w)
              | Ok master =>
                  let w1 := logging (EvNewMasterKey seed (curve_of a)
                                     :: map EvNewChildKey (attempted master path)) w in
                  match derive master path with
                  | Err err => (Err err, a, w1)
                  | Ok child =>
                      match DecodePrivateKey
                              (flowkit.baseAccountKey_SigAlgo (flowkit.bip44_base a))
                              (Key child) with
                      | Ok pkey =>
                          (Ok (Some pkey), flowkit.set_bip44_privateKey (Some pkey) a, w1)
                      | Err err => (Err err, a, w1)
                      end
                  end
              end
          end
        else (Err InvalidMnemonic, a, w)
    end.
Proof.
  destruct (flowkit.bip44_privateKey a) as [pkey|] eqn:Hc.
  - apply Bip44_PrivateKey_cached. exact Hc.
  - rewrite (Bip44_PrivateKey_lazy a w Hc), Validate_run.
    destruct (IsMnemonicValid (flowkit.mnemonic a)); [|reflexivity].
    destruct (ParseDerivationPath (flowkit.derivationPath a)) as [path|e]; [|reflexivity].
    cbn zeta.
    destruct (NewMasterKeyWithCurve _ _) as [master|e]; [|reflexivity].
    destruct (derive master path) as [child|e]; [|reflexivity].
    destruct (DecodePrivateKey _ _) as [pkey|e]; [reflexivity|].
    rewrite <- Hc, set_bip44_privateKey_held. reflexivity.
Qed.

(** A call that fails on a File key has read the file and left the key as
    it was; the same call fails the same way, after reading the file
    again, in every world with the same files. *)
Lemma File_PrivateKey_Err
  (f f1 : flowkit.FileAccountKey) (w w1 : World) (err : error) :
  flowkit.FileAccountKey_PrivateKey f w = (Err err, f1, w1) ->
  f1 = f
  /\ w1 = logging [EvReadFile (flowkit.location f)] w
  /\ forall w', files w' = files w ->
        flowkit.FileAccountKey_PrivateKey f w'
        = (Err err, f, logging [EvReadFile (flowkit.location f)] w').
Proof.
  intros Hcall.
  assert (Hagain : forall w', files w' = files w ->
            flowkit.FileAccountKey_PrivateKey f w'
            = (Err err, f1, logging [EvReadFile (flowkit.location f)] w')
            /\ f1 = f /\ w1 = logging [EvReadFile (flowkit.location f)] w).
  { intros w' Hfiles. rewrite File_PrivateKey_run in *. rewrite Hfiles.
    destruct (flowkit.file_privateKey f) as [pkey|]; [discriminate|].
    cbn zeta in *.
    destruct (files w !! flowkit.location f) as [content|].
    - destruct (DecodePrivateKeyHex _ _) as [pkey|cause]; [discriminate|].
      injection Hcall as <- <- <-. repeat split.
    - injection Hcall as <- <- <-. repeat split. }
  destruct (Hagain w eq_refl) as (_ & -> & ->).
  repeat split. intros w' Hfiles. apply (Hagain w' Hfiles).
Qed.

(** A call that fails on a Bip44 key has left the key as it was; the same
    call fails the same way, after the same work, in every world. Once the
    mnemonic and the path are accepted, that work starts with the
    derivation of the master key. *)
Lemma Bip44_PrivateKey_Err
  (a a1 : flowkit.Bip44AccountKey) (w w1 : World) (err : error) :
  flowkit.Bip44AccountKey_PrivateKey a w = (Err err, a1, w1) ->
  a1 = a
  /\ exists evs,
       w1 = logging evs w
       /\ (forall w', flowkit.Bip44AccountKey_PrivateKey a w' = (Err err, a, logging evs w'))
       /\ (evs = [] \/ exists ns,
             evs = EvNewMasterKey (NewSeed (flowkit.mnemonic a) EmptyString) (curve_of a)
                   :: map EvNewChildKey ns)
       /\ (forall path,
             IsMnemonicValid (flowkit.mnemonic a) = true ->
             ParseDerivationPath (flowkit.derivationPath a) = Ok path ->
             evs <> []).
Proof.
  intros Hcall.
  assert (Hrun := Bip44_PrivateKey_run a). rewrite Hrun in Hcall.
  destruct (flowkit.bip44_privateKey a) as [held_key|]; [discriminate|].
  destruct (IsMnemonicValid (flowkit.mnemonic a)).
  - destruct (ParseDerivationPath (flowkit.derivationPath a)) as [path|e].
    + cbn zeta in *.
      destruct (NewMasterKeyWithCurve _ _) as [master|e].
      * destruct (derive master path) as [child|e].
        -- destruct (DecodePrivateKey _ _) as [pkey|e]; [discriminate|].
           injection Hcall as <- <- <-. split; [reflexivity|].
           eexists. split; [reflexivity|]. split; [intros w'; apply Hrun|].
           split; [right; eexists; reflexivity | intros; discriminate].
        -- injection Hcall as <- <- <-. split; [reflexivity|].
           eexists. split; [reflexivity|]. split; [intros w'; apply Hrun|].
           split; [right; eexists; reflexivity | intros; discriminate].
      * injection Hcall as <- <- <-. split; [reflexivity|].
        eexists. split; [reflexivity|]. split; [intros w'; apply Hrun|].
        split; [right; exists []; reflexivity | intros; discriminate].
    + injection Hcall as <- <- <-. split; [reflexivity|].
      exists []. rewrite logging_nil. split; [reflexivity|].
      split; [intros w'; rewrite Hrun, logging_nil; reflexivity|].
      split; [left; reflexivity | intros path _ Hp; discriminate Hp].
  - injection Hcall as <- <- <-. split; [reflexivity|].
    exists []. rewrite logging_nil. split; [reflexivity|].
    split; [intros w'; rewrite Hrun, logging_nil; reflexivity|].
    split; [left; reflexivity | intros path Hv; discriminate Hv].
Qed.

(** *** The text of a key file *)

Lemma substring_all (s : string) : String.substring 0 (String.length s) s = s.
Proof. induction s as [|c s IH]; cbn; [reflexivity | rewrite IH; reflexivity]. Qed.

Lemma TrimPrefix_0x (h : string) : TrimPrefix ("0x" +:+ h) "0x" = h.
Proof.
  unfold TrimPrefix. change ("0x" +:+ h) with (String "0" (String "x" h)).
  cbn [String.prefix String.length].
  replace (S (S (String.length h)) - 2)%nat with (String.length h) by lia.
  destruct (ascii_dec "0" "0") as [_|Hne]; [|contradiction].
  destruct (ascii_dec "x" "x") as [_|Hne]; [|contradiction].
  cbn [String.substring].
  destruct h as [|c h']; [reflexivity|].
  cbn [String.prefix]. apply substring_all.
Qed.

Lemma TrimPrefix_other (h : string) :
  String.prefix "0x" h = false -> TrimPrefix h "0x" = h.
Proof. intros Hp. unfold TrimPrefix. rewrite Hp. reflexivity. Qed.

(** What [PrivateKey] does with the content of the key file. *)
Lemma File_PrivateKey_content (f : flowkit.FileAccountKey) (w : World) (content : string) :
  flowkit.file_privateKey f = None ->
  files w !! flowkit.location f = Some content ->
  fst (flowkit.FileAccountKey_PrivateKey f w)
  = match DecodePrivateKeyHex (flowkit.sigAlgo (flowkit.file_base f))
            (TrimPrefix content "0x") with
    | Ok pkey => (Ok (Some pkey), flowkit.set_file_privateKey (Some pkey) f)
    | Err cause => (Err (KeyDecodeError (flowkit.location f) cause), f)
    end.
Proof.
  intros Hc Hf.
  destruct (DecodePrivateKeyHex (flowkit.sigAlgo (flowkit.file_base f))
              (TrimPrefix content "0x")) as [pkey|cause] eqn:Hd.
  - rewrite (File_PrivateKey_loaded f w content pkey Hc Hf Hd). reflexivity.
  - rewrite (File_PrivateKey_undecodable f w content cause Hc Hf Hd). reflexivity.
Qed.

(** X16. A key file may start with [0x] or not: a File key that holds no
    material returns the same result, and ends as the same key, for a file
    with the content [0x] followed by a text as for a file with that text
    alone, as long as the text does not itself start with [0x] (one prefix
    is removed, not two). *)
Theorem X16_key_file_with_or_without_0x
  (f : flowkit.FileAccountKey) (w w' : World) (h : string) :
  flowkit.file_privateKey f = None ->
  files w !! flowkit.location f = Some ("0x" +:+ h) ->
  files w' !! flowkit.location f = Some h ->
  String.prefix "0x" h = false ->
  fst (flowkit.FileAccountKey_PrivateKey f w) = fst (flowkit.FileAccountKey_PrivateKey f w').
Proof.
  intros Hc Hf Hf' Hp.
  rewrite (File_PrivateKey_content f w _ Hc Hf), (File_PrivateKey_content f w' _ Hc Hf').
  rewrite TrimPrefix_0x, (TrimPrefix_other h Hp). reflexivity.
Qed.

(** *** Keys as hexadecimal text *)

Lemma EncodeToString_length (src : list Byte.byte) :
  String.length (hex.EncodeToString src) = (2 * length src)%nat.
Proof. induction src as [|v rest IH]; cbn; [reflexivity | rewrite IH; lia]. Qed.

(** X17. The factory accepts a Hex record that has no private key, and
    [Validate] on the key it returns panics on the missing key instead of
    returning an error. On a Hex record with a private key, [Validate]
    gives the verdict of the library on the hexadecimal text of the key
    under the algorithm as stored, and puts [invalid private key: ] before
    the error of the library. *)
Theorem X17_validate_of_a_hex_key (c : config.AccountKey) :
  config.Type_ c = config.KeyTypeHex ->
  exists a,
    flowkit.accountKeyFromConfig c = Ok (flowkit.Hex a)
    /\ flowkit.HexAccountKey_Validate a
       = match config.PrivateKey c with
         | None => Panics flowkit.nil_dereference
         | Some privateKey =>
             match DecodePrivateKeyHex (config.SigAlgo c)
                     (hex.EncodeToString (crypto.Encode privateKey)) with
             | Ok _ => Returns (Ok tt)
             | Err err => Returns (Err ("invalid private key: " +:+ err))
             end
         end.
Proof.
  intros Ht. eexists. split; [apply (factory_hex c Ht)|].
  unfold flowkit.HexAccountKey_Validate, flowkit.HexAccountKey_PrivateKeyHex. cbn.
  destruct (config.PrivateKey c) as [privateKey|]; reflexivity.
Qed.

(** X18. [PrivateKeyHex] on a Bip44 key that holds no material panics,
    whatever else the key holds; so it does on every key the factory builds
    from a Bip44 record, and after a call of [PrivateKey] that failed. Once
    [PrivateKey] has returned the material, [PrivateKeyHex] returns the
    hexadecimal text of that material, two digits for each byte. *)
Theorem X18_hex_text_of_a_derived_key :
  (forall a : flowkit.Bip44AccountKey,
     flowkit.bip44_privateKey a = None ->
     flowkit.Bip44AccountKey_PrivateKeyHex a = Panics flowkit.nil_dereference)
  /\ (forall c : config.AccountKey,
        config.Type_ c = config.KeyTypeBip44 ->
        exists a, flowkit.accountKeyFromConfig c = Ok (flowkit.Bip44 a)
                  /\ flowkit.Bip44AccountKey_PrivateKeyHex a = Panics flowkit.nil_dereference)
  /\ (forall (a a1 : flowkit.Bip44AccountKey) (w w1 : World) (err : error),
        flowkit.Bip44AccountKey_PrivateKey a w = (Err err, a1, w1) ->
        flowkit.Bip44AccountKey_PrivateKeyHex a1 = Panics flowkit.nil_dereference)
  /\ (forall (a a1 : flowkit.Bip44AccountKey) (w w1 : World) (m : option crypto.PrivateKey),
        flowkit.Bip44AccountKey_PrivateKey a w = (Ok m, a1, w1) ->
        exists pkey,
          m = Some pkey
          /\ flowkit.Bip44AccountKey_PrivateKeyHex a1
             = Returns (hex.EncodeToString (crypto.Encode pkey))
          /\ String.length (hex.EncodeToString (crypto.Encode pkey))
             = (2 * length (crypto.Encode pkey))%nat).
Proof.
  assert (Hnone : forall a : flowkit.Bip44AccountKey,
            flowkit.bip44_privateKey a = None ->
            flowkit.Bip44AccountKey_PrivateKeyHex a = Panics flowkit.nil_dereference).
  { intros a Hc. unfold flowkit.Bip44AccountKey_PrivateKeyHex. rewrite Hc. reflexivity. }
  split; [exact Hnone | split; [| split]].
  - intros c Ht. rewrite (factory_bip44 c Ht). unfold flowkit.bip44KeyFromConfig.
    eexists. split; [reflexivity|]. apply Hnone. reflexivity.
  - intros a a1 w w1 err Hcall.
    destruct (Bip44_PrivateKey_Err a a1 w w1 err Hcall) as (-> & _).
    apply Hnone. rewrite Bip44_PrivateKey_run in Hcall.
    destruct (flowkit.bip44_privateKey a); [discriminate | reflexivity].
  - intros a a1 w w1 m Hcall.
    destruct (Bip44_PrivateKey_Ok a a1 w w1 m Hcall) as ((pkey & -> & Hc) & _).
    exists pkey. unfold flowkit.Bip44AccountKey_PrivateKeyHex. rewrite Hc.
    repeat split. apply EncodeToString_length.
Qed.

End calls.

(** ** Materialisation happens once, when it succeeds *)

Section materialization.

Context {KT : config.KeyTypes} {L : Libs}.

(** C8. On a File or Bip44 key, two calls of [PrivateKey] in a row:

    - when the first call returns, it returns material, and the second
      call returns the same material and leaves the key and the world as
      they are, so that over both calls the key file was read, or the
      master key derived, at most once;
    - when the first call fails, it has cached nothing: the key is as it
      was, and the second call fails with the same error after doing the
      work of the first again, so a File key has its file read twice, and a
      Bip44 key whose mnemonic and path are accepted has its master key
      derived twice;
    - the first call on a File key that holds nothing returns when the file
      is there and its text, without a leading [0x], decodes: it has then
      read the file once and the key holds the decoded material;
    - the first call on a Bip44 key that holds nothing returns when the
      mnemonic is valid, the path parses, the master key and a child for
      every segment are derived and the last child decodes: it has then
      derived the master key once and the key holds the decoded material. *)
Theorem C8_materialized_once_if_returned (k : flowkit.AccountKey) (w : World) :
  lazily_materialized k = true ->
  (forall (m : option crypto.PrivateKey) (k1 : flowkit.AccountKey) (w1 : World),
     flowkit.AccountKey_PrivateKey k w = (Ok m, k1, w1) ->
     flowkit.AccountKey_PrivateKey k1 w1 = (Ok m, k1, w1)
     /\ is_Some m
     /\ held k1 = m
     /\ (count is_read w1 + count is_derivation w1
         <= count is_read w + count is_derivation w + 1)%nat)
  /\ (forall (err : error) (k1 : flowkit.AccountKey) (w1 : World),
        flowkit.AccountKey_PrivateKey k w = (Err err, k1, w1) ->
        k1 = k
        /\ held k = None
        /\ exists (evs : list event) (w2 : World),
             w1 = logging evs w
             /\ flowkit.AccountKey_PrivateKey k1 w1 = (Err err, k, w2)
             /\ w2 = logging evs w1
             /\ (forall f, k = flowkit.File f ->
                   evs = [EvReadFile (flowkit.location f)]
                   /\ count is_read w2 = (count is_read w + 2)%nat)
             /\ (forall a path, k = flowkit.Bip44 a ->
                   IsMnemonicValid (flowkit.mnemonic a) = true ->
                   ParseDerivationPath (flowkit.derivationPath a) = Ok path ->
                   count is_derivation w2 = (count is_derivation w + 2)%nat))
  /\ (forall (f : flowkit.FileAccountKey) (content : string) (pkey : crypto.PrivateKey),
        k = flowkit.File f ->
        flowkit.file_privateKey f = None ->
        files w !! flowkit.location f = Some content ->
        DecodePrivateKeyHex (flowkit.sigAlgo (flowkit.file_base f)) (TrimPrefix content "0x")
        = Ok pkey ->
        flowkit.AccountKey_PrivateKey k w
        = (Ok (Some pkey), flowkit.File (flowkit.set_file_privateKey (Some pkey) f),
           logging [EvReadFile (flowkit.location f)] w))
  /\ (forall (a : flowkit.Bip44AccountKey) (path : list N) (master child : slip10_Key)
             (pkey : crypto.PrivateKey),
        k = flowkit.Bip44 a ->
        flowkit.bip44_privateKey a = None ->
        IsMnemonicValid (flowkit.mnemonic a) = true ->
        ParseDerivationPath (flowkit.derivationPath a) = Ok path ->
        NewMasterKeyWithCurve (NewSeed (flowkit.mnemonic a) EmptyString) (curve_of a)
        = Ok master ->
        derive master path = Ok child ->
        DecodePrivateKey (flowkit.AccountKey_SigAlgo (flowkit.Bip44 a)) (Key child) = Ok pkey ->
        flowkit.AccountKey_PrivateKey k w
        = (Ok (Some pkey), flowkit.Bip44 (flowkit.set_bip44_privateKey (Some pkey) a),
           logging (EvNewMasterKey (NewSeed (flowkit.mnemonic a) EmptyString) (curve_of a)
                    :: map EvNewChildKey path) w)).
Proof.
  intros Hlazy. split; [| split; [| split]].
  - intros m k1 w1 Hcall.
    destruct (PrivateKey_memoized k k1 w w1 m Hlazy Hcall) as (Hagain & Hm & Hwork).
    repeat split; try assumption.
    destruct k as [a|a|a|f]; try discriminate Hlazy; cbn in Hcall; unfold via in Hcall.
    + destruct (flowkit.Bip44AccountKey_PrivateKey a w) as [[r a1] w'] eqn:Hpk.
      injection Hcall as -> <- ->.
      destruct (Bip44_PrivateKey_Ok a a1 w w1 m Hpk) as ((pkey & -> & Hc) & _). exact Hc.
    + destruct (flowkit.FileAccountKey_PrivateKey f w) as [[r f1] w'] eqn:Hpk.
      injection Hcall as -> <- ->.
      destruct (File_PrivateKey_Ok f f1 w w1 m Hpk) as ((pkey & -> & Hc) & _). exact Hc.
  - intros err k1 w1 Hcall.
    destruct k as [a|a|a|f]; try discriminate Hlazy; cbn in Hcall; unfold via in Hcall.
    + destruct (flowkit.Bip44AccountKey_PrivateKey a w) as [[r a1] w'] eqn:Hpk.
      injection Hcall as -> <- ->.
      destruct (Bip44_PrivateKey_Err a a1 w w1 err Hpk)
        as (-> & evs & -> & Hagain & Hshape & Hwork).
      split; [reflexivity|]. split.
      { cbn. rewrite Bip44_PrivateKey_run in Hpk.
        destruct (flowkit.bip44_privateKey a); [discriminate | reflexivity]. }
      exists evs, (logging evs (logging evs w)).
      split; [reflexivity|]. split.
      { cbn. unfold via. rewrite Hagain. reflexivity. }
      split; [reflexivity|]. split; [intros f Hf; discriminate Hf|].
      intros a' path Ha Hv Hp. injection Ha as <-.
      specialize (Hwork path Hv Hp).
      destruct Hshape as [->|[ns ->]]; [contradiction|].
      rewrite !count_logging. cbn [List.filter is_derivation].
      rewrite no_derivation_in_children. cbn. lia.
    + destruct (flowkit.FileAccountKey_PrivateKey f w) as [[r f1] w'] eqn:Hpk.
      injection Hcall as -> <- ->.
      destruct (File_PrivateKey_Err f f1 w w1 err Hpk) as (-> & -> & Hagain).
      split; [reflexivity|]. split.
      { cbn. rewrite File_PrivateKey_run in Hpk.
        destruct (flowkit.file_privateKey f); [discriminate | reflexivity]. }
      exists [EvReadFile (flowkit.location f)],
             (logging [EvReadFile (flowkit.location f)]
                (logging [EvReadFile (flowkit.location f)] w)).
      split; [reflexivity|]. split.
      { cbn. unfold via. rewrite Hagain by reflexivity. reflexivity. }
      split; [reflexivity|]. split; [|intros a path Ha; discriminate Ha].
      intros f' Hf. injection Hf as <-. split; [reflexivity|].
      rewrite !count_logging. cbn. lia.
  - intros f content pkey -> Hc Hf Hd. cbn. unfold via.
    rewrite File_PrivateKey_run, Hc. cbn zeta. rewrite Hf, Hd. reflexivity.
  - intros a path master child pkey -> Hc Hv Hp Hm Hd Hdec. cbn. unfold via.
    unfold flowkit.AccountKey_SigAlgo in Hdec. cbn [flowkit.AccountKey_base] in Hdec.
    rewrite Bip44_PrivateKey_run, Hc, Hv, Hp. cbn zeta.
    rewrite Hm, Hd, Hdec, (derive_attempted path master child Hd). reflexivity.
Qed.

End materialization.

(** ** The login of the KMS variant *)

Section login.

Context {KT : config.KeyTypes} {L : Libs} {SH : Shell}.

Lemma after_first_open_app (before rest : string) :
  mentions "["%char before = false ->
  after_first_open (before +:+ String "["%char rest) = Some rest.
Proof.
  induction before as [|c before IH]; cbn; intros Hm.
  - change (EmptyString +:+ String "["%char rest) with (String "["%char rest).
    cbn. rewrite decide_True by reflexivity. reflexivity.
  - change (String c before +:+ String "["%char rest)
      with (String c (before +:+ String "["%char rest)).
    cbn. destruct (decide (c = "["%char)) as [?|Hc]; [discriminate|]. apply IH. exact Hm.
Qed.

Lemma after_first_open_none (s : string) :
  mentions "["%char s = false -> after_first_open s = None.
Proof.
  induction s as [|c s IH]; cbn; intros Hm; [reflexivity|].
  destruct (decide (c = "["%char)); [discriminate | apply IH; exact Hm].
Qed.

Lemma before_last_close_none (s : string) :
  mentions "]"%char s = false -> before_last_close s = None.
Proof.
  induction s as [|c s IH]; cbn; intros Hm; [reflexivity|].
  destruct (decide (c = "]"%char)); [discriminate|]. rewrite (IH Hm). reflexivity.
Qed.

Lemma before_last_close_app (inner after : string) :
  mentions "]"%char after = false ->
  before_last_close (inner +:+ String "]"%char after) = Some inner.
Proof.
  intros Hm. induction inner as [|c inner IH].
  - change (EmptyString +:+ String "]"%char after) with (String "]"%char after).
    cbn. rewrite (before_last_close_none after Hm), decide_True by reflexivity. reflexivity.
  - change (String c inner +:+ String "]"%char after)
      with (String c (inner +:+ String "]"%char after)).
    cbn. rewrite IH. reflexivity.
Qed.

Lemma after_first_open_suffix (s rest : string) :
  after_first_open s = Some rest ->
  mentions "]"%char s = false -> mentions "]"%char rest = false.
Proof.
  induction s as [|c s IH]; cbn; intros Ho Hm; [discriminate|].
  destruct (decide (c = "]"%char)); [discriminate|].
  destruct (decide (c = "["%char)); [injection Ho as <-; exact Hm | apply IH; assumption].
Qed.

(** The group of the match runs from the first opening bracket to the last
    closing bracket. *)
Lemma FindAllStringSubmatch_bracketed (before inner after : string) :
  mentions "["%char before = false ->
  mentions "]"%char after = false ->
  FindAllStringSubmatch (before +:+ "[" +:+ inner +:+ "]" +:+ after)
  = [("[" +:+ inner +:+ "]", inner)].
Proof.
  intros Hb Ha. unfold FindAllStringSubmatch.
  change ("[" +:+ inner +:+ "]" +:+ after)
    with (String "["%char (inner +:+ String "]"%char after)).
  rewrite (after_first_open_app before _ Hb), (before_last_close_app inner after Ha).
  reflexivity.
Qed.

Lemma FindAllStringSubmatch_none (output : string) :
  mentions "["%char output = false \/ mentions "]"%char output = false ->
  FindAllStringSubmatch output = [].
Proof.
  intros [Hm|Hm]; unfold FindAllStringSubmatch.
  - rewrite (after_first_open_none output Hm). reflexivity.
  - destruct (after_first_open output) as [rest|] eqn:Ho; [|reflexivity].
    rewrite (before_last_close_none rest (after_first_open_suffix output rest Ho Hm)).
    reflexivity.
Qed.

Lemma os_Getenv_Setenv (key value : string) (p : Process) :
  has_NUL value = false -> os_Getenv key (os_Setenv key value p) = value.
Proof.
  intros Hn. unfold os_Getenv, os_Setenv. rewrite Hn. cbn.
  rewrite lookup_insert_eq. reflexivity.
Qed.

Lemma project_given (kms : cloudkms.Key) :
  cloudkms.ProjectID kms <> EmptyString ->
  (String.length (cloudkms.ProjectID kms) =? 0)%nat = false.
Proof. destruct (cloudkms.ProjectID kms); [contradiction | reflexivity]. Qed.

Lemma signed_in (resourceID : string) (p : Process) :
  os_Getenv flowkit.GOOGLE_APPLICATION_CREDENTIALS p <> EmptyString ->
  flowkit.gcloudApplicationSignin resourceID p = (Returns (Ok tt), p).
Proof.
  intros Hset. unfold flowkit.gcloudApplicationSignin.
  destruct (os_Getenv flowkit.GOOGLE_APPLICATION_CREDENTIALS p); [contradiction|].
  reflexivity.
Qed.

(** X19. When no credentials are set, the resource identifier parses to a
    key with a project, and the login prints a text without NUL between
    its first opening and its last closing square bracket,
    [gcloudApplicationSignin] runs the login once, for that project, and
    sets [GOOGLE_APPLICATION_CREDENTIALS] to that text. If the text is not
    empty, every later call, for any resource, returns at once: it runs
    nothing and changes nothing. *)
Theorem X19_login_happens_once
  (resourceID : string) (p : Process) (kms : cloudkms.Key) (before inner after : string) :
  os_Getenv flowkit.GOOGLE_APPLICATION_CREDENTIALS p = EmptyString ->
  KeyFromResourceID resourceID = Ok kms ->
  cloudkms.ProjectID kms <> EmptyString ->
  CombinedOutput (flowkit.loginCmd (cloudkms.ProjectID kms))
  = Ok (before +:+ "[" +:+ inner +:+ "]" +:+ after) ->
  mentions "["%char before = false ->
  mentions "]"%char after = false ->
  has_NUL inner = false ->
  let p1 := {| environ := <[flowkit.GOOGLE_APPLICATION_CREDENTIALS := inner]> (environ p);
               commands := commands p ++ [flowkit.loginCmd (cloudkms.ProjectID kms)] |} in
  flowkit.gcloudApplicationSignin resourceID p = (Returns (Ok tt), p1)
  /\ (inner <> EmptyString ->
      forall resourceID', flowkit.gcloudApplicationSignin resourceID' p1 = (Returns (Ok tt), p1)).
Proof.
  intros Henv Hparse Hproj Hout Hb Ha Hn p1.
  assert (Hrun : flowkit.gcloudApplicationSignin resourceID p = (Returns (Ok tt), p1)).
  { unfold flowkit.gcloudApplicationSignin.
    rewrite Henv, Hparse. cbn [String.length Nat.ltb Nat.leb]. cbn zeta.
    rewrite (project_given kms Hproj), Hout.
    rewrite (FindAllStringSubmatch_bracketed before inner after Hb Ha).
    unfold os_Setenv. rewrite Hn. reflexivity. }
  split; [exact Hrun|].
  intros Hinner resourceID'. apply signed_in.
  unfold os_Getenv, p1. cbn. rewrite lookup_insert_eq. exact Hinner.
Qed.

(** X20. When the login succeeds but prints no opening square bracket, or
    no closing one, [gcloudApplicationSignin] panics on the missing match,
    after the login has run; the environment is left as it was. *)
Theorem X20_login_without_brackets_panics
  (resourceID : string) (p : Process) (kms : cloudkms.Key) (output : string) :
  os_Getenv flowkit.GOOGLE_APPLICATION_CREDENTIALS p = EmptyString ->
  KeyFromResourceID resourceID = Ok kms ->
  cloudkms.ProjectID kms <> EmptyString ->
  CombinedOutput (flowkit.loginCmd (cloudkms.ProjectID kms)) = Ok output ->
  mentions "["%char output = false \/ mentions "]"%char output = false ->
  flowkit.gcloudApplicationSignin resourceID p
  = (Panics "runtime error: index out of range [0] with length 0",
     {| environ := environ p;
        commands := commands p ++ [flowkit.loginCmd (cloudkms.ProjectID kms)] |}).
Proof.
  intros Henv Hparse Hproj Hout Hm.
  unfold flowkit.gcloudApplicationSignin.
  rewrite Henv, Hparse. cbn [String.length Nat.ltb Nat.leb]. cbn zeta.
  rewrite (project_given kms Hproj), Hout.
  rewrite (FindAllStringSubmatch_none output Hm). reflexivity.
Qed.

(** X21. [gcloudApplicationSignin], and with it [Validate] of a KMS key,
    either leaves the process as it was, or has run exactly one command, the
    gcloud login for the project of the key, which happens only when no
    credentials were set; and it never changes an environment variable
    other than [GOOGLE_APPLICATION_CREDENTIALS]. *)
Theorem X21_login_touches_one_variable (a : flowkit.KmsAccountKey) (p : Process) :
  let p1 := snd (flowkit.KmsAccountKey_Validate a p) in
  (p1 = p
   \/ exists kms,
        os_Getenv flowkit.GOOGLE_APPLICATION_CREDENTIALS p = EmptyString
        /\ KeyFromResourceID (cloudkms_ResourceID (flowkit.kmsKey a)) = Ok kms
        /\ cloudkms.ProjectID kms <> EmptyString
        /\ commands p1 = commands p ++ [flowkit.loginCmd (cloudkms.ProjectID kms)])
  /\ forall key, key <> flowkit.GOOGLE_APPLICATION_CREDENTIALS ->
                 environ p1 !! key = environ p !! key.
Proof.
  unfold flowkit.KmsAccountKey_Validate, flowkit.gcloudApplicationSignin.
  destruct (os_Getenv flowkit.GOOGLE_APPLICATION_CREDENTIALS p) as [|c0 creds] eqn:Henv;
    cbn [String.length Nat.ltb Nat.leb]; [|split; [left|]; reflexivity].
  destruct (KeyFromResourceID (cloudkms_ResourceID (flowkit.kmsKey a))) as [kms|err] eqn:Hparse;
    [|split; [left|]; reflexivity].
  destruct (cloudkms.ProjectID kms) as [|c proj] eqn:Hp;
    cbn [String.length Nat.eqb]; [split; [left|]; reflexivity|].
  rewrite <- Hp.
  assert (Hproj : cloudkms.ProjectID kms <> EmptyString) by (rewrite Hp; discriminate).
  destruct (CombinedOutput (flowkit.loginCmd (cloudkms.ProjectID kms))) as [output|err].
  - destruct (FindAllStringSubmatch output) as [|[full creds] rest]; cbn [snd].
    + split; [right; exists kms; repeat split; assumption | reflexivity].
    + unfold os_Setenv. destruct (has_NUL creds); cbn.
      * split; [right; exists kms; repeat split; assumption | reflexivity].
      * split; [right; exists kms; repeat split; assumption |].
        intros key Hkey. rewrite lookup_insert_ne by congruence. reflexivity.
  - cbn [snd]. split; [right; exists kms; repeat split; assumption | reflexivity].
Qed.

End login.

(** * The further properties on concrete inputs *)

Section concrete_conversions.

#[local] Existing Instance sample.tags.
#[local] Existing Instance sample.libs.

Lemma X2_witness_keyless_record :
  exists a,
    project.AccountFromConfig flowkit.accountKeyFromConfig sample.keyless_record = Ok a
    /\ project.keys a = []
    /\ project.DefaultKey a = Panics "runtime error: index out of range [0] with length 0".
Proof.
  apply (X2_keyless_account_converts flowkit.accountKeyFromConfig sample.keyless_record).
  reflexivity.
Defined.

Lemma X3_witness_two_accounts :
  Forall2 (fun c a =>
             project.name a = config.Name c
             /\ project.address a = config.Address c
             /\ Forall2 (fun kc k => flowkit.accountKeyFromConfig kc = Ok k)
                        (config.Keys c) (project.keys a))
          (config.Accounts sample.conf2) sample.accounts2.
Proof.
  apply (X3_accounts_in_declared_order flowkit.accountKeyFromConfig sample.conf2
           sample.accounts2).
  vm_compute. reflexivity.
Defined.

Lemma X4_witness_unknown_type :
  exists pre bad post kpre k kpost,
    config.Accounts sample.conf = pre ++ bad :: post
    /\ Forall (fun c => is_Some (value_of
                          (project.AccountFromConfig flowkit.accountKeyFromConfig c))) pre
    /\ config.Keys bad = kpre ++ k :: kpost
    /\ Forall (fun c => is_Some (value_of (flowkit.accountKeyFromConfig c))) kpre
    /\ flowkit.accountKeyFromConfig k = Err (UnsupportedKeyType "unknown-type").
Proof.
  apply (X4_error_comes_from_a_key flowkit.accountKeyFromConfig sample.conf
           (UnsupportedKeyType "unknown-type")).
  vm_compute. reflexivity.
Defined.

Lemma X5_witness_derived_record :
  variant_of_tag "bip44" = Some Derived
  /\ flowkit.AccountKey_Type (flowkit.Bip44 sample.derived) = "bip44"
  /\ flowkit.AccountKey_Index (flowkit.Bip44 sample.derived) = 0%Z
  /\ flowkit.AccountKey_SigAlgo (flowkit.Bip44 sample.derived) = crypto.ECDSA_P256
  /\ flowkit.AccountKey_HashAlgo (flowkit.Bip44 sample.derived) = crypto.SHA3_256
  /\ flowkit.AccountKey_SigAlgo (flowkit.Bip44 sample.derived)
     <> crypto.UnknownSignatureAlgorithm
  /\ flowkit.AccountKey_HashAlgo (flowkit.Bip44 sample.derived) <> crypto.UnknownHashAlgorithm.
Proof.
  apply (X5_factory_keeps_the_header sample.derived_record (flowkit.Bip44 sample.derived)).
  vm_compute. reflexivity.
Defined.

Lemma X6_witness_kms_record :
  let k := flowkit.Kms {| flowkit.kms_base := {| flowkit.keyType := "google-kms";
                                                 flowkit.index := 0;
                                                 flowkit.sigAlgo := crypto.ECDSA_P256;
                                                 flowkit.hashAlgo := crypto.SHA2_256 |};
                          flowkit.kmsKey := cloudkms.mkKey "flow" "global" "cli" "signer" "1" |} in
  flowkit.accountKeyFromConfig sample.kms_record = Ok k
  /\ flowkit.AccountKey_ToConfig k = sample.kms_record.
Proof.
  intros k.
  assert (Hk : flowkit.accountKeyFromConfig sample.kms_record = Ok k)
    by (vm_compute; reflexivity).
  split; [exact Hk|].
  rewrite (X6_record_of_a_fresh_key sample.kms_record k Hk).
  vm_compute. reflexivity.
Defined.

Lemma X7_witness_rebuilt_or_not :
  flowkit.accountKeyFromConfig (flowkit.AccountKey_ToConfig (flowkit.Bip44 sample.derived))
  = Ok (flowkit.Bip44 sample.derived)
  /\ flowkit.accountKeyFromConfig
       (flowkit.AccountKey_ToConfig
          (flowkit.File (flowkit.NewFileAccountKey "emulator.pkey" 1
                           crypto.ECDSA_P256 crypto.SHA3_256)))
     <> Ok (flowkit.File (flowkit.NewFileAccountKey "emulator.pkey" 1
                            crypto.ECDSA_P256 crypto.SHA3_256)).
Proof.
  split.
  - apply (proj2 (X7_key_record_key (flowkit.Bip44 sample.derived))).
    split; reflexivity.
  - intros Hk.
    apply (proj1 (X7_key_record_key _)) in Hk.
    destruct Hk as (_ & Hindex & _). discriminate Hindex.
Defined.

Lemma X8_witness_two_accounts :
  let NewHexAccountKeyFromPrivateKey :=
    fun index hashAlgo privateKey =>
      flowkit.Hex (flowkit.NewHexAccountKeyFromPrivateKey index hashAlgo privateKey) in
  let accounts :=
    [project.AccountFromAddressAndKey NewHexAccountKeyFromPrivateKey [] sample.derived_key;
     {| project.name := "dave"; project.address := [];
        project.keys := [flowkit.Bip44 sample.derived] |}] in
  project.accountsFromConfig flowkit.accountKeyFromConfig
    {| config.Accounts := project.accountsToConfig flowkit.AccountKey_ToConfig accounts |}
  = Ok accounts.
Proof.
  intros NewHexAccountKeyFromPrivateKey accounts.
  apply (proj2 (X8_accounts_round_trip
                  flowkit.accountKeyFromConfig flowkit.AccountKey_ToConfig accounts)).
  repeat constructor.
Defined.

End concrete_conversions.

Section concrete_calls.

#[local] Existing Instance sample.tags.
#[local] Existing Instance sample.libs.

Lemma X10_witness_sample_derivation :
  exists path master child pkey,
    IsMnemonicValid sample.mnemonic12 = true
    /\ ParseDerivationPath sample.path539 = Ok path
    /\ NewMasterKeyWithCurve (NewSeed sample.mnemonic12 EmptyString) (curve_of sample.derived)
       = Ok master
    /\ derive master path = Ok child
    /\ DecodePrivateKey (flowkit.AccountKey_SigAlgo (flowkit.Bip44 sample.derived)) (Key child)
       = Ok pkey
    /\ flowkit.set_bip44_privateKey (Some sample.derived_key) sample.derived
       = flowkit.set_bip44_privateKey (Some pkey) sample.derived
    /\ sample.derived_world
       = logging (EvNewMasterKey (NewSeed sample.mnemonic12 EmptyString)
                    (curve_of sample.derived)
                  :: map EvNewChildKey path) sample.world.
Proof.
  apply (proj1 (X10_validate_succeeds_exactly_when sample.derived
                  (flowkit.set_bip44_privateKey (Some sample.derived_key) sample.derived)
                  sample.world sample.derived_world)).
  vm_compute. reflexivity.
Defined.

Lemma X12_witness_second_validation :
  let a1 := flowkit.set_bip44_privateKey (Some sample.derived_key) sample.derived in
  fst (flowkit.Bip44AccountKey_Validate a1 sample.derived_world) = (Ok tt, a1)
  /\ count is_derivation (snd (flowkit.Bip44AccountKey_Validate a1 sample.derived_world))
     = (count is_derivation sample.derived_world + 1)%nat
  /\ exists evs, sample.derived_world = logging evs sample.world
                 /\ snd (flowkit.Bip44AccountKey_Validate a1 sample.derived_world)
                    = logging evs sample.derived_world.
Proof.
  intros a1.
  apply (X12_validate_repeats_the_derivation sample.derived a1 sample.world
           sample.derived_world).
  vm_compute. reflexivity.
Defined.

Lemma X14_witness_file_removed :
  let f := flowkit.NewFileAccountKey "emulator.pkey" 0 crypto.ECDSA_P256 crypto.SHA3_256 in
  let pkey := crypto.mkPrivateKey crypto.ECDSA_P256 [Byte.x0a; Byte.x0b; Byte.x0c] in
  let k1 := flowkit.File (flowkit.set_file_privateKey (Some pkey) f) in
  after [CallSigner; CallPrivateKey] k1 sample.world_empty = (k1, sample.world_empty)
  /\ flowkit.AccountKey_PrivateKey k1 sample.world_empty
     = (Ok (Some pkey), k1, sample.world_empty)
  /\ flowkit.AccountKey_Signer k1 sample.world_empty
     = (NewInMemorySigner (Some pkey) (flowkit.AccountKey_HashAlgo (flowkit.File f)),
        k1, sample.world_empty).
Proof.
  intros f pkey k1.
  apply (X14_material_is_never_reloaded (flowkit.File f) k1 sample.world
           (emit (EvReadFile "emulator.pkey") sample.world) (Some pkey)).
  - reflexivity.
  - vm_compute. reflexivity.
Defined.

Lemma X15_witness_missing_file :
  let k := flowkit.File (flowkit.NewFileAccountKey "missing.pkey" 0
                           crypto.ECDSA_P256 crypto.SHA3_256) in
  let err := KeyFileUnreadable "missing.pkey"
               "open missing.pkey: no such file or directory" in
  let w1 := emit (EvReadFile "missing.pkey") sample.world in
  flowkit.AccountKey_PrivateKey k sample.world = (Err err, k, w1)
  /\ k = k
  /\ held k = None
  /\ files w1 = files sample.world
  /\ flowkit.AccountKey_Signer k sample.world = (Err err, k, w1).
Proof.
  intros k err w1.
  assert (Hcall : flowkit.AccountKey_PrivateKey k sample.world = (Err err, k, w1))
    by (vm_compute; reflexivity).
  split; [exact Hcall|].
  apply (X15_failure_is_not_cached k k sample.world w1 err).
  - reflexivity.
  - exact Hcall.
Defined.

Lemma X16_witness_prefixed_and_plain :
  let f := flowkit.NewFileAccountKey "emulator.pkey" 0 crypto.ECDSA_P256 crypto.SHA3_256 in
  fst (flowkit.FileAccountKey_PrivateKey f sample.world)
  = fst (flowkit.FileAccountKey_PrivateKey f sample.world_plain).
Proof.
  intros f.
  apply (X16_key_file_with_or_without_0x f sample.world sample.world_plain "0a0b0c").
  - reflexivity.
  - vm_compute. reflexivity.
  - vm_compute. reflexivity.
  - reflexivity.
Defined.

Lemma X17_witness_hex_record_without_key :
  exists a,
    flowkit.accountKeyFromConfig (sample.key_record "hex" EmptyString) = Ok (flowkit.Hex a)
    /\ flowkit.HexAccountKey_Validate a = Panics flowkit.nil_dereference.
Proof.
  exact (X17_validate_of_a_hex_key (sample.key_record "hex" EmptyString) eq_refl).
Defined.

Lemma X18_witness_derived_text :
  let a1 := flowkit.set_bip44_privateKey (Some sample.derived_key) sample.derived in
  let unchecked :=
    {| flowkit.bip44_base := flowkit.bip44_base sample.derived;
       flowkit.bip44_privateKey := None;
       flowkit.mnemonic := "abandon";
       flowkit.derivationPath := sample.path539 |} in
  flowkit.Bip44AccountKey_PrivateKeyHex sample.derived = Panics flowkit.nil_dereference
  /\ (exists a, flowkit.accountKeyFromConfig sample.derived_record = Ok (flowkit.Bip44 a)
                /\ flowkit.Bip44AccountKey_PrivateKeyHex a = Panics flowkit.nil_dereference)
  /\ (flowkit.Bip44AccountKey_PrivateKey unchecked sample.world
      = (Err InvalidMnemonic, unchecked, sample.world)
      /\ flowkit.Bip44AccountKey_PrivateKeyHex unchecked = Panics flowkit.nil_dereference)
  /\ (flowkit.Bip44AccountKey_PrivateKey sample.derived sample.world
      = (Ok (Some sample.derived_key), a1, sample.derived_world)
      /\ exists pkey,
           Some sample.derived_key = Some pkey
           /\ flowkit.Bip44AccountKey_PrivateKeyHex a1
              = Returns (hex.EncodeToString (crypto.Encode pkey))
           /\ String.length (hex.EncodeToString (crypto.Encode pkey))
              = (2 * length (crypto.Encode pkey))%nat).
Proof.
  intros a1 unchecked.
  destruct X18_hex_text_of_a_derived_key as (Hnone & Hfactory & Hfailed & Hreturned).
  assert (Hfails : flowkit.Bip44AccountKey_PrivateKey unchecked sample.world
                   = (Err InvalidMnemonic, unchecked, sample.world))
    by (vm_compute; reflexivity).
  assert (Hreturns : flowkit.Bip44AccountKey_PrivateKey sample.derived sample.world
                     = (Ok (Some sample.derived_key), a1, sample.derived_world))
    by (vm_compute; reflexivity).
  split; [apply Hnone; reflexivity|].
  split; [apply Hfactory; reflexivity|].
  split; [split; [exact Hfails | exact (Hfailed _ _ _ _ _ Hfails)]|].
  split; [exact Hreturns | exact (Hreturned _ _ _ _ _ Hreturns)].
Defined.

(** The hexadecimal text of the sample key. *)
Lemma PrivateKeyHex_sample_derived :
  flowkit.Bip44AccountKey_PrivateKeyHex
    (flowkit.set_bip44_privateKey (Some sample.derived_key) sample.derived)
  = Returns "016162616e2c1b000000".
Proof. vm_compute. reflexivity. Qed.

End concrete_calls.

Section concrete_materialization.

#[local] Existing Instance sample.tags.
#[local] Existing Instance sample.libs.

Lemma C8_witness_file_and_derived :
  let f := flowkit.NewFileAccountKey "emulator.pkey" 0 crypto.ECDSA_P256 crypto.SHA3_256 in
  let pkey := crypto.mkPrivateKey crypto.ECDSA_P256 [Byte.x0a; Byte.x0b; Byte.x0c] in
  let f1 := flowkit.File (flowkit.set_file_privateKey (Some pkey) f) in
  let w1 := logging [EvReadFile "emulator.pkey"] sample.world in
  let a1 :=
    flowkit.Bip44 (flowkit.set_bip44_privateKey (Some sample.derived_key) sample.derived) in
  let lost :=
    flowkit.File (flowkit.NewFileAccountKey "missing.pkey" 0
                    crypto.ECDSA_P256 crypto.SHA3_256) in
  let err :=
    KeyFileUnreadable "missing.pkey" "open missing.pkey: no such file or directory" in
  let u1 := logging [EvReadFile "missing.pkey"] sample.world in
  let u2 := logging [EvReadFile "missing.pkey"] u1 in
  (flowkit.AccountKey_PrivateKey (flowkit.File f) sample.world = (Ok (Some pkey), f1, w1)
   /\ flowkit.AccountKey_PrivateKey f1 w1 = (Ok (Some pkey), f1, w1)
   /\ (count is_read w1 + count is_derivation w1
       <= count is_read sample.world + count is_derivation sample.world + 1)%nat)
  /\ (flowkit.AccountKey_PrivateKey (flowkit.Bip44 sample.derived) sample.world
      = (Ok (Some sample.derived_key), a1, sample.derived_world)
      /\ flowkit.AccountKey_PrivateKey a1 sample.derived_world
         = (Ok (Some sample.derived_key), a1, sample.derived_world)
      /\ (count is_read sample.derived_world + count is_derivation sample.derived_world
          <= count is_read sample.world + count is_derivation sample.world + 1)%nat)
  /\ (flowkit.AccountKey_PrivateKey lost sample.world = (Err err, lost, u1)
      /\ flowkit.AccountKey_PrivateKey lost u1 = (Err err, lost, u2)
      /\ count is_read u2 = (count is_read sample.world + 2)%nat).
Proof.
  intros f pkey f1 w1 a1 lost err u1 u2.
  split; [| split].
  - destruct (C8_materialized_once_if_returned (flowkit.File f) sample.world eq_refl)
      as (Hreturned & _ & Hfile & _).
    assert (Hfirst : flowkit.AccountKey_PrivateKey (flowkit.File f) sample.world
                     = (Ok (Some pkey), f1, w1)).
    { apply (Hfile f "0x0a0b0c" pkey); [reflexivity | reflexivity | | ];
        vm_compute; reflexivity. }
    destruct (Hreturned _ _ _ Hfirst) as (Hsecond & _ & _ & Hwork).
    split; [exact Hfirst | split; [exact Hsecond | exact Hwork]].
  - destruct (C8_materialized_once_if_returned (flowkit.Bip44 sample.derived) sample.world
                eq_refl) as (Hreturned & _ & _ & Hderived).
    assert (Hfirst : flowkit.AccountKey_PrivateKey (flowkit.Bip44 sample.derived) sample.world
                     = (Ok (Some sample.derived_key), a1, sample.derived_world)).
    { apply (Hderived sample.derived
               [2147483692; 2147484187; 2147483648; 0; 0]%N
               [Byte.x01; Byte.x61; Byte.x62; Byte.x61; Byte.x6e]
               [Byte.x01; Byte.x61; Byte.x62; Byte.x61; Byte.x6e;
                Byte.x2c; Byte.x1b; Byte.x00; Byte.x00; Byte.x00]
               sample.derived_key);
        vm_compute; reflexivity. }
    destruct (Hreturned _ _ _ Hfirst) as (Hsecond & _ & _ & Hwork).
    split; [exact Hfirst | split; [exact Hsecond | exact Hwork]].
  - destruct (C8_materialized_once_if_returned lost sample.world eq_refl)
      as (_ & Hfailed & _).
    assert (Hfirst : flowkit.AccountKey_PrivateKey lost sample.world = (Err err, lost, u1))
      by (vm_compute; reflexivity).
    destruct (Hfailed _ _ _ Hfirst) as (_ & _ & evs & w2 & _ & Hsecond & Hw2 & Hread & _).
    destruct (Hread _ eq_refl) as (Hevs & Hcount).
    rewrite Hevs in Hw2. cbn [flowkit.location flowkit.NewFileAccountKey] in Hw2.
    fold u2 in Hw2. rewrite Hw2 in Hsecond, Hcount.
    split; [exact Hfirst | split; [exact Hsecond | exact Hcount]].
Defined.

(** C8, refuted as the specification words it: when the key file is
    missing, or is there and does not decode, both calls fail and the file
    is read twice. With a library that refuses a child key, the master key
    of a Bip44 key is derived twice. *)
Lemma C8_failed_load_is_repeated :
  let lost :=
    flowkit.File (flowkit.NewFileAccountKey "missing.pkey" 0
                    crypto.ECDSA_P256 crypto.SHA3_256) in
  let err :=
    KeyFileUnreadable "missing.pkey" "open missing.pkey: no such file or directory" in
  let first := flowkit.AccountKey_PrivateKey lost sample.world in
  let second := flowkit.AccountKey_PrivateKey (snd (fst first)) (snd first) in
  let broken :=
    flowkit.File (flowkit.NewFileAccountKey "emulator.pkey" 0
                    crypto.ECDSA_P256 crypto.SHA3_256) in
  let world_broken := {| files := {[ "emulator.pkey" := "0x0g" ]}; trace := [] |} in
  let err_broken := KeyDecodeError "emulator.pkey" "invalid private key" in
  let first_broken := flowkit.AccountKey_PrivateKey broken world_broken in
  let second_broken :=
    flowkit.AccountKey_PrivateKey (snd (fst first_broken)) (snd first_broken) in
  let first_refused :=
    flowkit.AccountKey_PrivateKey (L := sample.libs_refusing)
      (flowkit.Bip44 sample.derived) sample.world in
  let second_refused :=
    flowkit.AccountKey_PrivateKey (L := sample.libs_refusing)
      (snd (fst first_refused)) (snd first_refused) in
  lazily_materialized lost = true
  /\ first = (Err err, lost, logging [EvReadFile "missing.pkey"] sample.world)
  /\ fst (fst second) = Err err
  /\ trace (snd second) = [EvReadFile "missing.pkey"; EvReadFile "missing.pkey"]
  /\ count is_read sample.world = 0%nat
  /\ count is_read (snd second) = 2%nat
  /\ first_broken = (Err err_broken, broken, logging [EvReadFile "emulator.pkey"] world_broken)
  /\ fst (fst second_broken) = Err err_broken
  /\ count is_read (snd second_broken) = 2%nat
  /\ fst (fst first_refused) = Err "slip10: invalid child index"
  /\ fst (fst second_refused) = Err "slip10: invalid child index"
  /\ count is_derivation (snd second_refused) = 2%nat
  /\ ~ materialized_at_most_once.
Proof.
  intros lost err first second broken world_broken err_broken first_broken second_broken
         first_refused second_refused.
  repeat (split; [vm_compute; reflexivity|]).
  intros Hclaim.
  destruct (Hclaim lost sample.world eq_refl) as [Hwork _].
  vm_compute in Hwork. lia.
Qed.

End concrete_materialization.

Section concrete_refusal.

#[local] Existing Instance sample.tags.
#[local] Existing Instance sample.libs_refusing.

Lemma X11_witness_refused_child :
  flowkit.Bip44AccountKey_Validate sample.derived sample.world
  = (Err "slip10: invalid child index", sample.derived,
     logging (EvNewMasterKey (NewSeed sample.mnemonic12 EmptyString) slip10.CurveBitcoin
              :: map EvNewChildKey [2147483692; 2147484187; 2147483648; 0]%N) sample.world).
Proof.
  apply (X11_validate_stops_at_the_refused_segment (L := sample.libs_refusing)
           sample.derived sample.world
           [2147483692; 2147484187; 2147483648]%N [0%N] 0%N
           [Byte.x01; Byte.x61; Byte.x62; Byte.x61; Byte.x6e]
           [Byte.x01; Byte.x61; Byte.x62; Byte.x61; Byte.x6e; Byte.x2c; Byte.x1b; Byte.x00]
           "slip10: invalid child index").
  - vm_compute. reflexivity.
  - vm_compute. reflexivity.
  - vm_compute. reflexivity.
  - vm_compute. reflexivity.
  - vm_compute. reflexivity.
Defined.

End concrete_refusal.

Section concrete_login.

#[local] Existing Instance sample.tags.
#[local] Existing Instance sample.libs.

Lemma X19_witness_login :
  let p1 := {| environ := {[ flowkit.GOOGLE_APPLICATION_CREDENTIALS := sample.credentials_file ]};
               commands := [flowkit.loginCmd "flow"] |} in
  flowkit.gcloudApplicationSignin (SH := sample.shell) sample.resource1 sample.process
  = (Returns (Ok tt), p1)
  /\ flowkit.gcloudApplicationSignin (SH := sample.shell) "not a resource" p1
     = (Returns (Ok tt), p1).
Proof.
  intros p1.
  destruct (X19_login_happens_once (SH := sample.shell) sample.resource1 sample.process
              (cloudkms.mkKey "flow" "global" "cli" "signer" "1")
              "Credentials saved to file: " sample.credentials_file EmptyString)
    as [Hrun Hagain].
  - vm_compute. reflexivity.
  - vm_compute. reflexivity.
  - vm_compute. discriminate.
  - vm_compute. reflexivity.
  - vm_compute. reflexivity.
  - vm_compute. reflexivity.
  - vm_compute. reflexivity.
  - split.
    + rewrite Hrun. vm_compute. reflexivity.
    + assert (Hp1 : p1 = {| environ := <[flowkit.GOOGLE_APPLICATION_CREDENTIALS
                                         := sample.credentials_file]> (environ sample.process);
                            commands := commands sample.process ++ [flowkit.loginCmd "flow"] |})
        by (vm_compute; reflexivity).
      rewrite Hp1. apply Hagain. vm_compute. discriminate.
Defined.

Lemma X20_witness_quiet_login :
  flowkit.gcloudApplicationSignin (SH := sample.shell_quiet) sample.resource1 sample.process
  = (Panics "runtime error: index out of range [0] with length 0",
     {| environ := environ sample.process;
        commands := commands sample.process ++ [flowkit.loginCmd "flow"] |}).
Proof.
  apply (X20_login_without_brackets_panics (SH := sample.shell_quiet) sample.resource1
           sample.process (cloudkms.mkKey "flow" "global" "cli" "signer" "1")
           "You are now logged in.").
  - vm_compute. reflexivity.
  - vm_compute. reflexivity.
  - vm_compute. discriminate.
  - vm_compute. reflexivity.
  - left. vm_compute. reflexivity.
Defined.

End concrete_login.

(** ** Signers *)

Section signers.

Context {KT : config.KeyTypes} {L : Libs}.

(** X22. [Signer] on a Hex, File or Bip44 key is [PrivateKey] followed by
    the in-memory signer of the library, made of the material returned and
    the hash algorithm of the key with the default filled in. A failure of
    [PrivateKey] is the failure of [Signer], with the same error, and the
    library is not asked for a signer; key and world end as [PrivateKey]
    leaves them. *)
Theorem X22_signer_is_private_key_then_library (k : flowkit.AccountKey) (w : World) :
  variant_of k <> KMS ->
  flowkit.AccountKey_Signer k w
  = match flowkit.AccountKey_PrivateKey k w with
    | (Ok m, k1, w1) => (NewInMemorySigner m (flowkit.AccountKey_HashAlgo k), k1, w1)
    | (Err err, k1, w1) => (Err err, k1, w1)
    end.
Proof.
  intros Hv. rewrite (Signer_run k w Hv).
  destruct (PrivateKey_state k w) as (c & Hk & _).
  destruct (flowkit.AccountKey_PrivateKey k w) as [[[m|err] k1] w1]; [|reflexivity].
  cbn in Hk. subst k1. unfold flowkit.AccountKey_HashAlgo. rewrite with_held_base.
  reflexivity.
Qed.

End signers.

Section concrete_signers.

#[local] Existing Instance sample.tags.
#[local] Existing Instance sample.libs.

Lemma X22_witness_file_signer :
  let f := flowkit.NewFileAccountKey "emulator.pkey" 0 crypto.ECDSA_P256
             crypto.UnknownHashAlgorithm in
  let pkey := crypto.mkPrivateKey crypto.ECDSA_P256 [Byte.x0a; Byte.x0b; Byte.x0c] in
  flowkit.AccountKey_Signer (flowkit.File f) sample.world
  = (Ok (Some pkey, crypto.SHA3_256),
     flowkit.File (flowkit.set_file_privateKey (Some pkey) f),
     emit (EvReadFile "emulator.pkey") sample.world).
Proof.
  intros f pkey.
  rewrite (X22_signer_is_private_key_then_library (flowkit.File f) sample.world).
  - vm_compute. reflexivity.
  - vm_compute. discriminate.
Defined.

End concrete_signers.
